(** * Targon provider adapter: a shallow embedding and its properties

    The development follows the TypeScript sources:

    - [src/api/transform/targon-format.ts]: [getApiMetrics],
      [TargonFormatRequest] and [TargonFormatResponse];
    - [src/test/targon-test.ts] (second part): the [TargonHandler] with
      prompt rewriting, tool-call rendering and the 503 retry; embedded
      in [Module Handler];
    - [src/api/providers/targon.ts]: the plain [TargonHandler]; embedded
      in [Module PlainHandler].

    Conventions of the embedding.

    - A JavaScript string is a [string]: one [ascii] per code unit, so the
      strings covered are those whose code units are below 256.
    - A JavaScript number is a [Z]: token counts, HTTP status codes and
      millisecond clocks are integers, taken exact and printed in plain
      decimal (as JavaScript does below 2^53 and 10^21); 0.7 is the
      rational [7 # 10].
    - A value decoded from JSON text may also be a number that is not an
      integer, kept as a decimal ([Json.JFrac]) and exact up to 15
      significant digits.  For a text whose value lies beyond these
      ranges (a code unit above 255, a longer decimal), [Json.decode]
      says so ([Json.BeyondRange]) and gives the value that stands for
      it.
    - [undefined] (and [null]) in an optional position is [None].
    - An async generator is run to its end against a scripted client; the
      result records the fragments yielded, the requests submitted, and
      whether the generator returned or threw.
    - [console.log] / [console.error] calls are not part of the state.
    - [createMessage] is the method as written; the [@withRetry()]
      decorator around it comes from a module that is not among the
      sources and is left out. *)

From Stdlib Require Import ZArith String Ascii List Bool Lia QArith.
From Stdlib Require Import DecimalString DecimalPos DecimalFacts.
From stdpp Require Import gmap strings.

Set Warnings "-register-all".

Open Scope string_scope.
Open Scope list_scope.
Open Scope Z_scope.

(* ================================================================== *)
(** ** JavaScript strings *)
(* ================================================================== *)

Module JsString.

(** [s.startsWith(p)] *)
Fixpoint startsWith (s p : string) {struct p} : bool :=
  match p, s with
  | EmptyString, _ => true
  | String _ _, EmptyString => false
  | String a p', String b s' => if Ascii.eqb a b then startsWith s' p' else false
  end.

(** [s.includes(sub)]: [sub] occurs at some position of [s]. *)
Fixpoint includes (s sub : string) : bool :=
  startsWith s sub ||
  match s with
  | EmptyString => false
  | String _ s' => includes s' sub
  end.

(** One code unit of [toLowerCase] on the range below 256: the ASCII
    capitals and the Latin-1 capitals U+00C0..U+00DE (U+00D7, the
    multiplication sign, has no case) move up by 32. *)
Definition lowerChar (c : ascii) : ascii :=
  let n := nat_of_ascii c in
  if ((65 <=? n) && (n <=? 90))%nat
     || ((192 <=? n) && (n <=? 222) && negb (n =? 215))%nat
  then ascii_of_nat (n + 32) else c.

(** [s.toLowerCase()] *)
Fixpoint toLowerCase (s : string) : string :=
  match s with
  | EmptyString => EmptyString
  | String c s' => String (lowerChar c) (toLowerCase s')
  end.

(** A non-empty string is truthy. *)
Definition truthy (s : string) : bool :=
  match s with EmptyString => false | String _ _ => true end.

(** [String(n)] / [`${n}`] for an integer [n]. *)
Definition ofNumber (n : Z) : string := NilZero.string_of_int (Z.to_int n).

Fixpoint zeros (n : nat) : string :=
  match n with
  | O => EmptyString
  | S n' => String "0"%char (zeros n')
  end.

(** The first [n] characters of [s], and the others. *)
Fixpoint splitAt (n : nat) (s : string) : string * string :=
  match n, s with
  | S n', String c s' => let '(a, b) := splitAt n' s' in (String c a, b)
  | _, _ => (EmptyString, s)
  end.

(** [String(x)] / [`${x}`] for the number [x = m / 10^p] when it is not
    an integer ([m] not a multiple of 10): Number::toString, radix 10,
    on the decimal digits of [m].  With [k] the number of digits and
    [n = k - p] the place of the point: positional notation when
    [-5 <= n <= 21], exponential notation otherwise. *)
Definition ofFraction (m : Z) (p : positive) : string :=
  let digits := ofNumber (Z.abs m) in
  let k := Z.of_nat (String.length digits) in
  let n := k - Z.pos p in
  (if m <? 0 then "-" else "") +:+
  (if (0 <? n) && (n <=? 21) then
     let '(a, b) := splitAt (Z.to_nat n) digits in a +:+ "." +:+ b
   else if (-6 <? n) && (n <=? 0) then
     "0." +:+ zeros (Z.to_nat (- n)) +:+ digits
   else
     let '(a, b) := splitAt 1 digits in
     a +:+ (if truthy b then "." +:+ b else "")
     +:+ "e" +:+ (if 0 <? n - 1 then "+" else "-") +:+ ofNumber (Z.abs (n - 1))).

(** The capital of a lower-case ASCII letter. *)
Definition capitalOf (c : ascii) : ascii := ascii_of_nat (nat_of_ascii c - 32).

Definition isLowerLetter (c : ascii) : Prop :=
  (97 <= nat_of_ascii c <= 122)%nat.

(** A word of lower-case letters. *)
Fixpoint lowerWord (w : string) : Prop :=
  match w with
  | EmptyString => True
  | String c w' => isLowerLetter c /\ lowerWord w'
  end.

(** [a] and the lower-case word [b] are the same word up to the case of
    each letter. *)
Fixpoint equalIgnoringCase (a b : string) : Prop :=
  match a, b with
  | EmptyString, EmptyString => True
  | String x a', String y b' => (x = y \/ x = capitalOf y) /\ equalIgnoringCase a' b'
  | _, _ => False
  end.

(** [s] contains the lower-case word [kw] up to case. *)
Definition containsIgnoringCase (s kw : string) : Prop :=
  exists pre mid post, s = pre +:+ mid +:+ post /\ equalIgnoringCase mid kw.

End JsString.

(* ================================================================== *)
(** ** JSON values, [JSON.stringify], [JSON.parse] and coercions *)
(* ================================================================== *)

Module Json.
Import JsString.

(** Values that JSON text denotes.  A number is [JNum n] when it is the
    integer [n], and [JFrac m p] when it is [m / 10^p] and not an
    integer ([m] not a multiple of 10).  An object lists its own
    properties in JavaScript's enumeration order (array-index keys
    ascending, then the other keys in insertion order), without
    repetition. *)
Inductive JsVal : Type :=
| JNull
| JBool (b : bool)
| JNum (n : Z)
| JFrac (m : Z) (p : positive)
| JStr (s : string)
| JArr (items : list JsVal)
| JObj (fields : list (string * JsVal)).

(** The double-quote character and a helper to write JSON text in this
    file: [dquotes] turns every apostrophe into a double quote. *)
Definition dq : ascii := "034"%char.

Fixpoint dquotes (s : string) : string :=
  match s with
  | EmptyString => EmptyString
  | String c s' => String (if Ascii.eqb c "'"%char then dq else c) (dquotes s')
  end.

(** *** [JSON.stringify] *)

Definition hexDigit (n : nat) : ascii :=
  ascii_of_nat (if (n <? 10)%nat then 48 + n else 87 + n).

(** QuoteJSONString, one code unit. *)
Definition escapeChar (c : ascii) : string :=
  let n := nat_of_ascii c in
  if (n =? 8)%nat then "\b"
  else if (n =? 9)%nat then "\t"
  else if (n =? 10)%nat then "\n"
  else if (n =? 12)%nat then "\f"
  else if (n =? 13)%nat then "\r"
  else if (n =? 34)%nat then String "\"%char (String dq EmptyString)
  else if (n =? 92)%nat then "\\"
  else if (n <? 32)%nat then
    "\u00" +:+ String (hexDigit (n / 16)) (String (hexDigit (n mod 16)) EmptyString)
  else String c EmptyString.

Fixpoint escape (s : string) : string :=
  match s with
  | EmptyString => EmptyString
  | String c s' => escapeChar c +:+ escape s'
  end.

Definition quote (s : string) : string :=
  String dq (escape s) +:+ String dq EmptyString.

(** [JSON.stringify(v)] without indentation. *)
Fixpoint stringify (v : JsVal) : string :=
  match v with
  | JNull => "null"
  | JBool true => "true"
  | JBool false => "false"
  | JNum n => ofNumber n
  | JFrac m p => ofFraction m p
  | JStr s => quote s
  | JArr items =>
      "[" +:+
      (fix elems (l : list JsVal) : string :=
         match l with
         | [] => ""
         | [x] => stringify x
         | x :: l' => stringify x +:+ "," +:+ elems l'
         end) items +:+ "]"
  | JObj fields =>
      "{" +:+
      (fix members (l : list (string * JsVal)) : string :=
         match l with
         | [] => ""
         | [(k, x)] => quote k +:+ ":" +:+ stringify x
         | (k, x) :: l' => quote k +:+ ":" +:+ stringify x +:+ "," +:+ members l'
         end) fields +:+ "}"
  end.

(** [JSON.stringify] of an object literal: a property whose value is
    [undefined] is left out. *)
Definition objectLiteral (props : list (string * option JsVal)) : JsVal :=
  JObj (omap (fun p => match snd p with
                       | Some v => Some (fst p, v)
                       | None => None
                       end) props).

(** *** Property access *)

(** Own property [k] of an object's property list. *)
Fixpoint getOwn (fields : list (string * JsVal)) (k : string) : option JsVal :=
  match fields with
  | [] => None
  | (k', v) :: fields' => if String.eqb k' k then Some v else getOwn fields' k
  end.

Definition isDigit (c : ascii) : bool :=
  let n := nat_of_ascii c in ((48 <=? n) && (n <=? 57))%nat.

Definition digitValue (c : ascii) : Z := Z.of_nat (nat_of_ascii c) - 48.

(** Reads a run of decimal digits: the value read so far, extended. *)
Fixpoint digits (acc : Z) (s : string) : Z * string :=
  match s with
  | String c s' => if isDigit c then digits (10 * acc + digitValue c) s' else (acc, s)
  | EmptyString => (acc, s)
  end.

(** An array index is the canonical numeral of an integer below
    2^32 - 1. *)
Definition arrayIndex (k : string) : option Z :=
  match k with
  | EmptyString => None
  | String c k' =>
      if isDigit c then
        match digits 0 k with
        | (n, EmptyString) =>
            if (Ascii.eqb c "0"%char && negb (String.eqb k' ""))
               || (4294967294 <? n)
            then None else Some n
        | _ => None
        end
      else None
  end.

(** Creating or overwriting own property [k]: an existing key keeps its
    place; a new array index goes in ascending position among the
    indices; any other new key goes last. *)
Fixpoint replaceOwn (fields : list (string * JsVal)) (k : string) (v : JsVal)
  : list (string * JsVal) :=
  match fields with
  | [] => []
  | (k', v') :: fields' =>
      if String.eqb k' k then (k, v) :: fields'
      else (k', v') :: replaceOwn fields' k v
  end.

Fixpoint insertIndex (n : Z) (k : string) (v : JsVal)
  (fields : list (string * JsVal)) : list (string * JsVal) :=
  match fields with
  | [] => [(k, v)]
  | (k', v') :: fields' =>
      match arrayIndex k' with
      | Some n' =>
          if n <? n' then (k, v) :: fields
          else (k', v') :: insertIndex n k v fields'
      | None => (k, v) :: fields
      end
  end.

Definition objSet (fields : list (string * JsVal)) (k : string) (v : JsVal)
  : list (string * JsVal) :=
  match getOwn fields k with
  | Some _ => replaceOwn fields k v
  | None =>
      match arrayIndex k with
      | Some n => insertIndex n k v fields
      | None => fields ++ [(k, v)]
      end
  end.

(** *** [JSON.parse]

    The grammar is JSON's.  Not every value that a well-formed text
    denotes has an exact counterpart among the values above: a string
    with a code unit above 255 (written with a [\u] escape) has none,
    nor has a number written with a fraction or an exponent whose
    shortest decimal form has more than 15 digits or which lies outside
    10^-300 .. 10^21, where the nearest double need not print as the
    text reads.  The descent reads such a text like any other and marks
    what it returns: [Exact v] is the value [JSON.parse] returns;
    [Approx v] stands for a value beyond this range, with each code unit
    above 255 replaced by a question mark and each number taken as the
    decimal the text writes. *)

Inductive Ranged (A : Type) : Type :=
| Exact (a : A)
| Approx (a : A).
Arguments Exact {A} a.
Arguments Approx {A} a.

Definition valueOf {A : Type} (r : Ranged A) : A :=
  match r with
  | Exact a | Approx a => a
  end.

Definition rangedMap {A B : Type} (f : A -> B) (r : Ranged A) : Ranged B :=
  match r with
  | Exact a => Exact (f a)
  | Approx a => Approx (f a)
  end.

(** Exact when both parts are. *)
Definition rangedMap2 {A B C : Type} (f : A -> B -> C) (x : Ranged A) (y : Ranged B)
  : Ranged C :=
  match x, y with
  | Exact a, Exact b => Exact (f a b)
  | _, _ => Approx (f (valueOf x) (valueOf y))
  end.

Inductive Parse (A : Type) : Type :=
| Parsed (a : A) (rest : string)
| Malformed
| OutOfFuel.
Arguments Parsed {A} a rest.
Arguments Malformed {A}.
Arguments OutOfFuel {A}.

Definition isWs (c : ascii) : bool :=
  let n := nat_of_ascii c in
  ((n =? 32) || (n =? 9) || (n =? 10) || (n =? 13))%nat.

Fixpoint skipWs (s : string) : string :=
  match s with
  | String c s' => if isWs c then skipWs s' else s
  | EmptyString => s
  end.

Definition hexValue (c : ascii) : option nat :=
  let n := nat_of_ascii c in
  if ((48 <=? n) && (n <=? 57))%nat then Some (n - 48)%nat
  else if ((97 <=? n) && (n <=? 102))%nat then Some (n - 87)%nat
  else if ((65 <=? n) && (n <=? 70))%nat then Some (n - 55)%nat
  else None.

Definition hex4 (a b c d : ascii) : option nat :=
  match hexValue a, hexValue b, hexValue c, hexValue d with
  | Some x, Some y, Some z, Some w => Some (((x * 16 + y) * 16 + z) * 16 + w)%nat
  | _, _, _, _ => None
  end.

(** The character a two-character escape stands for. *)
Definition simpleEscape (e : ascii) : option ascii :=
  let n := nat_of_ascii e in
  if (n =? 34)%nat then Some dq
  else if (n =? 92)%nat then Some "\"%char
  else if (n =? 47)%nat then Some "/"%char
  else if (n =? 98)%nat then Some "008"%char
  else if (n =? 102)%nat then Some "012"%char
  else if (n =? 110)%nat then Some "010"%char
  else if (n =? 114)%nat then Some "013"%char
  else if (n =? 116)%nat then Some "009"%char
  else None.

(** One more character in front of a string body already read. *)
Definition push (c : ascii) (r : option (Ranged string * string))
  : option (Ranged string * string) :=
  match r with
  | Some (str, rest) => Some (rangedMap (String c) str, rest)
  | None => None
  end.

(** A code unit above 255 in front of a string body. *)
Definition pushWide (r : option (Ranged string * string))
  : option (Ranged string * string) :=
  match r with
  | Some (str, rest) => Some (Approx (String "?"%char (valueOf str)), rest)
  | None => None
  end.

(** The value of a decimal numeral read after [acc], by Horner's rule. *)
Fixpoint decimalValue (acc : Z) (d : Decimal.uint) : Z :=
  match d with
  | Decimal.Nil => acc
  | Decimal.D0 l => decimalValue (10 * acc + 0) l
  | Decimal.D1 l => decimalValue (10 * acc + 1) l
  | Decimal.D2 l => decimalValue (10 * acc + 2) l
  | Decimal.D3 l => decimalValue (10 * acc + 3) l
  | Decimal.D4 l => decimalValue (10 * acc + 4) l
  | Decimal.D5 l => decimalValue (10 * acc + 5) l
  | Decimal.D6 l => decimalValue (10 * acc + 6) l
  | Decimal.D7 l => decimalValue (10 * acc + 7) l
  | Decimal.D8 l => decimalValue (10 * acc + 8) l
  | Decimal.D9 l => decimalValue (10 * acc + 9) l
  end.

(** What may follow an integer numeral: the end of the text, or a
    character that neither continues the digits nor starts a fraction or
    an exponent. *)
Definition endsNumber (rest : string) : bool :=
  match rest with
  | EmptyString => true
  | String d _ =>
      negb (isDigit d || Ascii.eqb d "."%char || Ascii.eqb d "e"%char || Ascii.eqb d "E"%char)
  end.

(** The body of a string literal, after its opening quote: the string,
    and what follows the closing quote; [None] when the literal is
    malformed. *)
Fixpoint parseStringBody (s : string) : option (Ranged string * string) :=
  match s with
  | EmptyString => None
  | String c s' =>
      if Ascii.eqb c dq then Some (Exact EmptyString, s')
      else if Ascii.eqb c "\"%char then
        match s' with
        | EmptyString => None
        | String e s'' =>
            match simpleEscape e with
            | Some x => push x (parseStringBody s'')
            | None =>
                if Ascii.eqb e "u"%char then
                  match s'' with
                  | String h1 (String h2 (String h3 (String h4 s4))) =>
                      match hex4 h1 h2 h3 h4 with
                      | Some n =>
                          if (n <? 256)%nat
                          then push (ascii_of_nat n) (parseStringBody s4)
                          else pushWide (parseStringBody s4)
                      | None => None
                      end
                  | _ => None
                  end
                else None
            end
        end
      else if (nat_of_ascii c <? 32)%nat then None
      else push c (parseStringBody s')
  end.

(** Trailing zeros of a mantissa move into the exponent. *)
Fixpoint stripZeros (fuel : nat) (m e : Z) : Z * Z :=
  match fuel with
  | O => (m, e)
  | S fuel' => if m mod 10 =? 0 then stripZeros fuel' (m / 10) (e + 1) else (m, e)
  end.

(** The number [m * 10 ^ e], negated when [neg], that a numeral with a
    fraction or an exponent denotes ([m >= 0]).  Zero is [JNum 0]
    whatever its sign: [-0] prints as "0", is falsy and is not above
    0. *)
Definition scientificValue (neg : bool) (m e : Z) : Ranged JsVal :=
  if m =? 0 then Exact (JNum 0)
  else
    let '(m', e') := stripZeros (Z.to_nat (Z.log2 m)) m e in
    let sign := if neg then -1 else 1 in
    if 0 <=? e' then
      let value := JNum (sign * (m' * 10 ^ e')) in
      if (m' <? 10 ^ 15) && (e' <=? 21) && (m' * 10 ^ e' <? 10 ^ 21)
      then Exact value else Approx value
    else
      let value := JFrac (sign * m') (Z.to_pos (- e')) in
      if (m' <? 10 ^ 15) && (-300 <=? e') then Exact value else Approx value.

(** The fraction of a numeral, if there is one, after the integer part
    [n]: the digits read extend [n], and are counted.  [None]: a point
    that no digit follows. *)
Definition fraction (n : Z) (s : string) : option (Z * Z * string) :=
  match s with
  | String c r =>
      if Ascii.eqb c "."%char then
        let '(m, rest) := digits n r in
        if (String.length rest <? String.length r)%nat
        then Some (m, Z.of_nat (String.length r - String.length rest), rest)
        else None
      else Some (n, 0, s)
  | EmptyString => Some (n, 0, s)
  end.

(** The exponent of a numeral, if there is one.  [None]: an [e] that no
    digit follows. *)
Definition exponent (s : string) : option (Z * string) :=
  match s with
  | String c r =>
      if Ascii.eqb c "e"%char || Ascii.eqb c "E"%char then
        let '(neg, r1) :=
          match r with
          | String sign r' =>
              if Ascii.eqb sign "-"%char then (true, r')
              else if Ascii.eqb sign "+"%char then (false, r')
              else (false, r)
          | EmptyString => (false, r)
          end in
        let '(e, rest) := digits 0 r1 in
        if (String.length rest <? String.length r1)%nat
        then Some (if neg then - e else e, rest)
        else None
      else Some (0, s)
  | EmptyString => Some (0, s)
  end.

(** What follows the integer part [n] of a numeral when that is a point
    or an exponent. *)
Definition scientific (neg : bool) (n : Z) (s : string) : option (Ranged JsVal * string) :=
  match fraction n s with
  | Some (m, places, r1) =>
      match exponent r1 with
      | Some (e, rest) => Some (scientificValue neg m (e - places), rest)
      | None => None
      end
  | None => None
  end.

(** A numeral: an optional minus sign, then either a single zero or a
    digit from 1 to 9 followed by any digits, then an optional fraction
    and an optional exponent.  An integer numeral is read exactly. *)
Definition parseNumber (s : string) : option (Ranged JsVal * string) :=
  let '(neg, s1) :=
    match s with
    | String c r => if Ascii.eqb c "-"%char then (true, r) else (false, s)
    | EmptyString => (false, s)
    end in
  match s1 with
  | EmptyString => None
  | String c r =>
      if isDigit c then
        let '(n, rest) := if Ascii.eqb c "0"%char then (0, r) else digits 0 s1 in
        let value := if neg then - n else n in
        match rest with
        | String d _ =>
            if Ascii.eqb d "."%char || Ascii.eqb d "e"%char || Ascii.eqb d "E"%char
            then scientific neg n rest else Some (Exact (JNum value), rest)
        | EmptyString => Some (Exact (JNum value), rest)
        end
      else None
  end.

(** [s] without its prefix [p]. *)
Fixpoint stripPrefix (p s : string) {struct p} : option string :=
  match p, s with
  | EmptyString, _ => Some s
  | String a p', String b s' => if Ascii.eqb a b then stripPrefix p' s' else None
  | String _ _, EmptyString => None
  end.

Definition literal (p : string) (v : JsVal) (s : string) : Parse (Ranged JsVal) :=
  match stripPrefix p s with
  | Some rest => Parsed (Exact v) rest
  | None => Malformed
  end.

(** One more member of an object. *)
Definition setMember (acc : Ranged (list (string * JsVal))) (k : Ranged string)
  (v : Ranged JsVal) : Ranged (list (string * JsVal)) :=
  rangedMap2 (fun fields member => objSet fields (fst member) (snd member))
             acc (rangedMap2 pair k v).

Fixpoint parseValue (fuel : nat) (s : string) : Parse (Ranged JsVal) :=
  match fuel with
  | O => OutOfFuel
  | S fuel' =>
      match skipWs s with
      | EmptyString => Malformed
      | String c r =>
          if Ascii.eqb c "["%char then
            match skipWs r with
            | String c' r' =>
                if Ascii.eqb c' "]"%char then Parsed (Exact (JArr [])) r'
                else
                  match parseElems fuel' r with
                  | Parsed items rest => Parsed (rangedMap JArr items) rest
                  | Malformed => Malformed
                  | OutOfFuel => OutOfFuel
                  end
            | EmptyString => Malformed
            end
          else if Ascii.eqb c "{"%char then
            match skipWs r with
            | String c' r' =>
                if Ascii.eqb c' "}"%char then Parsed (Exact (JObj [])) r'
                else
                  match parseMembers fuel' (Exact []) r with
                  | Parsed fields rest => Parsed (rangedMap JObj fields) rest
                  | Malformed => Malformed
                  | OutOfFuel => OutOfFuel
                  end
            | EmptyString => Malformed
            end
          else if Ascii.eqb c dq then
            match parseStringBody r with
            | Some (str, rest) => Parsed (rangedMap JStr str) rest
            | None => Malformed
            end
          else if Ascii.eqb c "-"%char || isDigit c then
            match parseNumber (String c r) with
            | Some (v, rest) => Parsed v rest
            | None => Malformed
            end
          else if Ascii.eqb c "t"%char then literal "true" (JBool true) (String c r)
          else if Ascii.eqb c "f"%char then literal "false" (JBool false) (String c r)
          else if Ascii.eqb c "n"%char then literal "null" JNull (String c r)
          else Malformed
      end
  end

with parseElems (fuel : nat) (s : string) : Parse (Ranged (list JsVal)) :=
  match fuel with
  | O => OutOfFuel
  | S fuel' =>
      match parseValue fuel' s with
      | Parsed v r =>
          match skipWs r with
          | String c r' =>
              if Ascii.eqb c ","%char then
                match parseElems fuel' r' with
                | Parsed vs rest => Parsed (rangedMap2 cons v vs) rest
                | Malformed => Malformed
                | OutOfFuel => OutOfFuel
                end
              else if Ascii.eqb c "]"%char then Parsed (rangedMap (fun x => [x]) v) r'
              else Malformed
          | EmptyString => Malformed
          end
      | Malformed => Malformed
      | OutOfFuel => OutOfFuel
      end
  end

with parseMembers (fuel : nat) (acc : Ranged (list (string * JsVal))) (s : string)
  : Parse (Ranged (list (string * JsVal))) :=
  match fuel with
  | O => OutOfFuel
  | S fuel' =>
      match skipWs s with
      | String c r =>
          if Ascii.eqb c dq then
            match parseStringBody r with
            | Some (k, r1) =>
                match skipWs r1 with
                | String c1 r2 =>
                    if Ascii.eqb c1 ":"%char then
                      match parseValue fuel' r2 with
                      | Parsed v r3 =>
                          match skipWs r3 with
                          | String c2 r4 =>
                              if Ascii.eqb c2 ","%char
                              then parseMembers fuel' (setMember acc k v) r4
                              else if Ascii.eqb c2 "}"%char
                              then Parsed (setMember acc k v) r4
                              else Malformed
                          | EmptyString => Malformed
                          end
                      | Malformed => Malformed
                      | OutOfFuel => OutOfFuel
                      end
                    else Malformed
                | EmptyString => Malformed
                end
            | None => Malformed
            end
          else Malformed
      | EmptyString => Malformed
      end
  end.

(** What a descent leaves is shorter than what it was given, and it
    runs out of fuel only below the bound stated. *)
Definition progress {A : Type} (bound : nat) (s : string) (r : Parse A) : Prop :=
  match r with
  | Parsed _ rest => (String.length rest < String.length s)%nat
  | Malformed => True
  | OutOfFuel => (bound <= 2 * String.length s)%nat
  end.

(** Fuel that the descent never exhausts (see [parseValue_fuel]). *)
Definition parseFuel (s : string) : nat := (2 * String.length s + 2)%nat.

(** [JSON.parse(s)]: the value returned, the [SyntaxError] thrown, or,
    for a well-formed text whose value is beyond the range of the
    embedding, the value that stands for it. *)
Inductive Decoded : Type :=
| Value (v : JsVal)
| SyntaxError
| BeyondRange (standIn : JsVal).

Definition decode (s : string) : Decoded :=
  match parseValue (parseFuel s) s with
  | Parsed r rest =>
      match skipWs rest with
      | EmptyString =>
          match r with
          | Exact v => Value v
          | Approx v => BeyondRange v
          end
      | String _ _ => SyntaxError
      end
  | Malformed | OutOfFuel => SyntaxError
  end.

(** The value that [JSON.parse(s)] returns, when it returns one within
    the range. *)
Definition parse (s : string) : option JsVal :=
  match decode s with
  | Value v => Some v
  | SyntaxError | BeyondRange _ => None
  end.

(** *** Coercions.  [None] stands for a thrown [TypeError]. *)

(** ToBoolean *)
Definition truthy (v : JsVal) : bool :=
  match v with
  | JNull => false
  | JBool b => b
  | JNum n => negb (n =? 0)
  | JFrac m _ => negb (m =? 0)
  | JStr s => JsString.truthy s
  | JArr _ | JObj _ => true
  end.

(** ToString, as a template literal applies it.  An array joins its
    elements with commas ([null] gives the empty string); a plain object
    gives "[object Object]" through [Object.prototype.toString], unless
    an own property named [toString] (never callable in parsed JSON)
    hides it, in which case no primitive is obtained. *)
Fixpoint toStringJs (v : JsVal) : option string :=
  match v with
  | JNull => Some "null"
  | JBool true => Some "true"
  | JBool false => Some "false"
  | JNum n => Some (ofNumber n)
  | JFrac m p => Some (ofFraction m p)
  | JStr s => Some s
  | JArr items =>
      (fix join (l : list JsVal) : option string :=
         match l with
         | [] => Some ""
         | x :: l' =>
             match (match x with JNull => Some "" | _ => toStringJs x end) with
             | Some sx =>
                 match l' with
                 | [] => Some sx
                 | _ :: _ =>
                     match join l' with
                     | Some sl => Some (sx +:+ "," +:+ sl)
                     | None => None
                     end
                 end
             | None => None
             end
         end) items
  | JObj fields =>
      match getOwn fields "toString" with
      | Some _ => None
      | None => Some "[object Object]"
      end
  end.

(** [v.length] for a truthy [v]; the inner [None] is [undefined]. *)
Definition lengthOf (v : JsVal) : option JsVal :=
  match v with
  | JArr items => Some (JNum (Z.of_nat (length items)))
  | JStr s => Some (JNum (Z.of_nat (String.length s)))
  | JObj fields => getOwn fields "length"
  | JNull | JBool _ | JNum _ | JFrac _ _ => None
  end.

(** [x > 0] for [x] a value or [undefined].  A string operand goes
    through StringToNumber, which is not interpreted here:
    [strPositive s] says whether the number [s] denotes is positive. *)
Definition greaterThanZero (strPositive : string -> bool) (x : option JsVal)
  : option bool :=
  match x with
  | None => Some false
  | Some JNull => Some false
  | Some (JBool b) => Some b
  | Some (JNum n) => Some (0 <? n)
  | Some (JFrac m _) => Some (0 <? m)
  | Some (JStr s) => Some (strPositive s)
  | Some (JArr items) => option_map strPositive (toStringJs (JArr items))
  | Some (JObj fields) => option_map strPositive (toStringJs (JObj fields))
  end.

End Json.

(* ================================================================== *)
(** ** Data model *)
(* ================================================================== *)

(** The line feed, written [\n] in the sources. *)
Definition nl : string := String "010"%char EmptyString.

(** *** [@shared/api]: model table and handler options

    The module is not among the sources; the adapter uses the following
    of it.  [ModelInfo] is read only through [maxTokens] (optional, as
    the adapter's [|| 4096] shows); [details] stands for its other
    fields.  The table and the default id are parameters below. *)
Record ModelInfo : Type := {
  maxTokens : option Z;
  details : list (string * Json.JsVal);
}.

Record ApiHandlerOptions : Type := {
  targonApiKey : option string;
  apiModelId : option string;
}.

(** *** Caller's messages ([Anthropic.Messages.MessageParam]) *)
Module Anthropic.
Inductive Content : Type :=
| Text (s : string)
| Blocks (blocks : Json.JsVal).

Record MessageParam : Type := {
  role : string;
  content : Content;
}.
End Anthropic.

(** *** The chat-completions client ([openai]) as the adapter sees it *)
Module OpenAI.

Record ChatCompletionMessageParam : Type := {
  role : string;
  content : string;
}.

Record FunctionDefinition : Type := {
  name : string;
  description : string;
  parameters : Json.JsVal;
}.

Record ChatCompletionTool : Type := {
  tool_type : string;
  tool_function : FunctionDefinition;
}.

(** The argument of [chat.completions.create]. *)
Record Request : Type := {
  model : string;
  messages : list ChatCompletionMessageParam;
  stream : bool;
  temperature : Q;
  max_tokens : Z;
  tools : option (list ChatCompletionTool);
}.

Record Usage : Type := {
  prompt_tokens : option Z;
  completion_tokens : option Z;
}.

Record FunctionCall : Type := {
  fname : option string;
  arguments : option string;
}.

Record ToolCall : Type := {
  function : option FunctionCall;
}.

Record Delta : Type := {
  delta_content : option string;
  tool_calls : option (list ToolCall);
}.

Record Message : Type := {
  message_content : option string;
}.

(** [chunk.choices[0]]: an object, or (a shape the handler also
    accepts) a bare string. *)
Inductive Choice : Type :=
| ChoiceObject (delta : option Delta) (message : option Message)
| ChoiceString (s : string).

(** One event of the stream: an object, or a bare string. *)
Inductive Chunk : Type :=
| ChunkObject (choices : option (list Choice)) (content : option string)
              (usage : option Usage)
| ChunkString (s : string).

(** What the client throws: an [Error] with a message and, for an API
    error, the HTTP status. *)
Record ApiError : Type := {
  status : option Z;
  message : string;
}.

(** The course of one [create] call: it is rejected, or it gives a
    stream that delivers [events] and then ends, normally or by
    throwing. *)
Inductive Response : Type :=
| Rejected (e : ApiError)
| Streaming (events : list Chunk) (ending : option ApiError).

End OpenAI.

(** *** [../transform/stream]: what the generator yields *)
Record ApiStreamChunk : Type := {
  type : string;
  text : string;
}.

Definition textChunk (s : string) : ApiStreamChunk := {| type := "text"; text := s |}.

(** The [yield] statement a fragment comes from. *)
Inductive Site : Type :=
| ContentDelta
| ToolCallText
| ResponseSummary.

(** How a run of the generator ends. *)
Inductive Completion : Type :=
| Returned
| Thrown (message : string).

(** A run of [createMessage], consumed to its end. *)
Record Run : Type := {
  yielded : list (Site * ApiStreamChunk);
  submitted : list OpenAI.Request;
  completion : Completion;
}.

(** The fragments as the caller receives them. *)
Definition fragments (r : Run) : list ApiStreamChunk := map snd (yielded r).

(** The number of fragments that come from the summary [yield]. *)
Definition isSummary (y : Site * ApiStreamChunk) : bool :=
  match fst y with
  | ResponseSummary => true
  | ContentDelta | ToolCallText => false
  end.

Definition summaries (r : Run) : nat := length (List.filter isSummary (yielded r)).

(** The environment of one call: [uuidv4()], the two readings of
    [Date.now()], the client, and the uninterpreted StringToNumber test
    of [Json.greaterThanZero].  The client answers the [n]-th [create]
    call of the run (counted from 0) for the request given. *)
Record Env : Type := {
  requestId : string;
  startTime : Z;
  endTime : Z;
  client : nat -> OpenAI.Request -> OpenAI.Response;
  strPositive : string -> bool;
}.

(* ================================================================== *)
(** ** [src/api/transform/targon-format.ts] *)
(* ================================================================== *)

Record ApiMetrics : Type := {
  tokensIn : Z;
  tokensOut : Z;
  tokensTotal : Z;
  timeTotal : Z;
}.

(** [now] is the [Date.now()] read inside the function. *)
Definition getApiMetrics (now : Z) (startTime tokensIn tokensOut : Z) : ApiMetrics :=
  let endTime := now in
  let timeTotal := endTime - startTime in
  {| tokensIn := tokensIn;
     tokensOut := tokensOut;
     tokensTotal := tokensIn + tokensOut;
     timeTotal := timeTotal |}.

Module Response.
Record Metrics : Type := {
  tokensIn : option Z;
  tokensOut : option Z;
  tokensTotal : option Z;
  timeTotal : option Z;
}.

Record ApiResponse : Type := {
  id : string;
  model : string;
  created : Z;
  content : string;
  metrics : option Metrics;
}.
End Response.

(** [response.metrics?.f] *)
Definition metric (f : Response.Metrics -> option Z) (response : Response.ApiResponse)
  : option Json.JsVal :=
  match Response.metrics response with
  | Some m => option_map Json.JNum (f m)
  | None => None
  end.

(** The object that [TargonFormatResponse] serialises. *)
Definition responseObject (response : Response.ApiResponse) : Json.JsVal :=
  Json.objectLiteral
    [ ("id", Some (Json.JStr (Response.id response)));
      ("model", Some (Json.JStr (Response.model response)));
      ("created", Some (Json.JNum (Response.created response)));
      ("content", Some (Json.JStr (Response.content response)));
      ("tokensIn", metric Response.tokensIn response);
      ("tokensOut", metric Response.tokensOut response);
      ("tokensTotal", metric Response.tokensTotal response);
      ("timeTotal", metric Response.timeTotal response) ].

Definition TargonFormatResponse (response : Response.ApiResponse) : string :=
  Json.stringify (responseObject response).

(* ================================================================== *)
(** ** Model resolution: [getModel] (the same text in both handlers) *)
(* ================================================================== *)

(** The names every ordinary object inherits from [Object.prototype];
    the [in] operator and a property read see them too. *)
Definition objectPrototypeKeys : list string :=
  [ "constructor"; "hasOwnProperty"; "isPrototypeOf"; "propertyIsEnumerable";
    "toLocaleString"; "toString"; "valueOf"; "__proto__";
    "__defineGetter__"; "__defineSetter__"; "__lookupGetter__"; "__lookupSetter__" ].

(** The value of [targonModels[k]]. *)
Inductive Member : Type :=
| Own (info : ModelInfo)
| Inherited (name : string)
| Undefined.

Record Model : Type := {
  id : string;
  info : Member;
}.

(** [m.maxTokens]; [None] is the [TypeError] of reading a property of
    [undefined]; an inherited member (a function, or the prototype
    object) has no such property. *)
Definition memberMaxTokens (m : Member) : option (option Z) :=
  match m with
  | Own mi => Some (maxTokens mi)
  | Inherited _ => Some None
  | Undefined => None
  end.

(** [n || d] for an optional number. *)
Definition orNumber (n : option Z) (d : Z) : Z :=
  match n with
  | Some x => if x =? 0 then d else x
  | None => d
  end.

Section ModelTable.

(** [targonModels] and [targonDefaultModelId].  The table is an object
    used as a map from model id to [ModelInfo] ([keyof typeof
    targonModels], [targonModels[id]]): the map below lists its own
    properties, and being an ordinary object it inherits those of
    [Object.prototype]. *)
Variable targonModels : gmap string ModelInfo.
Variable targonDefaultModelId : string.

(** [k in targonModels] *)
Definition hasProperty (k : string) : bool :=
  bool_decide (is_Some (targonModels !! k)) || existsb (String.eqb k) objectPrototypeKeys.

(** [targonModels[k]] *)
Definition getProperty (k : string) : Member :=
  match targonModels !! k with
  | Some mi => Own mi
  | None => if existsb (String.eqb k) objectPrototypeKeys then Inherited k else Undefined
  end.

Definition defaultModel : Model :=
  {| id := targonDefaultModelId; info := getProperty targonDefaultModelId |}.

Definition getModel (options : ApiHandlerOptions) : Model :=
  match apiModelId options with
  | Some modelId =>
      if JsString.truthy modelId && hasProperty modelId
      then {| id := modelId; info := getProperty modelId |}
      else defaultModel
  | None => defaultModel
  end.

End ModelTable.

(** The [TypeError] of [model.info.maxTokens] when [model.info] is
    [undefined] (message as V8 words it). *)
Definition maxTokensTypeError : OpenAI.ApiError :=
  {| OpenAI.status := None;
     OpenAI.message := "Cannot read properties of undefined (reading 'maxTokens')" |}.

(** The message list both handlers send: the system entry, then each
    message with its role copied and its content as text. *)
Definition formatMessage (msg : Anthropic.MessageParam) : OpenAI.ChatCompletionMessageParam :=
  {| OpenAI.role := Anthropic.role msg;
     OpenAI.content :=
       match Anthropic.content msg with
       | Anthropic.Text s => s
       | Anthropic.Blocks blocks => Json.stringify blocks
       end |}.

Definition formattedMessages (systemContent : string) (messages : list Anthropic.MessageParam)
  : list OpenAI.ChatCompletionMessageParam :=
  {| OpenAI.role := "system"; OpenAI.content := systemContent |} :: map formatMessage messages.

(** [formattedMessages.map((msg) => ({ role: msg.role, content: msg.content }))] *)
Definition openAiMessages (formatted : list OpenAI.ChatCompletionMessageParam)
  : list OpenAI.ChatCompletionMessageParam :=
  map (fun msg => {| OpenAI.role := OpenAI.role msg; OpenAI.content := OpenAI.content msg |})
      formatted.

(** The loop state of [createMessage]. *)
Record Progress : Type := {
  responseText : string;
  seenIn : Z;
  seenOut : Z;
}.

Definition initialProgress : Progress :=
  {| responseText := ""; seenIn := 0; seenOut := 0 |}.

(** The final fragment: metrics, response record, serialisation. *)
Definition summaryResponse (env : Env) (model : Model) (p : Progress) : Response.ApiResponse :=
  let metrics := getApiMetrics (endTime env) (startTime env) (seenIn p) (seenOut p) in
  {| Response.id := requestId env;
     Response.model := id model;
     Response.content := responseText p;
     Response.created := startTime env / 1000;
     Response.metrics :=
       Some {| Response.tokensIn := Some (tokensIn metrics);
               Response.tokensOut := Some (tokensOut metrics);
               Response.tokensTotal := Some (tokensTotal metrics);
               Response.timeTotal := Some (timeTotal metrics) |} |}.

Definition summaryChunk (env : Env) (model : Model) (p : Progress) : Site * ApiStreamChunk :=
  (ResponseSummary, textChunk (TargonFormatResponse (summaryResponse env model p))).

(** [if (chunk.usage) { tokensIn = ... || 0; tokensOut = ... || 0 }] *)
Definition captureUsage (usage : option OpenAI.Usage) (p : Progress) : Progress :=
  match usage with
  | Some u =>
      {| responseText := responseText p;
         seenIn := orNumber (OpenAI.prompt_tokens u) 0;
         seenOut := orNumber (OpenAI.completion_tokens u) 0 |}
  | None => p
  end.

(** [responseText += content; yield { type: "text", text: content }],
    under [if (content)]. *)
Definition emitContent (content : string) (p : Progress)
  : Progress * list (Site * ApiStreamChunk) :=
  if JsString.truthy content
  then ({| responseText := responseText p +:+ content;
           seenIn := seenIn p;
           seenOut := seenOut p |},
        [(ContentDelta, textChunk content)])
  else (p, []).

(* ================================================================== *)
(** ** [TargonHandler] of [src/test/targon-test.ts] *)
(* ================================================================== *)

Module Handler.
Import JsString.

(** *** [makePromptConcise] *)

Definition conciseSuffix : string :=
  nl +:+ nl +:+
  "IMPORTANT: Be extremely concise. Provide only direct answers with no explanations, thinking, or reasoning. No "
  +:+ String Json.dq "Let's tackle this" +:+ String Json.dq " or "
  +:+ String Json.dq "First, I need to" +:+ String Json.dq
  " statements. Just give the final result or action.".

Definition makePromptConcise (systemPrompt : string) : string :=
  if includes (toLowerCase systemPrompt) "concise"
     || includes (toLowerCase systemPrompt) "brief"
     || includes (toLowerCase systemPrompt) "short"
  then systemPrompt
  else systemPrompt +:+ conciseSuffix.

(** *** The request *)

Definition askFollowupQuestionTool : OpenAI.ChatCompletionTool :=
  {| OpenAI.tool_type := "function";
     OpenAI.tool_function :=
       {| OpenAI.name := "ask_followup_question";
          OpenAI.description :=
            "Ask the user a question to gather additional information needed to complete the task";
          OpenAI.parameters :=
            Json.JObj
              [ ("type", Json.JStr "object");
                ("properties",
                  Json.JObj
                    [ ("question",
                        Json.JObj
                          [ ("type", Json.JStr "string");
                            ("description", Json.JStr "The question to ask the user") ]);
                      ("options",
                        Json.JObj
                          [ ("type", Json.JStr "array");
                            ("description",
                              Json.JStr "Optional array of 2-5 options for the user to choose from");
                            ("items", Json.JObj [ ("type", Json.JStr "string") ]) ]) ]);
                ("required", Json.JArr [ Json.JStr "question" ]) ] |} |}.

(** [m.content && typeof m.content === "string" &&
    m.content.includes("ask_followup_question")] *)
Definition mentionsTool (m : Anthropic.MessageParam) : bool :=
  match Anthropic.content m with
  | Anthropic.Text s => truthy s && includes s "ask_followup_question"
  | Anthropic.Blocks _ => false
  end.

Definition firstRequest (model : Model) (maxTokens : option Z)
  (msgs : list OpenAI.ChatCompletionMessageParam)
  (messages : list Anthropic.MessageParam) : OpenAI.Request :=
  {| OpenAI.model := id model;
     OpenAI.messages := msgs;
     OpenAI.stream := true;
     OpenAI.temperature := 7 # 10;
     OpenAI.max_tokens := orNumber maxTokens 4096;
     OpenAI.tools :=
       if existsb mentionsTool messages then Some [askFollowupQuestionTool] else None |}.

Definition simpleRequest (model : Model)
  (msgs : list OpenAI.ChatCompletionMessageParam) : OpenAI.Request :=
  {| OpenAI.model := id model;
     OpenAI.messages := msgs;
     OpenAI.stream := true;
     OpenAI.temperature := 0;
     OpenAI.max_tokens := 1024;
     OpenAI.tools := None |}.

(** *** One event of the first stream *)

Definition optTruthy (o : option string) : bool :=
  match o with
  | Some s => truthy s
  | None => false
  end.

Definition optString (o : option string) : string :=
  match o with
  | Some s => s
  | None => ""
  end.

(** The [content] variable after the shape tests. *)
Definition extractContent (chunk : OpenAI.Chunk) : string :=
  match chunk with
  | OpenAI.ChunkObject (Some (choice0 :: _)) _ _ =>
      match choice0 with
      | OpenAI.ChoiceObject delta message =>
          if optTruthy (mbind OpenAI.delta_content delta)
          then optString (mbind OpenAI.delta_content delta)
          else if optTruthy (mbind OpenAI.message_content message)
          then optString (mbind OpenAI.message_content message)
          else ""
      | OpenAI.ChoiceString s => s
      end
  | OpenAI.ChunkObject _ content _ =>
      if optTruthy content then optString content else ""
  | OpenAI.ChunkString s => s
  end.

(** [chunk.choices && chunk.choices.length > 0 ?
    chunk.choices[0]?.delta?.tool_calls : undefined] *)
Definition toolCallsOf (chunk : OpenAI.Chunk) : option (list OpenAI.ToolCall) :=
  match chunk with
  | OpenAI.ChunkObject (Some (OpenAI.ChoiceObject (Some delta) _ :: _)) _ _ =>
      OpenAI.tool_calls delta
  | _ => None
  end.

Definition usageOf (chunk : OpenAI.Chunk) : option OpenAI.Usage :=
  match chunk with
  | OpenAI.ChunkObject _ _ usage => usage
  | OpenAI.ChunkString _ => None
  end.

(** [args.question] and [args.options]: a read of a property that no
    built-in prototype defines.  [None] is the [TypeError] of reading
    from [null]; the inner [None] is [undefined]. *)
Definition readNamed (args : Json.JsVal) (k : string) : option (option Json.JsVal) :=
  match args with
  | Json.JNull => None
  | Json.JObj fields => Some (Json.getOwn fields k)
  | Json.JBool _ | Json.JNum _ | Json.JFrac _ _ | Json.JStr _ | Json.JArr _ => Some None
  end.

Definition valueTruthy (o : option Json.JsVal) : bool :=
  match o with
  | Some v => Json.truthy v
  | None => false
  end.

(** [JSON.parse(text)] as the handler meets it: [None] is the
    [SyntaxError]; a value beyond the range is met through the value
    that stands for it. *)
Definition parseArguments (text : string) : option Json.JsVal :=
  match Json.decode text with
  | Json.Value v | Json.BeyondRange v => Some v
  | Json.SyntaxError => None
  end.

(** What the body of the [try] computes for one matching tool call.
    [Caught]: an exception reached the [catch]. [Skipped]: the
    [continue]. [Rendered]: the text yielded. *)
Inductive Rendering : Type :=
| Rendered (toolCallText : string)
| Skipped
| Caught.

Definition renderArguments (strPositive : string -> bool) (arguments : option string)
  : Rendering :=
  match (if optTruthy arguments then parseArguments (optString arguments)
         else Some (Json.JObj [])) with
  | None => Caught
  | Some args =>
      match readNamed args "question" with
      | None => Caught
      | Some question =>
          if negb (valueTruthy question) then Skipped
          else
            match readNamed args "options" with
            | None => Caught
            | Some options =>
                match (if valueTruthy options
                       then Json.greaterThanZero strPositive
                              (mbind Json.lengthOf options)
                       else Some false) with
                | None => Caught
                | Some withOptions =>
                    let optionsText :=
                      if withOptions
                      then nl +:+ "<options>" +:+ nl
                           +:+ optString (option_map Json.stringify options)
                           +:+ nl +:+ "</options>"
                      else "" in
                    match mbind Json.toStringJs question with
                    | None => Caught
                    | Some questionText =>
                        Rendered
                          ("<ask_followup_question>" +:+ nl +:+ "<question>"
                           +:+ questionText +:+ "</question>" +:+ optionsText
                           +:+ nl +:+ "</ask_followup_question>")
                    end
                end
            end
      end
  end.

(** One iteration of [for (const toolCall of toolCalls)]. *)
Definition renderToolCall (strPositive : string -> bool) (toolCall : OpenAI.ToolCall)
  : list (Site * ApiStreamChunk) :=
  match OpenAI.function toolCall with
  | Some f =>
      match OpenAI.fname f with
      | Some name =>
          if String.eqb name "ask_followup_question" then
            match renderArguments strPositive (OpenAI.arguments f) with
            | Rendered toolCallText => [(ToolCallText, textChunk toolCallText)]
            | Skipped | Caught => []
            end
          else []
      | None => []
      end
  | None => []
  end.

Definition renderToolCalls (strPositive : string -> bool)
  (toolCalls : option (list OpenAI.ToolCall)) : list (Site * ApiStreamChunk) :=
  match toolCalls with
  | Some calls => flat_map (renderToolCall strPositive) calls
  | None => []
  end.

(** The body of the first [for await] loop. *)
Definition processChunk (strPositive : string -> bool) (p : Progress)
  (chunk : OpenAI.Chunk) : Progress * list (Site * ApiStreamChunk) :=
  let '(p1, texts) := emitContent (extractContent chunk) p in
  let calls := renderToolCalls strPositive (toolCallsOf chunk) in
  (captureUsage (usageOf chunk) p1, texts ++ calls).

(** The body of the retry's loop: the delta's content only. *)
Definition retryContent (chunk : OpenAI.Chunk) : string :=
  match chunk with
  | OpenAI.ChunkObject (Some (OpenAI.ChoiceObject delta _ :: _)) _ _ =>
      if optTruthy (mbind OpenAI.delta_content delta)
      then optString (mbind OpenAI.delta_content delta)
      else ""
  | _ => ""
  end.

Definition processRetryChunk (p : Progress) (chunk : OpenAI.Chunk)
  : Progress * list (Site * ApiStreamChunk) :=
  emitContent (retryContent chunk) p.

(** A [for await] loop over the events delivered. *)
Fixpoint consume (body : Progress -> OpenAI.Chunk -> Progress * list (Site * ApiStreamChunk))
  (p : Progress) (events : list OpenAI.Chunk) : Progress * list (Site * ApiStreamChunk) :=
  match events with
  | [] => (p, [])
  | chunk :: events' =>
      let '(p1, ys1) := body p chunk in
      let '(p2, ys2) := consume body p1 events' in
      (p2, ys1 ++ ys2)
  end.

(** *** The [catch] block *)

(** [error.status === 503 || (error.message && error.message.includes("503"))] *)
Definition isServiceUnavailable (e : OpenAI.ApiError) : bool :=
  match OpenAI.status e with
  | Some n => n =? 503
  | None => false
  end
  || (truthy (OpenAI.message e) && includes (OpenAI.message e) "503").

Definition authenticationHint : string :=
  " - Please check your API key and ensure it is valid.".
Definition permissionHint : string :=
  " - You may not have permission to access this resource.".
Definition notFoundHint : string :=
  " - The requested resource was not found. Check the model ID.".
Definition rateLimitHint : string :=
  " - Rate limit exceeded. Please try again later.".
Definition serverErrorHint : string :=
  " - Server error. The Targon API may be experiencing issues. Try again with a simpler prompt or fewer tokens.".

(** The text appended by the [if]/[else if] chain on [error.message]. *)
Definition remedyHint (message : string) : string :=
  if includes message "401" || includes message "authentication" then authenticationHint
  else if includes message "403" then permissionHint
  else if includes message "404" then notFoundHint
  else if includes message "429" then rateLimitHint
  else if includes message "500" || includes message "502" || includes message "503"
  then serverErrorHint
  else "".

(** [errorMessage] before the hint: with the status when it is truthy. *)
Definition errorHeadline (e : OpenAI.ApiError) : string :=
  match OpenAI.status e with
  | Some n =>
      if n =? 0 then "Targon API error: " +:+ OpenAI.message e
      else "Targon API error: " +:+ ofNumber n +:+ " " +:+ OpenAI.message e
  | None => "Targon API error: " +:+ OpenAI.message e
  end.

Definition describeError (e : OpenAI.ApiError) : string :=
  errorHeadline e +:+ remedyHint (OpenAI.message e).

(** The [catch (error)] block, entered with the requests [sent] so far,
    the loop state [p] and the fragments [ys] already yielded. *)
Definition recover (env : Env) (model : Model)
  (msgs : list OpenAI.ChatCompletionMessageParam)
  (sent : list OpenAI.Request) (p : Progress) (ys : list (Site * ApiStreamChunk))
  (error : OpenAI.ApiError) : Run :=
  if isServiceUnavailable error then
    let simple := simpleRequest model msgs in
    match client env (length sent) simple with
    | OpenAI.Rejected retryError =>
        {| yielded := ys;
           submitted := sent ++ [simple];
           completion := Thrown (describeError retryError) |}
    | OpenAI.Streaming events ending =>
        let '(p2, ys2) := consume processRetryChunk p events in
        match ending with
        | None =>
            {| yielded := ys ++ ys2 ++ [summaryChunk env model p2];
               submitted := sent ++ [simple];
               completion := Returned |}
        | Some retryError =>
            {| yielded := ys ++ ys2;
               submitted := sent ++ [simple];
               completion := Thrown (describeError retryError) |}
        end
    end
  else
    {| yielded := ys; submitted := sent; completion := Thrown (describeError error) |}.

(** *** [createMessage] *)

Section WithTable.

Variable targonModels : gmap string ModelInfo.
Variable targonDefaultModelId : string.

(** Everything after the API-key test. *)
Definition converse (env : Env) (model : Model) (systemPrompt : string)
  (messages : list Anthropic.MessageParam) : Run :=
  let conciseSystemPrompt := makePromptConcise systemPrompt in
  let msgs := openAiMessages (formattedMessages conciseSystemPrompt messages) in
  match memberMaxTokens (info model) with
  | None => recover env model msgs [] initialProgress [] maxTokensTypeError
  | Some maxTokens =>
      let request := firstRequest model maxTokens msgs messages in
      match client env 0%nat request with
      | OpenAI.Rejected error => recover env model msgs [request] initialProgress [] error
      | OpenAI.Streaming events ending =>
          let '(p, ys) := consume (processChunk (strPositive env)) initialProgress events in
          match ending with
          | None =>
              {| yielded := ys ++ [summaryChunk env model p];
                 submitted := [request];
                 completion := Returned |}
          | Some error => recover env model msgs [request] p ys error
          end
      end
  end.

Definition createMessage (options : ApiHandlerOptions) (env : Env)
  (systemPrompt : string) (messages : list Anthropic.MessageParam) : Run :=
  let model := getModel targonModels targonDefaultModelId options in
  let apiKey := targonApiKey options in
  if negb (optTruthy apiKey)
  then {| yielded := []; submitted := []; completion := Thrown "Targon API key not found" |}
  else converse env model systemPrompt messages.

End WithTable.

End Handler.

(* ================================================================== *)
(** ** [TargonHandler] of [src/api/providers/targon.ts] *)
(* ================================================================== *)

Module PlainHandler.
Import JsString.

(** The [TypeError] of [chunk.choices[0]] when [chunk.choices] is
    [undefined] (message as V8 words it). *)
Definition choicesTypeError : OpenAI.ApiError :=
  {| OpenAI.status := None;
     OpenAI.message := "Cannot read properties of undefined (reading '0')" |}.

(** [chunk.choices[0]?.delta?.content || ""]; [None] is the
    [TypeError]. *)
Definition extractContent (chunk : OpenAI.Chunk) : option string :=
  match chunk with
  | OpenAI.ChunkObject (Some (OpenAI.ChoiceObject (Some delta) _ :: _)) _ _ =>
      Some (Handler.optString (OpenAI.delta_content delta))
  | OpenAI.ChunkObject (Some _) _ _ => Some ""
  | OpenAI.ChunkObject None _ _ => None
  | OpenAI.ChunkString _ => None
  end.

(** The [for await] loop; it stops at the first event whose read
    throws. *)
Fixpoint consume (p : Progress) (events : list OpenAI.Chunk)
  : Progress * list (Site * ApiStreamChunk) * option OpenAI.ApiError :=
  match events with
  | [] => (p, [], None)
  | chunk :: events' =>
      match extractContent chunk with
      | None => (p, [], Some choicesTypeError)
      | Some content =>
          let '(p1, ys1) := emitContent content p in
          let '(p2, ys2, thrown) := consume (captureUsage (Handler.usageOf chunk) p1) events' in
          (p2, ys1 ++ ys2, thrown)
      end
  end.

Definition request (model : Model) (maxTokens : option Z)
  (msgs : list OpenAI.ChatCompletionMessageParam) : OpenAI.Request :=
  {| OpenAI.model := id model;
     OpenAI.messages := msgs;
     OpenAI.stream := true;
     OpenAI.temperature := 7 # 10;
     OpenAI.max_tokens := orNumber maxTokens 4096;
     OpenAI.tools := None |}.

(** [throw new Error(`Targon API error: ${error.message}`)] *)
Definition wrapError (error : OpenAI.ApiError) : Completion :=
  Thrown ("Targon API error: " +:+ OpenAI.message error).

Section WithTable.

Variable targonModels : gmap string ModelInfo.
Variable targonDefaultModelId : string.

Definition createMessage (options : ApiHandlerOptions) (env : Env)
  (systemPrompt : string) (messages : list Anthropic.MessageParam) : Run :=
  let model := getModel targonModels targonDefaultModelId options in
  let apiKey := targonApiKey options in
  if negb (Handler.optTruthy apiKey)
  then {| yielded := []; submitted := []; completion := Thrown "Targon API key not found" |}
  else
    let msgs := openAiMessages (formattedMessages systemPrompt messages) in
    match memberMaxTokens (info model) with
    | None => {| yielded := []; submitted := []; completion := wrapError maxTokensTypeError |}
    | Some maxTokens =>
        let req := request model maxTokens msgs in
        match client env 0%nat req with
        | OpenAI.Rejected error =>
            {| yielded := []; submitted := [req]; completion := wrapError error |}
        | OpenAI.Streaming events ending =>
            match consume initialProgress events with
            | (p, ys, Some thrown) =>
                {| yielded := ys; submitted := [req]; completion := wrapError thrown |}
            | (p, ys, None) =>
                match ending with
                | None =>
                    {| yielded := ys ++ [summaryChunk env model p];
                       submitted := [req];
                       completion := Returned |}
                | Some error =>
                    {| yielded := ys; submitted := [req]; completion := wrapError error |}
                end
            end
        end
    end.

End WithTable.

End PlainHandler.

(* ================================================================== *)
(** ** [TargonFormatRequest] of [src/api/transform/targon-format.ts] *)
(* ================================================================== *)

(** The two members read from [options: Record<string, any>]; the
    default [{}] of the parameter is [noOptions]. *)
Record FormatOptions : Type := {
  opt_temperature : option Q;
  opt_max_tokens : option Z;
}.

Definition noOptions : FormatOptions :=
  {| opt_temperature := None; opt_max_tokens := None |}.

(** [t || d] for an optional number that need not be an integer. *)
Definition orRational (t : option Q) (d : Q) : Q :=
  match t with
  | Some q => if Qnum q =? 0 then d else q
  | None => d
  end.

(** [m?.maxTokens]: [undefined] when [m] is. *)
Definition optionalMaxTokens (m : Member) : option Z :=
  match m with
  | Own mi => maxTokens mi
  | Inherited _ | Undefined => None
  end.

(** The callback of [apiRequest.messages.map]. *)
Definition formatRequestMessage (message : OpenAI.ChatCompletionMessageParam)
  : OpenAI.ChatCompletionMessageParam :=
  if String.eqb (OpenAI.role message) "system" then
    {| OpenAI.role := "system"; OpenAI.content := OpenAI.content message |}
  else if String.eqb (OpenAI.role message) "user"
          || String.eqb (OpenAI.role message) "assistant" then
    {| OpenAI.role := OpenAI.role message; OpenAI.content := OpenAI.content message |}
  else message.

Section FormatRequest.

Variable targonModels : gmap string ModelInfo.
Variable targonDefaultModelId : string.

(** [model] is [None] when the argument is omitted, and then defaults to
    [targonDefaultModelId].  The object returned has no [tools]. *)
Definition TargonFormatRequest (apiRequest : list OpenAI.ChatCompletionMessageParam)
  (model : option string) (options : FormatOptions) : OpenAI.Request :=
  let model := match model with
               | Some m => m
               | None => targonDefaultModelId
               end in
  let messages := map formatRequestMessage apiRequest in
  {| OpenAI.model := model;
     OpenAI.messages := messages;
     OpenAI.stream := true;
     OpenAI.temperature := orRational (opt_temperature options) (7 # 10);
     OpenAI.max_tokens :=
       orNumber (opt_max_tokens options)
         (orNumber (optionalMaxTokens (getProperty targonModels model)) 4096);
     OpenAI.tools := None |}.

End FormatRequest.

(* ================================================================== *)
(** ** Notions used to state the properties *)
(* ================================================================== *)

(** The concatenation of a list of texts. *)
Definition joinText (l : list string) : string := fold_right String.append "" l.

(** The fragment a text delta gives rise to: none when it is empty. *)
Definition contentFragment (content : string) : list (Site * ApiStreamChunk) :=
  if JsString.truthy content then [(ContentDelta, textChunk content)] else [].

(** The usage object of the last event that carries one. *)
Fixpoint lastUsage (events : list OpenAI.Chunk) : option OpenAI.Usage :=
  match events with
  | [] => None
  | chunk :: events' =>
      match lastUsage events' with
      | Some u => Some u
      | None => Handler.usageOf chunk
      end
  end.

(** The error, if any, with which a [create] call fails, at once or in
    mid-stream. *)
Definition failure (r : OpenAI.Response) : option OpenAI.ApiError :=
  match r with
  | OpenAI.Rejected e => Some e
  | OpenAI.Streaming _ ending => ending
  end.

(** The events a [create] call delivers. *)
Definition delivered (r : OpenAI.Response) : list OpenAI.Chunk :=
  match r with
  | OpenAI.Rejected _ => []
  | OpenAI.Streaming events _ => events
  end.

(** No event of any stream of the client carries usage counts. *)
Definition usageFree (env : Env) : Prop :=
  forall n request, Forall (fun chunk => Handler.usageOf chunk = None)
                           (delivered (client env n request)).

(** The prompt already asks for brevity: it contains one of the three
    words, whatever the case of their letters. *)
Definition asksForBrevity (systemPrompt : string) : Prop :=
  JsString.containsIgnoringCase systemPrompt "concise"
  \/ JsString.containsIgnoringCase systemPrompt "brief"
  \/ JsString.containsIgnoringCase systemPrompt "short".

(** An API key is configured: present and not the empty string. *)
Definition apiKeyConfigured (options : ApiHandlerOptions) : Prop :=
  exists key, targonApiKey options = Some key /\ key <> "".

(** The status codes whose mention in the error text selects a hint,
    and the hints. *)
Definition knownStatusCodes : list string :=
  [ "401"; "403"; "404"; "429"; "500"; "502"; "503" ].

Definition remedyHints : list string :=
  [ Handler.authenticationHint; Handler.permissionHint; Handler.notFoundHint;
    Handler.rateLimitHint; Handler.serverErrorHint ].

(** The member [k] of the JSON object that a fragment's text decodes
    to, when it decodes to one. *)
Definition summaryField (fragment : ApiStreamChunk) (k : string) : option Json.JsVal :=
  match Json.parse (text fragment) with
  | Some (Json.JObj fields) => Json.getOwn fields k
  | _ => None
  end.

(** A fragment that comes from the content [yield]. *)
Definition isContentDelta (y : Site * ApiStreamChunk) : bool :=
  match fst y with
  | ContentDelta => true
  | ToolCallText | ResponseSummary => false
  end.

(** The texts streamed as content, in order. *)
Definition contentTexts (ys : list (Site * ApiStreamChunk)) : list string :=
  map (fun y => text (snd y)) (List.filter isContentDelta ys).

(** Some input message is a plain string that contains the tool's name. *)
Definition mentionsFollowupTool (messages : list Anthropic.MessageParam) : Prop :=
  exists m pre post,
    In m messages
    /\ Anthropic.content m = Anthropic.Text (pre +:+ "ask_followup_question" +:+ post).

(** The error text mentions none of the known status codes, nor the
    word "authentication". *)
Definition mentionsNoKnownCode (message : string) : Prop :=
  JsString.includes message "authentication" = false
  /\ Forall (fun code => JsString.includes message code = false) knownStatusCodes.

(** The tagged block of a tool call. *)
Definition followupBlock (questionText optionsText : string) : string :=
  "<ask_followup_question>" +:+ nl +:+ "<question>" +:+ questionText +:+ "</question>"
  +:+ optionsText +:+ nl +:+ "</ask_followup_question>".

(** The configured id, if any, is not a name inherited from
    [Object.prototype]. *)
Definition noInheritedName (options : ApiHandlerOptions) : Prop :=
  match apiModelId options with
  | Some modelId => existsb (String.eqb modelId) objectPrototypeKeys = false
  | None => True
  end.

(** [chunk.choices] is an array (possibly empty). *)
Definition hasChoices (chunk : OpenAI.Chunk) : Prop :=
  match chunk with
  | OpenAI.ChunkObject (Some _) _ _ => True
  | OpenAI.ChunkObject None _ _ | OpenAI.ChunkString _ => False
  end.

(** What the plain handler reads from an event that has [choices]. *)
Definition plainContent (chunk : OpenAI.Chunk) : string :=
  match PlainHandler.extractContent chunk with
  | Some content => content
  | None => ""
  end.

(** A tool call that names the follow-up tool. *)
Definition isFollowupCall (call : OpenAI.ToolCall) : bool :=
  match OpenAI.function call with
  | Some f =>
      match OpenAI.fname f with
      | Some name => String.eqb name "ask_followup_question"
      | None => false
      end
  | None => false
  end.

(** The follow-up tool calls that the events of a stream carry where the
    first loop looks for them. *)
Definition followupCalls (events : list OpenAI.Chunk) : list OpenAI.ToolCall :=
  flat_map (fun chunk =>
              match Handler.toolCallsOf chunk with
              | Some calls => List.filter isFollowupCall calls
              | None => []
              end) events.

(** The fragments that render tool calls. *)
Definition toolCallTexts (ys : list (Site * ApiStreamChunk)) : list (Site * ApiStreamChunk) :=
  List.filter (fun y => match fst y with
                        | ToolCallText => true
                        | ContentDelta | ResponseSummary => false
                        end) ys.

(** Concrete data for the examples. *)
Module Examples.

Definition models : gmap string ModelInfo :=
  {[ "deepseek-ai/DeepSeek-V3" := {| maxTokens := Some 8192; details := [] |} ]}.

Definition defaultId : string := "deepseek-ai/DeepSeek-V3".

Definition options : ApiHandlerOptions :=
  {| targonApiKey := Some "sn4_key"; apiModelId := Some "deepseek-ai/DeepSeek-V3" |}.

Definition userHi : list Anthropic.MessageParam :=
  [ {| Anthropic.role := "user"; Anthropic.content := Anthropic.Text "Hi" |} ].

(** [{ choices: [{ delta: { content: s } }] }] *)
Definition contentChunk (s : string) : OpenAI.Chunk :=
  OpenAI.ChunkObject
    (Some [ OpenAI.ChoiceObject
              (Some {| OpenAI.delta_content := Some s; OpenAI.tool_calls := None |})
              None ])
    None None.

(** [{ choices: [], usage: { prompt_tokens: a, completion_tokens: b } }] *)
Definition usageChunk (a b : Z) : OpenAI.Chunk :=
  OpenAI.ChunkObject (Some []) None
    (Some {| OpenAI.prompt_tokens := Some a; OpenAI.completion_tokens := Some b |}).

(** A delta with one [ask_followup_question] tool call and, possibly,
    text. *)
Definition toolCallChunk (content : option string) (arguments : string) : OpenAI.Chunk :=
  OpenAI.ChunkObject
    (Some [ OpenAI.ChoiceObject
              (Some {| OpenAI.delta_content := content;
                       OpenAI.tool_calls :=
                         Some [ {| OpenAI.function :=
                                     Some {| OpenAI.fname := Some "ask_followup_question";
                                             OpenAI.arguments := Some arguments |} |} ] |})
              None ])
    None None.

Definition env (client : nat -> OpenAI.Request -> OpenAI.Response) : Env :=
  {| requestId := "3f2b8c1e-7a54-4d0b-9c6e-2a1f0e5d4c3b";
     startTime := 1700000000123;
     endTime := 1700000000500;
     client := client;
     strPositive := fun _ => false |}.

(** A client whose first call answers [first] and whose later calls
    answer [second]. *)
Definition scripted (first second : OpenAI.Response) (n : nat) (_ : OpenAI.Request)
  : OpenAI.Response :=
  match n with
  | O => first
  | S _ => second
  end.

Definition error (status : option Z) (message : string) : OpenAI.ApiError :=
  {| OpenAI.status := status; OpenAI.message := message |}.

End Examples.

(** Case analysis on the test of the first [if] in a hypothesis. *)
Ltac case_if_in H :=
  match type of H with
  | context [if ?b then _ else _] => destruct b eqn:?
  end.

(* ================================================================== *)
(** * Properties *)
(* ================================================================== *)

(** ** Strings *)

Module JsStringFacts.
Import JsString.
#[local] Arguments String.append _ _ : simpl nomatch.

Lemma append_assoc (a b c : string) : (a +:+ b) +:+ c = a +:+ (b +:+ c).
Proof. induction a as [|x a IH]; simpl; [reflexivity | now rewrite IH]. Qed.

Lemma append_empty_r (a : string) : a +:+ "" = a.
Proof. induction a as [|x a IH]; simpl; [reflexivity | now rewrite IH]. Qed.

Lemma append_length (a b : string) :
  String.length (a +:+ b) = (String.length a + String.length b)%nat.
Proof. induction a as [|x a IH]; simpl; [reflexivity | now rewrite IH]. Qed.

Lemma append_same_l (a b : string) : a +:+ b = a -> b = "".
Proof.
  intros H. apply (f_equal String.length) in H. rewrite append_length in H.
  destruct b; [reflexivity | simpl in H; lia].
Qed.

Lemma startsWith_iff (s p : string) :
  startsWith s p = true <-> exists post, s = p +:+ post.
Proof.
  revert s. induction p as [|a p IH]; intros s; simpl.
  - split; [intros _; now exists s | reflexivity].
  - destruct s as [|b s].
    + split; [discriminate | intros [post H]; discriminate].
    + destruct (Ascii.eqb_spec a b) as [->|Hab].
      * rewrite IH. split; intros [post H]; exists post; [now rewrite H | now inversion H].
      * split; [discriminate | intros [post H]; simpl in H; inversion H; congruence].
Qed.

Lemma includes_iff (s sub : string) :
  includes s sub = true <-> exists pre post, s = pre +:+ sub +:+ post.
Proof.
  induction s as [|c s IH]; simpl.
  - rewrite orb_false_r, startsWith_iff. split.
    + intros [post H]. now exists "", post.
    + intros [pre [post H]]. destruct pre; [now exists post | discriminate].
  - rewrite orb_true_iff, startsWith_iff, IH. split.
    + intros [[post H] | [pre [post H]]].
      * now exists "", post.
      * exists (String c pre), post. simpl. now rewrite H.
    + intros [pre [post H]]. destruct pre as [|x pre]; simpl in H.
      * left. now exists post.
      * right. inversion H. now exists pre, post.
Qed.

Lemma includes_append (pre sub post : string) : includes (pre +:+ sub +:+ post) sub = true.
Proof. apply includes_iff. now exists pre, post. Qed.

Lemma toLowerCase_append (a b : string) :
  toLowerCase (a +:+ b) = toLowerCase a +:+ toLowerCase b.
Proof. induction a as [|x a IH]; simpl; [reflexivity | now rewrite IH]. Qed.

Lemma toLowerCase_split (s a' b' : string) :
  toLowerCase s = a' +:+ b' ->
  exists a b, s = a +:+ b /\ toLowerCase a = a' /\ toLowerCase b = b'.
Proof.
  revert s. induction a' as [|x a' IH]; intros s H; simpl in H.
  - now exists "", s.
  - destruct s as [|c s]; [discriminate|]. simpl in H. inversion H as [[Hc Hs]].
    destruct (IH _ Hs) as [a [b [-> [Ha Hb]]]].
    exists (String c a), b. simpl. now rewrite Ha.
Qed.

Lemma nat_of_ascii_lt (c : ascii) : (nat_of_ascii c < 256)%nat.
Proof. apply nat_ascii_bounded. Qed.

Lemma ascii_of_nat_inj (n m : nat) :
  (n < 256)%nat -> (m < 256)%nat -> ascii_of_nat n = ascii_of_nat m -> n = m.
Proof.
  intros Hn Hm H. apply (f_equal nat_of_ascii) in H.
  now rewrite !nat_ascii_embedding in H.
Qed.

Lemma lowerChar_cases (x : ascii) :
  ((65 <= nat_of_ascii x <= 90)%nat
   /\ lowerChar x = ascii_of_nat (nat_of_ascii x + 32))
  \/ ((192 <= nat_of_ascii x <= 222)%nat
      /\ lowerChar x = ascii_of_nat (nat_of_ascii x + 32))
  \/ (~ (65 <= nat_of_ascii x <= 90)%nat /\ lowerChar x = x).
Proof.
  unfold lowerChar. set (n := nat_of_ascii x).
  destruct (Nat.leb_spec 65 n); destruct (Nat.leb_spec n 90);
    destruct (Nat.leb_spec 192 n); destruct (Nat.leb_spec n 222);
    destruct (Nat.eqb_spec n 215); cbn [andb orb negb];
    first [ left; split; [lia | reflexivity]
          | right; left; split; [lia | reflexivity]
          | right; right; split; [lia | reflexivity] ].
Qed.

(** Lower-casing hits a lower-case letter exactly from that letter or
    its capital. *)
Lemma lowerChar_letter (x y : ascii) :
  isLowerLetter y -> lowerChar x = y <-> x = y \/ x = capitalOf y.
Proof.
  unfold isLowerLetter, capitalOf. intros Hy.
  pose proof (nat_of_ascii_lt x) as Hx.
  destruct (lowerChar_cases x) as [[Hn ->] | [[Hn ->] | [Hn ->]]].
  - split.
    + intros H. right. rewrite <- H, nat_ascii_embedding by lia.
      replace (nat_of_ascii x + 32 - 32)%nat with (nat_of_ascii x) by lia.
      now rewrite ascii_nat_embedding.
    + intros [-> | ->]; [lia|].
      rewrite nat_ascii_embedding by lia.
      replace (nat_of_ascii y - 32 + 32)%nat with (nat_of_ascii y) by lia.
      apply ascii_nat_embedding.
  - split.
    + intros H. apply (f_equal nat_of_ascii) in H.
      rewrite nat_ascii_embedding in H by lia. lia.
    + intros [-> | ->]; [lia|]. rewrite nat_ascii_embedding in Hn by lia. lia.
  - split; [now left|]. intros [H | ->]; [assumption|].
    rewrite nat_ascii_embedding in Hn by lia. lia.
Qed.

Lemma toLowerCase_word (mid w : string) :
  lowerWord w -> toLowerCase mid = w <-> equalIgnoringCase mid w.
Proof.
  revert mid. induction w as [|y w IH]; intros mid Hw; destruct mid as [|x mid]; simpl.
  - tauto.
  - split; [discriminate | contradiction].
  - split; [discriminate | contradiction].
  - destruct Hw as [Hy Hw]. rewrite <- (IH mid Hw), <- (lowerChar_letter x y Hy).
    split; [intros H; now inversion H | intros [-> ->]; reflexivity].
Qed.

Lemma includes_toLowerCase (s w : string) :
  lowerWord w -> includes (toLowerCase s) w = true <-> containsIgnoringCase s w.
Proof.
  intros Hw. rewrite includes_iff. unfold containsIgnoringCase. split.
  - intros [pre' [post' H]].
    destruct (toLowerCase_split _ _ _ H) as [pre [rest [-> [Hpre Hrest]]]].
    destruct (toLowerCase_split _ _ _ Hrest) as [mid [post [-> [Hmid Hpost]]]].
    exists pre, mid, post. split; [reflexivity|]. now apply toLowerCase_word.
  - intros [pre [mid [post [-> H]]]].
    exists (toLowerCase pre), (toLowerCase post).
    rewrite !toLowerCase_append. apply toLowerCase_word in H; [|assumption].
    now rewrite H.
Qed.

End JsStringFacts.

(** ** [JSON.parse]: progress and fuel *)

Module JsonFacts.
Import Json.
#[local] Arguments String.append _ _ : simpl nomatch.

Lemma skipWs_length (s : string) : (String.length (skipWs s) <= String.length s)%nat.
Proof.
  induction s as [|c s IH]; simpl; [lia|].
  destruct (isWs c); simpl; lia.
Qed.

Lemma skipWs_cons (s r : string) (c : ascii) :
  skipWs s = String c r -> (String.length r < String.length s)%nat.
Proof.
  intros H. pose proof (skipWs_length s) as Hl. rewrite H in Hl. simpl in Hl. lia.
Qed.

Lemma push_rest (c : ascii) (o : option (Ranged string * string))
  (str : Ranged string) (rest : string) :
  push c o = Some (str, rest) -> exists str', o = Some (str', rest).
Proof.
  destruct o as [[str' rest']|]; simpl; [|discriminate].
  intros H; inversion H; eauto.
Qed.

Lemma pushWide_rest (o : option (Ranged string * string))
  (str : Ranged string) (rest : string) :
  pushWide o = Some (str, rest) -> exists str', o = Some (str', rest).
Proof.
  destruct o as [[str' rest']|]; simpl; [|discriminate].
  intros H; inversion H; eauto.
Qed.

Lemma parseStringBody_length (s : string) (str : Ranged string) (rest : string) :
  parseStringBody s = Some (str, rest) -> (String.length rest < String.length s)%nat.
Proof.
  remember (String.length s) as n eqn:Hn.
  revert s str rest Hn. induction n as [n IH] using lt_wf_ind.
  intros s str rest -> H. destruct s as [|c s]; [discriminate|].
  simpl in H. destruct (Ascii.eqb c dq).
  - inversion H. subst. simpl. lia.
  - destruct (Ascii.eqb c "\"%char).
    + destruct s as [|e s]; [discriminate|].
      destruct (simpleEscape e).
      * apply push_rest in H as [str' H].
        apply (IH (String.length s)) in H; simpl; [lia | lia | reflexivity].
      * destruct (Ascii.eqb e "u"%char); [|discriminate].
        destruct s as [|h1 [|h2 [|h3 [|h4 s]]]]; try discriminate.
        destruct (hex4 h1 h2 h3 h4); [|discriminate].
        case_if_in H; [apply push_rest in H as [str' H]
                      | apply pushWide_rest in H as [str' H]];
          apply (IH (String.length s)) in H; simpl; solve [lia | reflexivity].
    + case_if_in H; [discriminate|].
      apply push_rest in H as [str' H].
      apply (IH (String.length s)) in H; simpl; [lia | lia | reflexivity].
Qed.

Lemma digits_length (s : string) :
  forall acc n rest, digits acc s = (n, rest) ->
                     (String.length rest <= String.length s)%nat.
Proof.
  induction s as [|c s IH]; intros acc n rest H; simpl in H.
  - inversion H. simpl. lia.
  - destruct (isDigit c).
    + apply IH in H. simpl. lia.
    + inversion H. lia.
Qed.

Lemma fraction_length (n m places : Z) (s rest : string) :
  fraction n s = Some (m, places, rest) -> (String.length rest <= String.length s)%nat.
Proof.
  unfold fraction. destruct s as [|c r]; [intros H; inversion H; lia|].
  destruct (Ascii.eqb c "."%char); [|intros H; inversion H; lia].
  destruct (digits n r) as [m' rest'] eqn:E. apply digits_length in E.
  destruct (String.length rest' <? String.length r)%nat; [|discriminate].
  intros H. inversion H. subst. simpl. lia.
Qed.

Lemma exponent_length (e : Z) (s rest : string) :
  exponent s = Some (e, rest) -> (String.length rest <= String.length s)%nat.
Proof.
  unfold exponent. destruct s as [|c r]; [intros H; inversion H; lia|].
  destruct (Ascii.eqb c "e"%char || Ascii.eqb c "E"%char); [|intros H; inversion H; lia].
  assert (Hgen : forall (neg : bool) (r1 : string),
             (String.length r1 <= String.length r)%nat ->
             (let '(e', rest') := digits 0 r1 in
              if (String.length rest' <? String.length r1)%nat
              then Some (if neg then - e' else e', rest')
              else None) = Some (e, rest) ->
             (String.length rest <= String.length (String c r))%nat).
  { intros neg r1 Hle H. destruct (digits 0 r1) as [e' rest'] eqn:Ed.
    apply digits_length in Ed.
    destruct (String.length rest' <? String.length r1)%nat; [|discriminate].
    inversion H. subst. simpl. lia. }
  destruct r as [|sign r']; [apply (Hgen false ""); lia|].
  destruct (Ascii.eqb sign "-"%char); [apply (Hgen true r'); simpl; lia|].
  destruct (Ascii.eqb sign "+"%char); [apply (Hgen false r'); simpl; lia|].
  apply (Hgen false (String sign r')); lia.
Qed.

Lemma scientific_length (neg : bool) (n : Z) (s rest : string) (v : Ranged JsVal) :
  scientific neg n s = Some (v, rest) -> (String.length rest <= String.length s)%nat.
Proof.
  unfold scientific.
  destruct (fraction n s) as [[[m places] r1]|] eqn:Ef; [|discriminate].
  destruct (exponent r1) as [[e rest']|] eqn:Ee; [|discriminate].
  apply fraction_length in Ef. apply exponent_length in Ee.
  intros H. inversion H. subst. lia.
Qed.

Lemma parseNumber_length (s rest : string) (v : Ranged JsVal) :
  parseNumber s = Some (v, rest) -> (String.length rest < String.length s)%nat.
Proof.
  unfold parseNumber.
  assert (Haux : forall (neg : bool) (s1 : string),
    (String.length s1 <= String.length s)%nat ->
    match s1 with
    | EmptyString => None
    | String c r =>
        if isDigit c then
          let '(m, rest0) := if Ascii.eqb c "0"%char then (0, r) else digits 0 s1 in
          let value := if neg then - m else m in
          match rest0 with
          | String d _ =>
              if Ascii.eqb d "."%char || Ascii.eqb d "e"%char || Ascii.eqb d "E"%char
              then scientific neg m rest0 else Some (Exact (JNum value), rest0)
          | EmptyString => Some (Exact (JNum value), rest0)
          end
        else None
    end = Some (v, rest) -> (String.length rest < String.length s)%nat).
  { intros neg s1 Hle H. destruct s1 as [|c r]; [discriminate|].
    destruct (isDigit c) eqn:Hd; [|discriminate].
    assert (Hr : forall m rest', (if Ascii.eqb c "0"%char then (0, r) else digits 0 (String c r))
                                 = (m, rest') ->
                                 (String.length rest' <= String.length r)%nat).
    { intros m rest' E. destruct (Ascii.eqb c "0"%char).
      - inversion E. lia.
      - simpl in E. rewrite Hd in E. now apply digits_length in E. }
    destruct (if Ascii.eqb c "0"%char then (0, r) else digits 0 (String c r))
      as [m rest'] eqn:E.
    specialize (Hr _ _ eq_refl). clear E. rename Hr into E. simpl in Hle.
    destruct rest' as [|d rest''].
    - inversion H. subst. simpl. lia.
    - destruct (Ascii.eqb d "."%char || Ascii.eqb d "e"%char || Ascii.eqb d "E"%char).
      + apply scientific_length in H. lia.
      + inversion H. subst. lia. }
  destruct s as [|c r]; [discriminate|].
  destruct (Ascii.eqb c "-"%char); intros H.
  - apply (Haux true r); [simpl; lia | exact H].
  - apply (Haux false (String c r)); [lia | exact H].
Qed.

Lemma stripPrefix_length (p s rest : string) :
  stripPrefix p s = Some rest ->
  (String.length rest + String.length p = String.length s)%nat.
Proof.
  revert s. induction p as [|a p IH]; intros s H; simpl in H.
  - inversion H. simpl. lia.
  - destruct s as [|b s]; [discriminate|].
    destruct (Ascii.eqb a b); [|discriminate].
    apply IH in H. simpl. lia.
Qed.


Lemma literal_progress (bound : nat) (p : string) (v : JsVal) (s : string) :
  p <> "" -> progress bound s (literal p v s).
Proof.
  intros Hp. unfold literal, progress.
  destruct (stripPrefix p s) as [rest|] eqn:E; [|exact I].
  apply stripPrefix_length in E. destruct p; [contradiction | simpl in E; lia].
Qed.

Lemma parse_progress (fuel : nat) :
  (forall s, progress fuel s (parseValue fuel s))
  /\ (forall s, progress (fuel - 1) s (parseElems fuel s))
  /\ (forall acc s, progress (fuel - 1) s (parseMembers fuel acc s)).
Proof.
  induction fuel as [|fuel [IHv [IHe IHm]]].
  - repeat split; intros; simpl; lia.
  - split; [|split].
    + intros s. simpl.
      destruct (skipWs s) as [|c r] eqn:Hs; [exact I|].
      apply skipWs_cons in Hs.
      destruct (Ascii.eqb c "["%char).
      { destruct (skipWs r) as [|c' r'] eqn:Hr; [exact I|].
        apply skipWs_cons in Hr.
        destruct (Ascii.eqb c' "]"%char); [simpl; lia|].
        specialize (IHe r). destruct (parseElems fuel r); simpl in *; lia. }
      destruct (Ascii.eqb c "{"%char).
      { destruct (skipWs r) as [|c' r'] eqn:Hr; [exact I|].
        apply skipWs_cons in Hr.
        destruct (Ascii.eqb c' "}"%char); [simpl; lia|].
        specialize (IHm (Exact []) r).
        destruct (parseMembers fuel (Exact []) r); simpl in *; lia. }
      destruct (Ascii.eqb c dq).
      { destruct (parseStringBody r) as [[str rest]|] eqn:Hb; [|exact I].
        apply parseStringBody_length in Hb. simpl. lia. }
      destruct (Ascii.eqb c "-"%char || isDigit c).
      { destruct (parseNumber (String c r)) as [[n rest]|] eqn:Hn; [|exact I].
        apply parseNumber_length in Hn. simpl in *. lia. }
      assert (Hlit : forall p v, p <> "" ->
                progress (S fuel) s (literal p v (String c r))).
      { intros p v Hp. pose proof (literal_progress (S fuel) p v (String c r) Hp) as Hl.
        unfold progress in *. destruct (literal p v (String c r)); simpl in *; lia. }
      destruct (Ascii.eqb c "t"%char); [now apply Hlit|].
      destruct (Ascii.eqb c "f"%char); [now apply Hlit|].
      destruct (Ascii.eqb c "n"%char); [now apply Hlit|].
      exact I.
    + intros s. simpl. specialize (IHv s).
      destruct (parseValue fuel s) as [v r| |]; simpl in *; [|exact I|lia].
      destruct (skipWs r) as [|c r'] eqn:Hr; [exact I|].
      apply skipWs_cons in Hr.
      destruct (Ascii.eqb c ","%char).
      { specialize (IHe r'). destruct (parseElems fuel r'); simpl in *; lia. }
      destruct (Ascii.eqb c "]"%char); simpl; [lia | exact I].
    + intros acc s. simpl.
      destruct (skipWs s) as [|c r] eqn:Hs; [exact I|].
      apply skipWs_cons in Hs.
      destruct (Ascii.eqb c dq); [|exact I].
      destruct (parseStringBody r) as [[k r1]|] eqn:Hb; [|exact I].
      apply parseStringBody_length in Hb.
      destruct (skipWs r1) as [|c1 r2] eqn:H1; [exact I|].
      apply skipWs_cons in H1.
      destruct (Ascii.eqb c1 ":"%char); [|exact I].
      specialize (IHv r2).
      destruct (parseValue fuel r2) as [v r3| |]; simpl in *; [|exact I|lia].
      destruct (skipWs r3) as [|c2 r4] eqn:H3; [exact I|].
      apply skipWs_cons in H3.
      destruct (Ascii.eqb c2 ","%char).
      { specialize (IHm (setMember acc k v) r4).
        destruct (parseMembers fuel (setMember acc k v) r4); simpl in *; lia. }
      destruct (Ascii.eqb c2 "}"%char); simpl; [lia | exact I].
Qed.

(** [decode] never stops for lack of fuel: its [SyntaxError] is a
    syntax error. *)
Lemma parseValue_fuel (s : string) : parseValue (parseFuel s) s <> OutOfFuel.
Proof.
  intros H. pose proof (proj1 (parse_progress (parseFuel s)) s) as Hp.
  rewrite H in Hp. unfold progress, parseFuel in Hp. lia.
Qed.

End JsonFacts.

(** ** [JSON.parse] reads back what [JSON.stringify] writes *)

Module RoundTripFacts.
Import Json JsStringFacts.
#[local] Arguments String.append _ _ : simpl nomatch.

(** One escaped character reads back as the character. *)
Lemma parseStringBody_escapeChar (c : ascii) (t : string) :
  parseStringBody (escapeChar c +:+ t) = push c (parseStringBody t).
Proof. destruct c as [[] [] [] [] [] [] [] []]; reflexivity. Qed.

Lemma parseStringBody_escape (s rest : string) :
  parseStringBody (escape s +:+ String dq rest) = Some (Exact s, rest).
Proof.
  induction s as [|c s IH]; simpl.
  - reflexivity.
  - now rewrite append_assoc, parseStringBody_escapeChar, IH.
Qed.

Lemma quote_append (s rest : string) :
  quote s +:+ rest = String dq (escape s +:+ String dq rest).
Proof. unfold quote. simpl. now rewrite append_assoc. Qed.

Lemma parseValue_quote (fuel : nat) (s rest : string) :
  parseValue (S fuel) (quote s +:+ rest) = Parsed (Exact (JStr s)) rest.
Proof.
  rewrite quote_append. simpl. now rewrite parseStringBody_escape.
Qed.

(** Numerals. *)

Lemma digits_numeral (d : Decimal.uint) :
  forall acc rest,
    endsNumber rest = true ->
    digits acc (NilEmpty.string_of_uint d +:+ rest) = (decimalValue acc d, rest).
Proof.
  induction d as [|d IH|d IH|d IH|d IH|d IH|d IH|d IH|d IH|d IH|d IH];
    intros acc rest Hrest; simpl; try (rewrite IH by assumption; reflexivity).
  destruct rest as [|c rest]; [reflexivity|]. simpl in *.
  destruct (isDigit c); [discriminate | reflexivity].
Qed.

Lemma decimalValue_pos (d : Decimal.uint) :
  forall acc, decimalValue (Z.pos acc) d = Z.pos (Pos.of_uint_acc d acc).
Proof.
  induction d as [|d IH|d IH|d IH|d IH|d IH|d IH|d IH|d IH|d IH|d IH];
    intros acc; simpl; [reflexivity|..]; rewrite <- IH; f_equal; lia.
Qed.

Lemma decimalValue_of_uint (d : Decimal.uint) :
  decimalValue 0 d = Z.of_N (Pos.of_uint d).
Proof.
  induction d as [|d IH|d IH|d IH|d IH|d IH|d IH|d IH|d IH|d IH|d IH]; simpl;
    [reflexivity | exact IH | ..]; apply decimalValue_pos.
Qed.

Lemma decimalValue_to_uint (p : positive) : decimalValue 0 (Pos.to_uint p) = Z.pos p.
Proof. now rewrite decimalValue_of_uint, DecimalPos.Unsigned.of_to. Qed.

Lemma nzhead_head (d : Decimal.uint) :
  match Decimal.nzhead d with
  | Decimal.D0 _ => False
  | _ => True
  end.
Proof. induction d; simpl; trivial. Qed.

(** The numeral of a positive number starts with a digit other than 0. *)
Lemma to_uint_head (p : positive) :
  match Pos.to_uint p with
  | Decimal.Nil | Decimal.D0 _ => False
  | _ => True
  end.
Proof.
  pose proof (DecimalPos.Unsigned.to_of (Pos.to_uint p)) as H.
  rewrite DecimalPos.Unsigned.of_to in H. simpl in H.
  pose proof (Unsigned.to_uint_nonzero p) as Hnz.
  pose proof (Unsigned.to_uint_nonnil p) as Hnn.
  pose proof (nzhead_head (Pos.to_uint p)) as Hh.
  unfold Decimal.unorm in H.
  destruct (Decimal.nzhead (Pos.to_uint p)) eqn:E; simpl in Hh;
    try contradiction; try (rewrite H; exact I).
Qed.

Lemma parseNumber_positive (neg : bool) (p : positive) (rest : string) :
  endsNumber rest = true ->
  parseNumber ((if neg then "-" else "") +:+ NilEmpty.string_of_uint (Pos.to_uint p)
               +:+ rest)
  = Some (Exact (JNum (if neg then Z.neg p else Z.pos p)), rest).
Proof.
  intros Hrest. pose proof (to_uint_head p) as Hhead.
  pose proof (decimalValue_to_uint p) as Hval.
  pose proof (digits_numeral (Pos.to_uint p) 0 rest Hrest) as Hdig.
  assert (Hend : match rest with
                 | String d _ =>
                     Ascii.eqb d "."%char || Ascii.eqb d "e"%char || Ascii.eqb d "E"%char
                 | EmptyString => false
                 end = false).
  { destruct rest as [|d rest]; [reflexivity|]. simpl in Hrest.
    destruct (isDigit d); [discriminate|]. simpl in Hrest.
    now apply negb_true_iff in Hrest. }
  rewrite Hval in Hdig. clear Hval.
  destruct (Pos.to_uint p) as [|d|d|d|d|d|d|d|d|d|d]; try contradiction;
    destruct neg; unfold parseNumber; simpl in Hdig |- *; rewrite Hdig;
    destruct rest as [|c rest]; try reflexivity; now rewrite Hend.
Qed.

Lemma parseNumber_ofNumber (n : Z) (rest : string) :
  endsNumber rest = true ->
  parseNumber (JsString.ofNumber n +:+ rest) = Some (Exact (JNum n), rest).
Proof.
  intros Hrest. unfold JsString.ofNumber. destruct n as [|p|p].
  - simpl. unfold parseNumber. simpl.
    destruct rest as [|c rest]; [reflexivity|]. simpl in Hrest.
    destruct (isDigit c); [discriminate|]. simpl in Hrest.
    apply negb_true_iff in Hrest. now rewrite Hrest.
  - simpl Z.to_int. unfold NilZero.string_of_int, NilZero.string_of_uint.
    pose proof (Unsigned.to_uint_nonnil p) as Hnn.
    pose proof (parseNumber_positive false p rest Hrest) as H. simpl in H.
    destruct (Pos.to_uint p); [contradiction|..]; exact H.
  - simpl Z.to_int. unfold NilZero.string_of_int, NilZero.string_of_uint.
    pose proof (Unsigned.to_uint_nonnil p) as Hnn.
    pose proof (parseNumber_positive true p rest Hrest) as H. simpl in H.
    destruct (Pos.to_uint p); [contradiction|..]; exact H.
Qed.

Lemma ofNumber_head (n : Z) :
  exists c t, JsString.ofNumber n = String c t /\ (c = "-"%char \/ isDigit c = true).
Proof.
  unfold JsString.ofNumber. destruct n as [|p|p]; simpl.
  - exists "0"%char, "". now split; [|right].
  - pose proof (to_uint_head p) as H. unfold NilZero.string_of_uint.
    destruct (Pos.to_uint p); try contradiction; simpl; eexists _, _;
      (split; [reflexivity | now right]).
  - eexists _, _. split; [reflexivity | now left].
Qed.

Lemma parseValue_numeric_head (fuel : nat) (c : ascii) (r : string) :
  c = "-"%char \/ isDigit c = true ->
  parseValue (S fuel) (String c r)
  = match parseNumber (String c r) with
    | Some (v, rest) => Parsed v rest
    | None => Malformed
    end.
Proof.
  intros [-> | H]; [reflexivity|].
  destruct c as [[] [] [] [] [] [] [] []]; try discriminate H; reflexivity.
Qed.

Lemma parseValue_ofNumber (fuel : nat) (n : Z) (rest : string) :
  endsNumber rest = true ->
  parseValue (S fuel) (JsString.ofNumber n +:+ rest) = Parsed (Exact (JNum n)) rest.
Proof.
  intros Hrest. pose proof (parseNumber_ofNumber n rest Hrest) as Hp.
  destruct (ofNumber_head n) as [c [t [Hn Hc]]]. rewrite Hn in Hp |- *.
  change (String c t +:+ rest) with (String c (t +:+ rest)) in Hp |- *.
  now rewrite (parseValue_numeric_head fuel c _ Hc), Hp.
Qed.

(** One member of an object, followed by another or by the closing
    brace. *)
Lemma parseMembers_more (fuel : nat) acc (k valueText : string) (v : JsVal) (rest : string) :
  parseValue fuel (valueText +:+ "," +:+ rest) = Parsed (Exact v) ("," +:+ rest) ->
  parseMembers (S fuel) (Exact acc) (quote k +:+ ":" +:+ valueText +:+ "," +:+ rest)
  = parseMembers fuel (Exact (objSet acc k v)) rest.
Proof.
  intros H. rewrite quote_append. simpl in H |- *.
  rewrite parseStringBody_escape. simpl. now rewrite H.
Qed.

Lemma parseMembers_last (fuel : nat) acc (k valueText : string) (v : JsVal) (rest : string) :
  parseValue fuel (valueText +:+ "}" +:+ rest) = Parsed (Exact v) ("}" +:+ rest) ->
  parseMembers (S fuel) (Exact acc) (quote k +:+ ":" +:+ valueText +:+ "}" +:+ rest)
  = Parsed (Exact (objSet acc k v)) rest.
Proof.
  intros H. rewrite quote_append. simpl in H |- *.
  rewrite parseStringBody_escape. simpl. now rewrite H.
Qed.

(** The text of a summary, piece by piece. *)
Lemma summary_text (env : Env) (model : Model) (p : Progress) :
  TargonFormatResponse (summaryResponse env model p)
  = "{" +:+ quote "id" +:+ ":" +:+ quote (requestId env)
    +:+ "," +:+ quote "model" +:+ ":" +:+ quote (id model)
    +:+ "," +:+ quote "created" +:+ ":" +:+ JsString.ofNumber (startTime env / 1000)
    +:+ "," +:+ quote "content" +:+ ":" +:+ quote (responseText p)
    +:+ "," +:+ quote "tokensIn" +:+ ":" +:+ JsString.ofNumber (seenIn p)
    +:+ "," +:+ quote "tokensOut" +:+ ":" +:+ JsString.ofNumber (seenOut p)
    +:+ "," +:+ quote "tokensTotal" +:+ ":" +:+ JsString.ofNumber (seenIn p + seenOut p)
    +:+ "," +:+ quote "timeTotal" +:+ ":"
    +:+ JsString.ofNumber (endTime env - startTime env) +:+ "}".
Proof.
  unfold TargonFormatResponse, responseObject, summaryResponse, getApiMetrics, metric,
    objectLiteral.
  cbn [omap list_omap fst snd option_map Response.metrics Response.id Response.model
       Response.created Response.content Response.tokensIn Response.tokensOut
       Response.tokensTotal Response.timeTotal tokensIn tokensOut tokensTotal timeTotal
       stringify].
  now rewrite !append_assoc.
Qed.

Lemma parseMembers_end (fuel : nat) acc (k valueText : string) (v : JsVal) :
  parseValue fuel (valueText +:+ "}") = Parsed (Exact v) "}" ->
  parseMembers (S fuel) (Exact acc) (quote k +:+ ":" +:+ valueText +:+ "}")
  = Parsed (Exact (objSet acc k v)) "".
Proof. exact (parseMembers_last fuel acc k valueText v ""). Qed.

Lemma parseValue_braces (fuel : nat) (k rest : string) :
  parseValue (S fuel) ("{" +:+ quote k +:+ rest)
  = match parseMembers fuel (Exact []) (quote k +:+ rest) with
    | Parsed fields r => Parsed (rangedMap JObj fields) r
    | Malformed => Malformed
    | OutOfFuel => OutOfFuel
    end.
Proof. rewrite quote_append. reflexivity. Qed.

(** Decoding a summary gives back the object that was serialised. *)
Lemma parse_summary (env : Env) (model : Model) (p : Progress) :
  parse (TargonFormatResponse (summaryResponse env model p))
  = Some (responseObject (summaryResponse env model p)).
Proof.
  rewrite summary_text. unfold parse, decode.
  match goal with |- context [parseFuel ?t] => set (text := t) end.
  assert (Hfuel : exists f, parseFuel text = (10 + f)%nat).
  { exists (parseFuel text - 10)%nat. unfold parseFuel. subst text.
    rewrite !append_length. simpl. lia. }
  destruct Hfuel as [f ->]. subst text.
  change (10 + f)%nat with (S (S (S (S (S (S (S (S (S (S f)))))))))).
  rewrite parseValue_braces.
  erewrite (parseMembers_more _ _ "id"); [|apply parseValue_quote].
  erewrite (parseMembers_more _ _ "model"); [|apply parseValue_quote].
  erewrite (parseMembers_more _ _ "created"); [|apply parseValue_ofNumber; reflexivity].
  erewrite (parseMembers_more _ _ "content"); [|apply parseValue_quote].
  erewrite (parseMembers_more _ _ "tokensIn"); [|apply parseValue_ofNumber; reflexivity].
  erewrite (parseMembers_more _ _ "tokensOut"); [|apply parseValue_ofNumber; reflexivity].
  erewrite (parseMembers_more _ _ "tokensTotal"); [|apply parseValue_ofNumber; reflexivity].
  erewrite (parseMembers_end _ _ "timeTotal"); [|apply parseValue_ofNumber; reflexivity].
  reflexivity.
Qed.

(** The members of a decoded summary. *)
Lemma summaryField_summaryChunk (env : Env) (model : Model) (p : Progress) (k : string) :
  summaryField (snd (summaryChunk env model p)) k
  = getOwn [ ("id", JStr (requestId env));
             ("model", JStr (id model));
             ("created", JNum (startTime env / 1000));
             ("content", JStr (responseText p));
             ("tokensIn", JNum (seenIn p));
             ("tokensOut", JNum (seenOut p));
             ("tokensTotal", JNum (seenIn p + seenOut p));
             ("timeTotal", JNum (endTime env - startTime env)) ] k.
Proof.
  unfold summaryField, summaryChunk, textChunk. simpl snd. simpl text.
  now rewrite parse_summary.
Qed.

End RoundTripFacts.

(** ** The loops of [createMessage] *)

Module HandlerFacts.
Import JsString JsStringFacts Handler.
#[local] Arguments String.append _ _ : simpl nomatch.

Lemma emitContent_eq (content : string) (p : Progress) :
  emitContent content p
  = ({| responseText := responseText p +:+ content;
        seenIn := seenIn p;
        seenOut := seenOut p |},
     contentFragment content).
Proof.
  unfold emitContent, contentFragment. destruct content as [|c content]; simpl.
  - rewrite append_empty_r. now destruct p.
  - reflexivity.
Qed.

Lemma processChunk_eq (sp : string -> bool) (p : Progress) (chunk : OpenAI.Chunk) :
  processChunk sp p chunk
  = (captureUsage (usageOf chunk)
       {| responseText := responseText p +:+ extractContent chunk;
          seenIn := seenIn p;
          seenOut := seenOut p |},
     contentFragment (extractContent chunk) ++ renderToolCalls sp (toolCallsOf chunk)).
Proof. unfold processChunk. now rewrite emitContent_eq. Qed.

Lemma processRetryChunk_eq (p : Progress) (chunk : OpenAI.Chunk) :
  processRetryChunk p chunk
  = ({| responseText := responseText p +:+ retryContent chunk;
        seenIn := seenIn p;
        seenOut := seenOut p |},
     contentFragment (retryContent chunk)).
Proof. apply emitContent_eq. Qed.

Lemma captureUsage_text (u : option OpenAI.Usage) (p : Progress) :
  responseText (captureUsage u p) = responseText p.
Proof. now destruct u. Qed.

(** The first loop: the text accumulated is the text deltas, in order. *)
Lemma consume_first_text (sp : string -> bool) (events : list OpenAI.Chunk) :
  forall p,
    responseText (fst (consume (processChunk sp) p events))
    = responseText p +:+ joinText (map extractContent events).
Proof.
  induction events as [|chunk events IH]; intros p; simpl.
  - now rewrite append_empty_r.
  - rewrite processChunk_eq.
    destruct (consume (processChunk sp) _ events) as [p2 ys2] eqn:E. simpl.
    change p2 with (fst (p2, ys2)). rewrite <- E, IH, captureUsage_text. simpl.
    now rewrite append_assoc.
Qed.

(** The first loop: what is yielded, event by event. *)
Lemma consume_first_yields (sp : string -> bool) (events : list OpenAI.Chunk) :
  forall p,
    snd (consume (processChunk sp) p events)
    = flat_map (fun chunk => contentFragment (extractContent chunk)
                             ++ renderToolCalls sp (toolCallsOf chunk)) events.
Proof.
  induction events as [|chunk events IH]; intros p; simpl; [reflexivity|].
  rewrite processChunk_eq.
  destruct (consume (processChunk sp) _ events) as [p2 ys2] eqn:E. simpl.
  change ys2 with (snd (p2, ys2)). now rewrite <- E, IH.
Qed.

(** The first loop: the counters are those of the last usage object. *)
Lemma consume_first_usage (sp : string -> bool) (events : list OpenAI.Chunk) :
  forall p,
    let p' := fst (consume (processChunk sp) p events) in
    seenIn p' = match lastUsage events with
                | Some u => orNumber (OpenAI.prompt_tokens u) 0
                | None => seenIn p
                end
    /\ seenOut p' = match lastUsage events with
                    | Some u => orNumber (OpenAI.completion_tokens u) 0
                    | None => seenOut p
                    end.
Proof.
  induction events as [|chunk events IH]; intros p; simpl; [now split|].
  rewrite processChunk_eq.
  destruct (consume (processChunk sp) _ events) as [p2 ys2] eqn:E. simpl.
  change p2 with (fst (p2, ys2)). rewrite <- E.
  destruct (IH (captureUsage (usageOf chunk)
                  {| responseText := responseText p +:+ extractContent chunk;
                     seenIn := seenIn p; seenOut := seenOut p |})) as [Hin Hout].
  rewrite Hin, Hout. destruct (lastUsage events); [now split|].
  now destruct (usageOf chunk).
Qed.

(** The retry's loop: text, fragments, and counters left as they were. *)
Lemma consume_retry (events : list OpenAI.Chunk) :
  forall p,
    consume processRetryChunk p events
    = ({| responseText := responseText p +:+ joinText (map retryContent events);
          seenIn := seenIn p;
          seenOut := seenOut p |},
       flat_map (fun chunk => contentFragment (retryContent chunk)) events).
Proof.
  induction events as [|chunk events IH]; intros p; simpl.
  - rewrite append_empty_r. now destruct p.
  - rewrite processRetryChunk_eq, IH. simpl. now rewrite append_assoc.
Qed.

Lemma lastUsage_none (events : list OpenAI.Chunk) :
  Forall (fun chunk => usageOf chunk = None) events -> lastUsage events = None.
Proof.
  induction 1 as [|chunk events Hc _ IH]; simpl; [reflexivity|]. now rewrite IH.
Qed.

(** Neither loop yields a summary. *)
Lemma contentFragment_no_summary (content : string) :
  List.filter isSummary (contentFragment content) = [].
Proof. unfold contentFragment. now destruct (truthy content). Qed.

Lemma renderToolCalls_no_summary (sp : string -> bool) (calls : option (list OpenAI.ToolCall)) :
  List.filter isSummary (renderToolCalls sp calls) = [].
Proof.
  destruct calls as [calls|]; [|reflexivity]. simpl.
  induction calls as [|call calls IH]; simpl; [reflexivity|].
  rewrite List.filter_app, IH, app_nil_r. unfold renderToolCall.
  destruct (OpenAI.function call) as [f|]; [|reflexivity].
  destruct (OpenAI.fname f) as [name|]; [|reflexivity].
  destruct (String.eqb name "ask_followup_question"); [|reflexivity].
  now destruct (renderArguments sp (OpenAI.arguments f)).
Qed.

Lemma first_loop_no_summary (sp : string -> bool) (events : list OpenAI.Chunk) (p : Progress) :
  List.filter isSummary (snd (consume (processChunk sp) p events)) = [].
Proof.
  rewrite consume_first_yields.
  induction events as [|chunk events IH]; simpl; [reflexivity|].
  now rewrite !List.filter_app, contentFragment_no_summary,
    renderToolCalls_no_summary, IH.
Qed.

Lemma retry_fragments_no_summary (events : list OpenAI.Chunk) :
  List.filter isSummary
    (flat_map (fun chunk => contentFragment (retryContent chunk)) events) = [].
Proof.
  induction events as [|chunk events IH]; simpl; [reflexivity|].
  now rewrite List.filter_app, contentFragment_no_summary, IH.
Qed.

Lemma retry_loop_no_summary (events : list OpenAI.Chunk) (p : Progress) :
  List.filter isSummary (snd (consume processRetryChunk p events)) = [].
Proof.
  rewrite consume_retry. simpl.
  induction events as [|chunk events IH]; simpl; [reflexivity|].
  now rewrite List.filter_app, contentFragment_no_summary, IH.
Qed.

End HandlerFacts.

(** ** Model resolution *)

Section GetModel.

Variable targonModels : gmap string ModelInfo.
Variable targonDefaultModelId : string.


Lemma getModel_unconfigured (key : option string) :
  getModel targonModels targonDefaultModelId {| targonApiKey := key; apiModelId := None |}
  = defaultModel targonModels targonDefaultModelId.
Proof. reflexivity. Qed.

(** A listed id resolves to its own entry. *)
Lemma getModel_listed (options : ApiHandlerOptions) (modelId : string) (entry : ModelInfo) :
  apiModelId options = Some modelId ->
  modelId <> "" ->
  targonModels !! modelId = Some entry ->
  getModel targonModels targonDefaultModelId options = {| id := modelId; info := Own entry |}.
Proof.
  intros Hid Hne Hin. unfold getModel, hasProperty, getProperty.
  rewrite Hid, Hin. destruct modelId; [contradiction|]. reflexivity.
Qed.

(** An id that is neither listed nor a name inherited from
    [Object.prototype] resolves to the default. *)
Lemma getModel_unlisted (options : ApiHandlerOptions) (modelId : string) :
  apiModelId options = Some modelId ->
  targonModels !! modelId = None ->
  existsb (String.eqb modelId) objectPrototypeKeys = false ->
  getModel targonModels targonDefaultModelId options
  = defaultModel targonModels targonDefaultModelId.
Proof.
  intros Hid Hout Hproto. unfold getModel, hasProperty.
  rewrite Hid, Hout, Hproto, bool_decide_eq_false_2.
  - now rewrite andb_false_r.
  - intros [x Hx]. discriminate.
Qed.

Lemma defaultModel_listed (entry : ModelInfo) :
  targonModels !! targonDefaultModelId = Some entry ->
  defaultModel targonModels targonDefaultModelId
  = {| id := targonDefaultModelId; info := Own entry |}.
Proof. intros H. unfold defaultModel, getProperty. now rewrite H. Qed.

(** With the default id listed, the resolved member is never
    [undefined], so reading its [maxTokens] does not throw. *)
Lemma getModel_maxTokens (options : ApiHandlerOptions) :
  is_Some (targonModels !! targonDefaultModelId) ->
  exists maxTokens,
    memberMaxTokens (info (getModel targonModels targonDefaultModelId options))
    = Some maxTokens.
Proof.
  intros [entry Hd].
  assert (Hdef : exists m, memberMaxTokens
                    (info (defaultModel targonModels targonDefaultModelId)) = Some m).
  { rewrite (defaultModel_listed _ Hd). simpl. eauto. }
  unfold getModel. destruct (apiModelId options) as [modelId|]; [|exact Hdef].
  destruct (JsString.truthy modelId && hasProperty targonModels modelId) eqn:E;
    [|exact Hdef].
  apply andb_true_iff in E as [_ E]. unfold hasProperty in E. simpl.
  unfold getProperty. destruct (targonModels !! modelId) as [mi|] eqn:Hm; simpl; [eauto|].
  rewrite bool_decide_eq_false_2 in E by (intros [x Hx]; discriminate).
  simpl in E. rewrite E. simpl. eauto.
Qed.

(** The entry returned is the table's member for the id returned. *)
Lemma getModel_info (options : ApiHandlerOptions) :
  info (getModel targonModels targonDefaultModelId options)
  = getProperty targonModels (id (getModel targonModels targonDefaultModelId options)).
Proof.
  unfold getModel. destruct (apiModelId options) as [modelId|]; [|reflexivity].
  now destruct (_ && _).
Qed.

(** C8 (the code departs from the claim).  The claim: [getModel]
    returns the default entry whenever the configured id is absent from
    the model table.  The code tests [modelId in targonModels], which
    also holds for the names every object inherits: for the id
    "toString", not listed in the table, [getModel] returns that id
    with the inherited member in place of a [ModelInfo], not the
    default entry. *)
Theorem getModel_inherited_name (key : option string) :
  targonModels !! "toString" = None ->
  getModel targonModels targonDefaultModelId
    {| targonApiKey := key; apiModelId := Some "toString" |}
  = {| id := "toString"; info := Inherited "toString" |}.
Proof.
  intros H. unfold getModel, hasProperty, getProperty. simpl.
  rewrite H. now rewrite orb_true_r.
Qed.

End GetModel.

Lemma getModel_inherited_name_witness :
  Examples.models !! "toString" = None
  /\ getModel Examples.models Examples.defaultId
       {| targonApiKey := None; apiModelId := Some "toString" |}
     = {| id := "toString"; info := Inherited "toString" |}
  /\ "toString" <> Examples.defaultId.
Proof.
  split; [reflexivity|]. split.
  - apply (getModel_inherited_name Examples.models Examples.defaultId None). reflexivity.
  - discriminate.
Defined.

(** ** Prompt rewriting *)

Module PromptFacts.
Import JsString JsStringFacts Handler.
#[local] Arguments String.append _ _ : simpl nomatch.

Lemma keywords_lower : lowerWord "concise" /\ lowerWord "brief" /\ lowerWord "short".
Proof.
  cbv [lowerWord isLowerLetter].
  repeat split; apply Nat.leb_le; vm_compute; reflexivity.
Qed.

(** The test of [makePromptConcise] is the containment the
    specification words. *)
Lemma brevity_test (systemPrompt : string) :
  includes (toLowerCase systemPrompt) "concise"
  || includes (toLowerCase systemPrompt) "brief"
  || includes (toLowerCase systemPrompt) "short" = true
  <-> asksForBrevity systemPrompt.
Proof.
  destruct keywords_lower as [Hc [Hb Hs]]. unfold asksForBrevity.
  rewrite !orb_true_iff, !includes_toLowerCase by assumption. tauto.
Qed.

Lemma conciseSuffix_nonempty : conciseSuffix <> "".
Proof. discriminate. Qed.

End PromptFacts.

(** C7.  [makePromptConcise] returns its argument unchanged exactly when
    the argument contains, in any letter case, one of "concise", "brief",
    "short"; otherwise it returns the argument followed by the fixed
    suffix.  So "Be concise." comes back as it is and "Answer questions."
    comes back with the suffix. *)
Theorem makePromptConcise_spec (systemPrompt : string) :
  (Handler.makePromptConcise systemPrompt = systemPrompt
   <-> asksForBrevity systemPrompt)
  /\ (Handler.makePromptConcise systemPrompt = systemPrompt +:+ Handler.conciseSuffix
      <-> ~ asksForBrevity systemPrompt)
  /\ Handler.makePromptConcise "Be concise." = "Be concise."
  /\ Handler.makePromptConcise "Answer questions."
     = "Answer questions." +:+ Handler.conciseSuffix.
Proof.
  pose proof (PromptFacts.brevity_test systemPrompt) as Htest.
  unfold Handler.makePromptConcise at 1 2.
  destruct (_ || _) eqn:E in Htest |- *.
  - split; [|split; [|split; reflexivity]].
    + tauto.
    + split.
      * intros H. symmetry in H. apply JsStringFacts.append_same_l in H.
        now destruct PromptFacts.conciseSuffix_nonempty.
      * intros H. destruct H. now apply Htest.
  - split; [|split; [|split; reflexivity]].
    + split.
      * intros H. apply JsStringFacts.append_same_l in H.
        now destruct PromptFacts.conciseSuffix_nonempty.
      * intros H. apply Htest in H. discriminate.
    + split; [|reflexivity]. intros _ H. apply Htest in H. discriminate.
Qed.

(** ** The [catch] block *)

Module ErrorFacts.
Import JsString JsStringFacts Handler.
#[local] Arguments String.append _ _ : simpl nomatch.

Lemma isServiceUnavailable_iff (e : OpenAI.ApiError) :
  isServiceUnavailable e = true
  <-> OpenAI.status e = Some 503 \/ includes (OpenAI.message e) "503" = true.
Proof.
  unfold isServiceUnavailable. rewrite orb_true_iff, andb_true_iff. split.
  - intros [H | [_ H]]; [left | now right].
    destruct (OpenAI.status e) as [n|]; [|discriminate].
    apply Z.eqb_eq in H. now subst.
  - intros [H | H]; [left | right].
    + now rewrite H.
    + split; [|assumption]. now destruct (OpenAI.message e).
Qed.

Lemma errorHeadline_prefix (e : OpenAI.ApiError) :
  exists rest, errorHeadline e = "Targon API error: " +:+ rest.
Proof.
  unfold errorHeadline. destruct (OpenAI.status e) as [n|]; [|eauto].
  destruct (n =? 0); eauto.
Qed.

Lemma describeError_prefix (e : OpenAI.ApiError) :
  exists rest, describeError e = "Targon API error: " +:+ rest.
Proof.
  unfold describeError. destruct (errorHeadline_prefix e) as [rest ->].
  exists (rest +:+ remedyHint (OpenAI.message e)). apply append_assoc.
Qed.

Lemma describeError_not_config (e : OpenAI.ApiError) :
  describeError e <> "Targon API key not found".
Proof.
  destruct (describeError_prefix e) as [rest ->]. simpl. discriminate.
Qed.

(** With a status (a non-zero number), the message carries it. *)
Lemma describeError_status (e : OpenAI.ApiError) (n : Z) :
  OpenAI.status e = Some n -> n <> 0 ->
  describeError e
  = "Targon API error: " +:+ ofNumber n +:+ " " +:+ OpenAI.message e
    +:+ remedyHint (OpenAI.message e).
Proof.
  intros Hs Hn. unfold describeError, errorHeadline. rewrite Hs.
  apply Z.eqb_neq in Hn. rewrite Hn. now rewrite !append_assoc.
Qed.

Lemma describeError_no_status (e : OpenAI.ApiError) :
  OpenAI.status e = None ->
  describeError e
  = "Targon API error: " +:+ OpenAI.message e +:+ remedyHint (OpenAI.message e).
Proof.
  intros Hs. unfold describeError, errorHeadline. rewrite Hs.
  now rewrite !append_assoc.
Qed.

Lemma describeError_includes_status (e : OpenAI.ApiError) (n : Z) :
  OpenAI.status e = Some n -> n <> 0 ->
  includes (describeError e) (ofNumber n) = true.
Proof.
  intros Hs Hn. rewrite (describeError_status e n Hs Hn). apply includes_append.
Qed.

Lemma describeError_includes_hint (e : OpenAI.ApiError) :
  includes (describeError e) (remedyHint (OpenAI.message e)) = true.
Proof.
  unfold describeError. apply includes_iff.
  exists (errorHeadline e), "". now rewrite append_empty_r.
Qed.

(** The hint is one of the five fixed texts as soon as the error text
    mentions one of the known codes. *)
Lemma remedyHint_known (message code : string) :
  In code knownStatusCodes -> includes message code = true ->
  In (remedyHint message) remedyHints.
Proof.
  unfold knownStatusCodes, remedyHints, remedyHint. intros Hin Hc.
  destruct (includes message "401" || includes message "authentication") eqn:E401;
    [simpl; tauto|].
  apply orb_false_iff in E401 as [E401 _].
  destruct (includes message "403") eqn:E403; [simpl; tauto|].
  destruct (includes message "404") eqn:E404; [simpl; tauto|].
  destruct (includes message "429") eqn:E429; [simpl; tauto|].
  destruct (includes message "500" || includes message "502" || includes message "503")
    eqn:E5; [simpl; tauto|].
  apply orb_false_iff in E5 as [E5 E503]. apply orb_false_iff in E5 as [E500 E502].
  simpl in Hin.
  destruct Hin as [<-|[<-|[<-|[<-|[<-|[<-|[<-|[]]]]]]]]; congruence.
Qed.

Lemma remedyHint_authentication (message : string) :
  includes message "401" = true \/ includes message "authentication" = true ->
  remedyHint message = authenticationHint.
Proof.
  intros H. unfold remedyHint.
  replace (includes message "401" || includes message "authentication") with true;
    [reflexivity|]. symmetry. now apply orb_true_iff.
Qed.

(** The run of the [catch] block for an error that is not a 503. *)
Lemma recover_other (env : Env) (model : Model) msgs sent p ys (e : OpenAI.ApiError) :
  isServiceUnavailable e = false ->
  recover env model msgs sent p ys e
  = {| yielded := ys; submitted := sent; completion := Thrown (describeError e) |}.
Proof. intros H. unfold recover. now rewrite H. Qed.

(** The run of the [catch] block for a 503, by the course of the
    retry. *)
Lemma recover_unavailable (env : Env) (model : Model) msgs sent p ys
  (e : OpenAI.ApiError) :
  isServiceUnavailable e = true ->
  recover env model msgs sent p ys e
  = let simple := simpleRequest model msgs in
    let retried := client env (length sent) simple in
    let p2 := {| responseText :=
                   responseText p +:+ joinText (map retryContent (delivered retried));
                 seenIn := seenIn p;
                 seenOut := seenOut p |} in
    let ys2 := flat_map (fun chunk => contentFragment (retryContent chunk))
                        (delivered retried) in
    match failure retried with
    | None =>
        {| yielded := ys ++ ys2 ++ [summaryChunk env model p2];
           submitted := sent ++ [simple];
           completion := Returned |}
    | Some retryError =>
        {| yielded := ys ++ ys2;
           submitted := sent ++ [simple];
           completion := Thrown (describeError retryError) |}
    end.
Proof.
  intros H. unfold recover. rewrite H. cbv zeta.
  destruct (client env (length sent) (simpleRequest model msgs)) as [e2|events ending];
    simpl.
  - now rewrite app_nil_r.
  - rewrite HandlerFacts.consume_retry. now destruct ending.
Qed.

(** However the [catch] block ends, what it throws is a described
    error. *)
Lemma recover_completion (env : Env) (model : Model) msgs sent p ys
  (e : OpenAI.ApiError) :
  completion (recover env model msgs sent p ys e) = Returned
  \/ exists e', completion (recover env model msgs sent p ys e) = Thrown (describeError e').
Proof.
  destruct (isServiceUnavailable e) eqn:E.
  - rewrite (recover_unavailable _ _ _ _ _ _ _ E). cbv zeta.
    destruct (failure _); simpl; eauto.
  - rewrite (recover_other _ _ _ _ _ _ _ E). simpl. eauto.
Qed.

End ErrorFacts.

(** The hint is empty exactly when the text mentions none of the codes. *)
Lemma remedyHint_empty_iff (message : string) :
  Handler.remedyHint message = "" <-> mentionsNoKnownCode message.
Proof.
  unfold mentionsNoKnownCode, knownStatusCodes, Handler.remedyHint.
  rewrite !Forall_cons_iff.
  destruct (JsString.includes message "401");
    [simpl; split; [discriminate | intros (_ & H & _); discriminate]|].
  destruct (JsString.includes message "authentication");
    [simpl; split; [discriminate | intros (H & _); discriminate]|].
  destruct (JsString.includes message "403");
    [simpl; split; [discriminate | intros (_ & _ & H & _); discriminate]|].
  destruct (JsString.includes message "404");
    [simpl; split; [discriminate | intros (_ & _ & _ & H & _); discriminate]|].
  destruct (JsString.includes message "429");
    [simpl; split; [discriminate | intros (_ & _ & _ & _ & H & _); discriminate]|].
  destruct (JsString.includes message "500");
    [simpl; split; [discriminate | intros (_ & _ & _ & _ & _ & H & _); discriminate]|].
  destruct (JsString.includes message "502");
    [simpl; split; [discriminate | intros (_ & _ & _ & _ & _ & _ & H & _); discriminate]|].
  destruct (JsString.includes message "503");
    [simpl; split; [discriminate | intros (_ & _ & _ & _ & _ & _ & _ & H & _); discriminate]|].
  simpl. split; [intros _; repeat split; constructor | reflexivity].
Qed.

(** ** [createMessage] *)

Lemma openAiMessages_id (formatted : list OpenAI.ChatCompletionMessageParam) :
  openAiMessages formatted = formatted.
Proof.
  unfold openAiMessages. induction formatted as [|m l IH]; simpl; [reflexivity|].
  rewrite IH. now destruct m.
Qed.

Lemma optTruthy_configured (options : ApiHandlerOptions) :
  Handler.optTruthy (targonApiKey options) = true <-> apiKeyConfigured options.
Proof.
  unfold apiKeyConfigured. destruct (targonApiKey options) as [[|c key]|]; simpl.
  - split; [discriminate | intros [k [H Hne]]]. inversion H. now subst.
  - split; [|reflexivity]. intros _. eexists. split; [reflexivity | discriminate].
  - split; [discriminate | intros [k [H _]]; discriminate].
Qed.

Lemma optTruthy_unconfigured (options : ApiHandlerOptions) :
  Handler.optTruthy (targonApiKey options) = false <-> ~ apiKeyConfigured options.
Proof.
  rewrite <- optTruthy_configured. now destruct (Handler.optTruthy _).
Qed.

Lemma recover_submitted (env : Env) (model : Model) msgs sent p ys (e : OpenAI.ApiError) :
  exists later, submitted (Handler.recover env model msgs sent p ys e) = sent ++ later.
Proof.
  destruct (Handler.isServiceUnavailable e) eqn:E.
  - rewrite (ErrorFacts.recover_unavailable _ _ _ _ _ _ _ E). cbv zeta.
    destruct (failure _); simpl; eauto.
  - rewrite (ErrorFacts.recover_other _ _ _ _ _ _ _ E). simpl.
    exists []. now rewrite app_nil_r.
Qed.

(** ** The loop of the plain handler *)

Lemma hasChoices_content (chunk : OpenAI.Chunk) :
  hasChoices chunk -> PlainHandler.extractContent chunk = Some (plainContent chunk).
Proof.
  unfold plainContent.
  destruct chunk as [[choices|] content usage|s]; simpl; try contradiction.
  intros _. now destruct choices as [|[[delta|] message|s] others].
Qed.

Lemma no_choices_throws (chunk : OpenAI.Chunk) :
  ~ hasChoices chunk -> PlainHandler.extractContent chunk = None.
Proof.
  destruct chunk as [[choices|] content usage|s]; simpl; try reflexivity.
  intros H. now destruct H.
Qed.

(** The loop over events that all have [choices]. *)
Lemma plain_consume_clean (events : list OpenAI.Chunk) :
  forall p,
    Forall hasChoices events ->
    PlainHandler.consume p events
    = ({| responseText := responseText p +:+ joinText (map plainContent events);
          seenIn := match lastUsage events with
                    | Some u => orNumber (OpenAI.prompt_tokens u) 0
                    | None => seenIn p
                    end;
          seenOut := match lastUsage events with
                     | Some u => orNumber (OpenAI.completion_tokens u) 0
                     | None => seenOut p
                     end |},
       flat_map (fun chunk => contentFragment (plainContent chunk)) events,
       None).
Proof.
  induction events as [|chunk events IH]; intros p Hall; simpl.
  - rewrite JsStringFacts.append_empty_r. now destruct p.
  - inversion Hall as [|? ? Hc Hrest]; subst.
    rewrite (hasChoices_content _ Hc), HandlerFacts.emitContent_eq, (IH _ Hrest).
    rewrite HandlerFacts.captureUsage_text. simpl responseText.
    rewrite JsStringFacts.append_assoc.
    destruct (lastUsage events); [reflexivity|].
    now destruct (Handler.usageOf chunk).
Qed.

(** The loop stops at the first event without [choices]. *)
Lemma plain_consume_abort (pre post : list OpenAI.Chunk) (chunk : OpenAI.Chunk) :
  forall p,
    Forall hasChoices pre ->
    ~ hasChoices chunk ->
    exists p',
      PlainHandler.consume p (pre ++ chunk :: post)
      = (p', flat_map (fun c => contentFragment (plainContent c)) pre,
         Some PlainHandler.choicesTypeError).
Proof.
  induction pre as [|c pre IH]; intros p Hall Hbad; simpl.
  - rewrite (no_choices_throws _ Hbad). now exists p.
  - inversion Hall as [|? ? Hc Hrest]; subst.
    rewrite (hasChoices_content _ Hc), HandlerFacts.emitContent_eq.
    destruct (IH (captureUsage (Handler.usageOf c)
                    {| responseText := responseText p +:+ plainContent c;
                       seenIn := seenIn p; seenOut := seenOut p |}) Hrest Hbad)
      as [p' ->].
    now exists p'.
Qed.

(** The loop throws nothing but the [TypeError] of the unguarded read. *)
Lemma plain_consume_thrown (events : list OpenAI.Chunk) :
  forall p p' ys thrown,
    PlainHandler.consume p events = (p', ys, Some thrown) ->
    thrown = PlainHandler.choicesTypeError.
Proof.
  induction events as [|c events IH]; intros p p' ys thrown; simpl; [discriminate|].
  destruct (PlainHandler.extractContent c); [|intros H; now inversion H].
  destruct (emitContent _ p) as [p1 ys1].
  destruct (PlainHandler.consume _ events) as [[p2 ys2] t] eqn:E2.
  intros H. inversion H; subst. exact (IH _ _ _ _ E2).
Qed.

Section CreateMessage.

Variable targonModels : gmap string ModelInfo.
Variable targonDefaultModelId : string.

Lemma createMessage_unconfigured options env systemPrompt messages :
  ~ apiKeyConfigured options ->
  Handler.createMessage targonModels targonDefaultModelId options env systemPrompt messages
  = {| yielded := []; submitted := []; completion := Thrown "Targon API key not found" |}.
Proof.
  intros H. apply optTruthy_unconfigured in H.
  unfold Handler.createMessage. now rewrite H.
Qed.

(** The course of a call with an API key: the first request, the
    first loop over what the client delivers, then the summary or the
    [catch] block. *)
Lemma createMessage_course options env systemPrompt messages maxTokens :
  apiKeyConfigured options ->
  memberMaxTokens (info (getModel targonModels targonDefaultModelId options)) = Some maxTokens ->
  let msgs := formattedMessages (Handler.makePromptConcise systemPrompt) messages in
  let request :=
    Handler.firstRequest (getModel targonModels targonDefaultModelId options)
      maxTokens msgs messages in
  let first := client env 0%nat request in
  let looped := Handler.consume (Handler.processChunk (strPositive env))
                  initialProgress (delivered first) in
  Handler.createMessage targonModels targonDefaultModelId options env systemPrompt messages
  = match failure first with
    | None =>
        {| yielded :=
             snd looped
             ++ [summaryChunk env (getModel targonModels targonDefaultModelId options)
                   (fst looped)];
           submitted := [request];
           completion := Returned |}
    | Some error =>
        Handler.recover env (getModel targonModels targonDefaultModelId options) msgs
          [request] (fst looped) (snd looped) error
    end.
Proof.
  intros Hkey Hmax. apply optTruthy_configured in Hkey.
  unfold Handler.createMessage, Handler.converse. rewrite Hkey, Hmax. simpl negb. cbv iota.
  rewrite openAiMessages_id. cbv zeta.
  destruct (client env 0%nat _) as [e|events ending]; simpl; [reflexivity|].
  destruct (Handler.consume _ _ events) as [p ys]. simpl. now destruct ending.
Qed.

Lemma plainCreateMessage_unconfigured options env systemPrompt messages :
  ~ apiKeyConfigured options ->
  PlainHandler.createMessage targonModels targonDefaultModelId options env systemPrompt messages
  = {| yielded := []; submitted := []; completion := Thrown "Targon API key not found" |}.
Proof.
  intros H. apply optTruthy_unconfigured in H.
  unfold PlainHandler.createMessage. now rewrite H.
Qed.

(** The plain handler, with an API key, throws only wrapped errors. *)
Lemma plainCreateMessage_completion options env systemPrompt messages :
  apiKeyConfigured options ->
  let plain := PlainHandler.createMessage targonModels targonDefaultModelId options env
                 systemPrompt messages in
  completion plain = Returned \/ exists e, completion plain = PlainHandler.wrapError e.
Proof.
  intros Hkey plain. subst plain. apply optTruthy_configured in Hkey.
  unfold PlainHandler.createMessage. rewrite Hkey. simpl negb. cbv iota zeta.
  destruct (memberMaxTokens _) as [maxTokens|]; simpl; [|eauto].
  destruct (client env 0%nat _) as [e|events ending]; simpl; [eauto|].
  destruct (PlainHandler.consume _ events) as [[p ys] [thrown|]]; simpl; [eauto|].
  destruct ending; simpl; eauto.
Qed.

(** C6.  Without an API key (absent, or the empty string),
    [createMessage] throws the configuration error at once: no request
    has been submitted and no fragment yielded.  With an API key, the
    configuration error is never what the call throws.  Both handlers
    behave so. *)
Theorem api_key_required options env systemPrompt messages :
  let run := Handler.createMessage targonModels targonDefaultModelId options env
               systemPrompt messages in
  let plain := PlainHandler.createMessage targonModels targonDefaultModelId options env
                 systemPrompt messages in
  let configurationError :=
    {| yielded := []; submitted := []; completion := Thrown "Targon API key not found" |} in
  (~ apiKeyConfigured options -> run = configurationError /\ plain = configurationError)
  /\ (apiKeyConfigured options ->
        completion run <> Thrown "Targon API key not found"
        /\ completion plain <> Thrown "Targon API key not found").
Proof.
  intros run plain configurationError. subst run plain configurationError. split.
  - intros H. split;
      [now apply createMessage_unconfigured | now apply plainCreateMessage_unconfigured].
  - intros Hkey. split.
    + pose proof Hkey as Hk. apply optTruthy_configured in Hk.
      unfold Handler.createMessage, Handler.converse. rewrite Hk. simpl negb. cbv iota zeta.
      assert (Hrec : forall model msgs sent p ys e,
                 completion (Handler.recover env model msgs sent p ys e)
                 <> Thrown "Targon API key not found").
      { intros model msgs sent p ys e H.
        destruct (ErrorFacts.recover_completion env model msgs sent p ys e)
          as [Hr | [e' Hr]]; rewrite Hr in H; [discriminate|].
        inversion H as [H']. now apply ErrorFacts.describeError_not_config in H'. }
      destruct (memberMaxTokens _) as [maxTokens|]; [|apply Hrec].
      destruct (client env 0%nat _) as [e|events ending]; [apply Hrec|].
      destruct (Handler.consume _ _ events) as [p ys].
      destruct ending; [apply Hrec | discriminate].
    + destruct (plainCreateMessage_completion options env systemPrompt messages Hkey)
        as [Hr | [e Hr]]; rewrite Hr; [discriminate|].
      unfold PlainHandler.wrapError. intros H. inversion H.
Qed.

(** C5, as amended.  The request that [createMessage] constructs and
    submits first lists a system entry built from the system prompt
    (rewritten by [makePromptConcise] in the handler that has it,
    verbatim in the plain one), then the input messages in order, each
    with its role copied and its content as text (a string as it is,
    anything else through [JSON.stringify]); it sets [stream] to true,
    [temperature] to 0.7 and [max_tokens] to the maximum that the model
    table lists for the resolved id, or to 4096 when the table lists no
    maximum for it, or lists zero. *)
Theorem request_envelope options env systemPrompt messages :
  let model := getModel targonModels targonDefaultModelId options in
  let run := Handler.createMessage targonModels targonDefaultModelId options env
               systemPrompt messages in
  let plain := PlainHandler.createMessage targonModels targonDefaultModelId options env
                 systemPrompt messages in
  let entry := fun m : Anthropic.MessageParam =>
    {| OpenAI.role := Anthropic.role m;
       OpenAI.content :=
         match Anthropic.content m with
         | Anthropic.Text s => s
         | Anthropic.Blocks blocks => Json.stringify blocks
         end |} in
  let listed :=
    match targonModels !! id model with
    | Some modelInfo => maxTokens modelInfo
    | None => None
    end in
  apiKeyConfigured options ->
  is_Some (targonModels !! targonDefaultModelId) ->
  exists request later request',
    submitted run = request :: later
    /\ submitted plain = [request']
    /\ OpenAI.model request = id model
    /\ OpenAI.model request' = id model
    /\ OpenAI.messages request
       = {| OpenAI.role := "system";
            OpenAI.content := Handler.makePromptConcise systemPrompt |}
         :: map entry messages
    /\ OpenAI.messages request'
       = {| OpenAI.role := "system"; OpenAI.content := systemPrompt |}
         :: map entry messages
    /\ OpenAI.stream request = true
    /\ OpenAI.stream request' = true
    /\ OpenAI.temperature request = 7 # 10
    /\ OpenAI.temperature request' = 7 # 10
    /\ OpenAI.max_tokens request
       = match listed with
         | Some n => if n =? 0 then 4096 else n
         | None => 4096
         end
    /\ OpenAI.max_tokens request' = OpenAI.max_tokens request.
Proof.
  intros model run plain entry listed Hkey Hdef.
  destruct (getModel_maxTokens targonModels targonDefaultModelId options Hdef)
    as [maxTokens Hmax]. fold model in Hmax.
  assert (Hlisted : maxTokens = listed).
  { subst listed model. rewrite getModel_info in Hmax. unfold getProperty in Hmax.
    destruct (targonModels !! id (getModel targonModels targonDefaultModelId options))
      as [modelInfo|]; [now inversion Hmax|].
    destruct (existsb _ objectPrototypeKeys); now inversion Hmax. }
  set (msgs := formattedMessages (Handler.makePromptConcise systemPrompt) messages).
  set (request := Handler.firstRequest model maxTokens msgs messages).
  set (request' := PlainHandler.request model maxTokens
                     (formattedMessages systemPrompt messages)).
  assert (Hsub : exists later, submitted run = request :: later).
  { subst run.
    rewrite (createMessage_course options env systemPrompt messages maxTokens Hkey Hmax).
    cbv zeta. fold model msgs request.
    destruct (failure (client env 0%nat request)) as [e|]; [|now exists []].
    destruct (recover_submitted env model msgs [request]
                (fst (Handler.consume
                        (Handler.processChunk (strPositive env))
                        initialProgress (delivered (client env 0%nat request))))
                (snd (Handler.consume
                        (Handler.processChunk (strPositive env))
                        initialProgress (delivered (client env 0%nat request))))
                e) as [later Hl].
    exists later. now rewrite Hl. }
  destruct Hsub as [later Hsub].
  assert (Hplain : submitted plain = [request']).
  { pose proof Hkey as Hk. apply optTruthy_configured in Hk. subst plain.
    unfold PlainHandler.createMessage. fold model. rewrite Hk, Hmax.
    simpl negb. cbv iota zeta.
    rewrite openAiMessages_id. fold request'.
    destruct (client env 0%nat request') as [e|events ending]; [reflexivity|].
    destruct (PlainHandler.consume _ events) as [[p ys] [thrown|]]; [reflexivity|].
    now destruct ending. }
  exists request, later, request'.
  repeat split; try assumption; try reflexivity.
  subst request. simpl. now rewrite Hlisted.
Qed.

(** The two ways a call with an API key can return: the first stream
    ends normally, or it fails with a 503 and the retry's stream ends
    normally.  In both, the fragments are those of the loops followed by
    the summary of the final loop state. *)
Lemma createMessage_returns options env systemPrompt messages :
  let run := Handler.createMessage targonModels targonDefaultModelId options env
               systemPrompt messages in
  let model := getModel targonModels targonDefaultModelId options in
  completion run = Returned ->
  exists maxTokens,
    memberMaxTokens (info model) = Some maxTokens
    /\ let msgs := formattedMessages (Handler.makePromptConcise systemPrompt) messages in
       let request := Handler.firstRequest model maxTokens msgs messages in
       let first := client env 0%nat request in
       let retried := client env 1%nat (Handler.simpleRequest model msgs) in
       let looped := Handler.consume (Handler.processChunk (strPositive env))
                       initialProgress (delivered first) in
       (failure first = None
        /\ run = {| yielded := snd looped ++ [summaryChunk env model (fst looped)];
                    submitted := [request];
                    completion := Returned |})
       \/ (exists error,
             failure first = Some error
             /\ Handler.isServiceUnavailable error = true
             /\ failure retried = None
             /\ run = {| yielded :=
                           snd looped
                           ++ flat_map (fun chunk =>
                                          contentFragment (Handler.retryContent chunk))
                                       (delivered retried)
                           ++ [summaryChunk env model
                                 {| responseText :=
                                      responseText (fst looped)
                                      +:+ joinText (map Handler.retryContent
                                                        (delivered retried));
                                    seenIn := seenIn (fst looped);
                                    seenOut := seenOut (fst looped) |}];
                         submitted := [request; Handler.simpleRequest model msgs];
                         completion := Returned |}).
Proof.
  intros run model Hret.
  destruct (Handler.optTruthy (targonApiKey options)) eqn:Hkey.
  2:{ apply optTruthy_unconfigured in Hkey. subst run.
      rewrite (createMessage_unconfigured _ _ _ _ Hkey) in Hret. discriminate. }
  apply optTruthy_configured in Hkey.
  destruct (memberMaxTokens (info model)) as [maxTokens|] eqn:Hmax.
  2:{ subst run. unfold Handler.createMessage, Handler.converse in Hret.
      apply optTruthy_configured in Hkey. fold model in Hret.
      rewrite Hkey, Hmax in Hret. simpl in Hret. discriminate. }
  exists maxTokens. split; [reflexivity|]. cbv zeta.
  subst run model.
  rewrite (createMessage_course options env systemPrompt messages maxTokens Hkey Hmax)
    in Hret |- *.
  cbv zeta in Hret |- *.
  destruct (failure (client env 0%nat _)) as [error|] eqn:Hfail.
  - right. exists error.
    destruct (Handler.isServiceUnavailable error) eqn:E.
    + rewrite (ErrorFacts.recover_unavailable _ _ _ _ _ _ _ E) in Hret |- *.
      cbv zeta in Hret |- *. simpl length in Hret |- *.
      destruct (failure (client env 1%nat _)) as [retryError|]; [discriminate|].
      repeat split; reflexivity.
    + rewrite (ErrorFacts.recover_other _ _ _ _ _ _ _ E) in Hret. discriminate.
  - left. split; reflexivity.
Qed.

(** A call that returns has yielded the summary of some loop state
    last, and no other summary; the counters of that state are zero when
    no event carried usage counts. *)
Lemma returned_summary options env systemPrompt messages :
  let run := Handler.createMessage targonModels targonDefaultModelId options env
               systemPrompt messages in
  let model := getModel targonModels targonDefaultModelId options in
  completion run = Returned ->
  exists before p,
    yielded run = before ++ [summaryChunk env model p]
    /\ summaries run = 1%nat
    /\ (usageFree env -> seenIn p = 0 /\ seenOut p = 0).
Proof.
  intros run model Hret.
  destruct (createMessage_returns options env systemPrompt messages Hret)
    as [maxTokens [Hmax Hcases]]. cbv zeta in Hcases. fold run model in Hcases.
  destruct Hcases as [[Hfail Hrun] | [error [Hfail [H503 [Hretry Hrun]]]]].
  + eexists _, _. rewrite Hrun. split; [reflexivity|]. split.
    * unfold summaries. simpl yielded.
      now rewrite List.filter_app, HandlerFacts.first_loop_no_summary.
    * intros Hfree.
      destruct (HandlerFacts.consume_first_usage (strPositive env)
                  (delivered (client env 0%nat
                     (Handler.firstRequest model maxTokens
                        (formattedMessages (Handler.makePromptConcise systemPrompt)
                           messages) messages))) initialProgress) as [Hin Hout].
      cbv zeta in Hin, Hout. rewrite Hin, Hout.
      now rewrite (HandlerFacts.lastUsage_none _ (Hfree _ _)).
  + eexists (_ ++ _), _. rewrite Hrun. simpl yielded. rewrite <- app_assoc.
    split; [reflexivity|]. split.
    * unfold summaries. simpl yielded.
      rewrite !List.filter_app, HandlerFacts.first_loop_no_summary,
        HandlerFacts.retry_fragments_no_summary. reflexivity.
    * intros Hfree. simpl seenIn. simpl seenOut.
      destruct (HandlerFacts.consume_first_usage (strPositive env)
                  (delivered (client env 0%nat
                     (Handler.firstRequest model maxTokens
                        (formattedMessages (Handler.makePromptConcise systemPrompt)
                           messages) messages))) initialProgress) as [Hin Hout].
      cbv zeta in Hin, Hout. rewrite Hin, Hout.
      now rewrite (HandlerFacts.lastUsage_none _ (Hfree _ _)).
Qed.

(** C1.  A call that returns has yielded exactly one summary fragment,
    and it is the last fragment; decoded, its tokensTotal is the sum of
    its tokensIn and tokensOut, and these two are zero when no event of
    the provider carried usage counts.  For the stream "Hel", "lo", then
    usage 5 and 2, the fragments are "Hel", "lo" and one summary, which
    decodes to tokensIn 5, tokensOut 2, tokensTotal 7. *)
Theorem summary_once_and_last options env systemPrompt messages :
  let run := Handler.createMessage targonModels targonDefaultModelId options env
               systemPrompt messages in
  (completion run = Returned ->
   exists before summary countIn countOut,
     yielded run = before ++ [(ResponseSummary, summary)]
     /\ summaries run = 1%nat
     /\ summaryField summary "tokensIn" = Some (Json.JNum countIn)
     /\ summaryField summary "tokensOut" = Some (Json.JNum countOut)
     /\ summaryField summary "tokensTotal" = Some (Json.JNum (countIn + countOut))
     /\ (usageFree env -> countIn = 0 /\ countOut = 0))
  /\ (let stream :=
        OpenAI.Streaming [ Examples.contentChunk "Hel"; Examples.contentChunk "lo";
                           Examples.usageChunk 5 2 ] None in
      let example := Handler.createMessage Examples.models Examples.defaultId
                       Examples.options (Examples.env (fun _ _ => stream)) "Answer."
                       Examples.userHi in
      let summary :=
        textChunk
          (Json.dquotes
             ("{'id':'3f2b8c1e-7a54-4d0b-9c6e-2a1f0e5d4c3b',"
              +:+ "'model':'deepseek-ai/DeepSeek-V3',"
              +:+ "'created':1700000000,'content':'Hello',"
              +:+ "'tokensIn':5,'tokensOut':2,'tokensTotal':7,'timeTotal':377}")) in
      completion example = Returned
      /\ yielded example
         = [ (ContentDelta, textChunk "Hel"); (ContentDelta, textChunk "lo");
             (ResponseSummary, summary) ]
      /\ summaryField summary "tokensIn" = Some (Json.JNum 5)
      /\ summaryField summary "tokensOut" = Some (Json.JNum 2)
      /\ summaryField summary "tokensTotal" = Some (Json.JNum 7)).
Proof.
  intros run. split.
  - intros Hret.
    destruct (returned_summary options env systemPrompt messages Hret)
      as (before & p & Hy & Hs & Hzero).
    exists before, (snd (summaryChunk env
                           (getModel targonModels targonDefaultModelId options) p)),
      (seenIn p), (seenOut p).
    rewrite !RoundTripFacts.summaryField_summaryChunk.
    repeat split; try reflexivity; try assumption; now apply Hzero.
  - cbv zeta. repeat split; vm_compute; reflexivity.
Qed.

(** C2.  When the provider call fails, at once or in mid-stream, with an
    error whose status is 503 or whose message contains "503", exactly
    one more request is submitted: the same model and message list, no
    tools, temperature 0, max_tokens 1024.  From the retry's events only
    the delta content is taken: each gives at most a content fragment,
    and the token counters stay as the first attempt left them.  If the
    retry's stream ends normally the call returns, its last fragment
    being the summary; if the retry fails, the call throws the
    description of the retry's error. *)
Theorem retry_once_on_503 options env systemPrompt messages maxTokens error :
  let model := getModel targonModels targonDefaultModelId options in
  let run := Handler.createMessage targonModels targonDefaultModelId options env
               systemPrompt messages in
  let msgs := formattedMessages (Handler.makePromptConcise systemPrompt) messages in
  let request := Handler.firstRequest model maxTokens msgs messages in
  let simple :=
    {| OpenAI.model := OpenAI.model request;
       OpenAI.messages := OpenAI.messages request;
       OpenAI.stream := true;
       OpenAI.temperature := 0;
       OpenAI.max_tokens := 1024;
       OpenAI.tools := None |} in
  let first := client env 0%nat request in
  let retried := client env 1%nat simple in
  let looped := Handler.consume (Handler.processChunk (strPositive env))
                  initialProgress (delivered first) in
  let retryFragments :=
    flat_map (fun chunk => contentFragment (Handler.retryContent chunk))
             (delivered retried) in
  apiKeyConfigured options ->
  memberMaxTokens (info model) = Some maxTokens ->
  failure first = Some error ->
  OpenAI.status error = Some 503 \/ JsString.includes (OpenAI.message error) "503" = true ->
  submitted run = [request; simple]
  /\ match failure retried with
     | None =>
         completion run = Returned
         /\ exists p,
             yielded run = snd looped ++ retryFragments ++ [summaryChunk env model p]
             /\ seenIn p = seenIn (fst looped)
             /\ seenOut p = seenOut (fst looped)
     | Some retryError =>
         completion run = Thrown (Handler.describeError retryError)
         /\ yielded run = snd looped ++ retryFragments
     end.
Proof.
  intros model run msgs request simple first retried looped retryFragments
    Hkey Hmax Hfail H503.
  apply ErrorFacts.isServiceUnavailable_iff in H503.
  subst run.
  rewrite (createMessage_course options env systemPrompt messages maxTokens Hkey Hmax).
  cbv zeta. fold model msgs request first looped. rewrite Hfail.
  rewrite (ErrorFacts.recover_unavailable _ _ _ _ _ _ _ H503). cbv zeta.
  simpl length. change (Handler.simpleRequest model msgs) with simple.
  fold retried retryFragments.
  destruct (failure retried) as [retryError|]; simpl.
  - repeat split; reflexivity.
  - split; [reflexivity|]. split; [reflexivity|]. eexists. repeat split; reflexivity.
Qed.

(** The hint that the [if]/[else if] chain selects, test by test. *)
Lemma remedyHint_table (text : string) :
  let mentions := fun code => JsString.includes text code in
  (mentions "401" = true \/ mentions "authentication" = true ->
   Handler.remedyHint text = Handler.authenticationHint)
  /\ (mentions "401" = false -> mentions "authentication" = false ->
      (mentions "403" = true -> Handler.remedyHint text = Handler.permissionHint)
      /\ (mentions "403" = false ->
          (mentions "404" = true -> Handler.remedyHint text = Handler.notFoundHint)
          /\ (mentions "404" = false ->
              (mentions "429" = true -> Handler.remedyHint text = Handler.rateLimitHint)
              /\ (mentions "429" = false ->
                  (mentions "500" = true \/ mentions "502" = true \/ mentions "503" = true ->
                   Handler.remedyHint text = Handler.serverErrorHint)
                  /\ (mentions "500" = false -> mentions "502" = false ->
                      mentions "503" = false -> Handler.remedyHint text = ""))))).
Proof.
  intros mentions. subst mentions. cbv beta. unfold Handler.remedyHint. split.
  - intros [-> | ->]; [reflexivity | now rewrite orb_true_r].
  - intros -> ->. simpl. split; [now intros -> |]. intros ->. split; [now intros -> |].
    intros ->. split; [now intros -> |]. intros ->. split.
    + intros [-> | [-> | ->]]; [reflexivity | now rewrite orb_true_r
                               | now rewrite !orb_true_r].
    + now intros -> -> ->.
Qed.

(** C3, as amended.  In the handler of [src/test/targon-test.ts], a call
    with an API key that fails otherwise than by a recovered 503 throws
    one error, the description of the provider's error (of the retry's
    error when the retry failed), and keeps the fragments yielded
    before.  The description is the prefix, then the status and a space
    when the error has a (non-zero) status, then the error's own
    message, then the hint.  The hint is selected by the first of these
    tests that the error's message passes, the status playing no part:
    it mentions "401" or "authentication"; "403"; "404"; "429"; one of
    "500", "502", "503"; and it is empty when the message passes none.
    For a call rejected with status 401 whose message mentions "401" or
    "authentication", the error thrown contains "401" and ends with the
    authentication hint, and nothing has been yielded.  In the handler
    of [src/api/providers/targon.ts], a call that fails throws one error
    too, keeping the fragments yielded before, but its text is the
    prefix and the error's message alone: no status, no hint. *)
Theorem failure_throws_described_error options env systemPrompt messages maxTokens :
  let model := getModel targonModels targonDefaultModelId options in
  let run := Handler.createMessage targonModels targonDefaultModelId options env
               systemPrompt messages in
  let msgs := formattedMessages (Handler.makePromptConcise systemPrompt) messages in
  let request := Handler.firstRequest model maxTokens msgs messages in
  let first := client env 0%nat request in
  let retried := client env 1%nat (Handler.simpleRequest model msgs) in
  let looped := Handler.consume (Handler.processChunk (strPositive env))
                  initialProgress (delivered first) in
  let plain := PlainHandler.createMessage targonModels targonDefaultModelId options env
                 systemPrompt messages in
  let plainRequest := PlainHandler.request model maxTokens
                        (formattedMessages systemPrompt messages) in
  apiKeyConfigured options ->
  memberMaxTokens (info model) = Some maxTokens ->
  (forall error,
     failure first = Some error ->
     Handler.isServiceUnavailable error = false ->
     run = {| yielded := snd looped;
              submitted := [request];
              completion := Thrown (Handler.describeError error) |})
  /\ (forall error retryError,
        failure first = Some error ->
        Handler.isServiceUnavailable error = true ->
        failure retried = Some retryError ->
        completion run = Thrown (Handler.describeError retryError)
        /\ exists later, yielded run = snd looped ++ later)
  /\ (forall e,
        Handler.describeError e
        = "Targon API error: "
          +:+ match OpenAI.status e with
              | Some n => if n =? 0 then "" else JsString.ofNumber n +:+ " "
              | None => ""
              end
          +:+ OpenAI.message e +:+ Handler.remedyHint (OpenAI.message e))
  /\ (forall text,
        let mentions := fun code => JsString.includes text code in
        (mentions "401" = true \/ mentions "authentication" = true ->
         Handler.remedyHint text = Handler.authenticationHint)
        /\ (mentions "401" = false -> mentions "authentication" = false ->
            (mentions "403" = true -> Handler.remedyHint text = Handler.permissionHint)
            /\ (mentions "403" = false ->
                (mentions "404" = true -> Handler.remedyHint text = Handler.notFoundHint)
                /\ (mentions "404" = false ->
                    (mentions "429" = true ->
                     Handler.remedyHint text = Handler.rateLimitHint)
                    /\ (mentions "429" = false ->
                        (mentions "500" = true \/ mentions "502" = true
                         \/ mentions "503" = true ->
                         Handler.remedyHint text = Handler.serverErrorHint)
                        /\ (mentions "500" = false -> mentions "502" = false ->
                            mentions "503" = false ->
                            Handler.remedyHint text = ""))))))
  /\ (forall error,
        first = OpenAI.Rejected error ->
        OpenAI.status error = Some 401 ->
        JsString.includes (OpenAI.message error) "401" = true
        \/ JsString.includes (OpenAI.message error) "authentication" = true ->
        Handler.isServiceUnavailable error = false ->
        run = {| yielded := [];
                 submitted := [request];
                 completion :=
                   Thrown ("Targon API error: 401 " +:+ OpenAI.message error
                           +:+ Handler.authenticationHint) |})
  /\ (forall plainError,
        failure (client env 0%nat plainRequest) = Some plainError ->
        Forall hasChoices (delivered (client env 0%nat plainRequest)) ->
        plain = {| yielded := flat_map (fun chunk => contentFragment (plainContent chunk))
                                       (delivered (client env 0%nat plainRequest));
                   submitted := [plainRequest];
                   completion :=
                     Thrown ("Targon API error: " +:+ OpenAI.message plainError) |}).
Proof.
  intros model run msgs request first retried looped plain plainRequest Hkey Hmax.
  assert (Hrun : forall error,
             failure first = Some error ->
             run = Handler.recover env model msgs [request] (fst looped) (snd looped)
                     error).
  { intros error Hfail. subst run.
    rewrite (createMessage_course options env systemPrompt messages maxTokens Hkey Hmax).
    cbv zeta. fold model msgs request first looped. now rewrite Hfail. }
  split; [|split; [|split; [|split; [|split]]]].
  - intros error Hfail H. rewrite (Hrun error Hfail). now apply ErrorFacts.recover_other.
  - intros error retryError Hfail H Hretry. rewrite (Hrun error Hfail).
    rewrite (ErrorFacts.recover_unavailable _ _ _ _ _ _ _ H). cbv zeta. simpl length.
    fold retried. rewrite Hretry. simpl. split; [reflexivity | eauto].
  - intros e. unfold Handler.describeError, Handler.errorHeadline.
    destruct (OpenAI.status e) as [n|]; [destruct (n =? 0)|];
      now rewrite ?JsStringFacts.append_assoc.
  - intros text. apply remedyHint_table.
  - intros error Hrej Hstatus Htext H503.
    rewrite (Hrun error) by (now rewrite Hrej).
    rewrite (ErrorFacts.recover_other _ _ _ _ _ _ _ H503).
    rewrite (ErrorFacts.describeError_status error 401 Hstatus) by discriminate.
    rewrite (ErrorFacts.remedyHint_authentication _ Htext).
    subst looped. rewrite Hrej. reflexivity.
  - intros plainError Hplain Hall. apply optTruthy_configured in Hkey. subst plain.
    unfold PlainHandler.createMessage. rewrite Hkey. simpl negb. cbv iota zeta.
    fold model. rewrite Hmax, openAiMessages_id. fold plainRequest.
    destruct (client env 0%nat plainRequest) as [e|events ending]; simpl in Hplain, Hall |- *.
    + now inversion Hplain.
    + rewrite (plain_consume_clean events initialProgress Hall). now rewrite Hplain.
Qed.

(** The loop state summarised after a successful retry: the text of both
    attempts, the counters of the first. *)
Lemma retry_progress options env systemPrompt messages maxTokens error :
  let model := getModel targonModels targonDefaultModelId options in
  let run := Handler.createMessage targonModels targonDefaultModelId options env
               systemPrompt messages in
  let msgs := formattedMessages (Handler.makePromptConcise systemPrompt) messages in
  let request := Handler.firstRequest model maxTokens msgs messages in
  let first := client env 0%nat request in
  let retried := client env 1%nat (Handler.simpleRequest model msgs) in
  let countIn := match lastUsage (delivered first) with
                 | Some u => orNumber (OpenAI.prompt_tokens u) 0
                 | None => 0
                 end in
  let countOut := match lastUsage (delivered first) with
                  | Some u => orNumber (OpenAI.completion_tokens u) 0
                  | None => 0
                  end in
  apiKeyConfigured options ->
  memberMaxTokens (info model) = Some maxTokens ->
  failure first = Some error ->
  Handler.isServiceUnavailable error = true ->
  failure retried = None ->
  exists before p,
    yielded run = before ++ [summaryChunk env model p]
    /\ responseText p
       = joinText (map Handler.extractContent (delivered first))
         +:+ joinText (map Handler.retryContent (delivered retried))
    /\ seenIn p = countIn
    /\ seenOut p = countOut.
Proof.
  intros model run msgs request first retried countIn countOut
    Hkey Hmax Hfail H503 Hretry.
  subst run.
  rewrite (createMessage_course options env systemPrompt messages maxTokens Hkey Hmax).
  cbv zeta. fold model msgs request first. rewrite Hfail.
  rewrite (ErrorFacts.recover_unavailable _ _ _ _ _ _ _ H503). cbv zeta.
  simpl length. fold retried. rewrite Hretry. simpl yielded.
  eexists (_ ++ _), _. rewrite <- app_assoc. split; [reflexivity|].
  simpl.
  destruct (HandlerFacts.consume_first_usage (strPositive env) (delivered first)
              initialProgress) as [Hin Hout].
  cbv zeta in Hin, Hout. rewrite Hin, Hout, HandlerFacts.consume_first_text.
  repeat split; reflexivity.
Qed.

(** C9.  On the retry path nothing is reset.  When the first attempt
    fails with a 503 and the retry's stream ends normally, the summary
    (the last fragment) decodes to a content that is the text extracted
    during the first attempt followed by the retry's text, and to token
    counts that are those of the last usage object of the first attempt,
    zero if it had none; the retry's own usage objects play no part. *)
Theorem retry_summary_keeps_first_attempt options env systemPrompt messages maxTokens error :
  let model := getModel targonModels targonDefaultModelId options in
  let run := Handler.createMessage targonModels targonDefaultModelId options env
               systemPrompt messages in
  let msgs := formattedMessages (Handler.makePromptConcise systemPrompt) messages in
  let request := Handler.firstRequest model maxTokens msgs messages in
  let first := client env 0%nat request in
  let retried := client env 1%nat (Handler.simpleRequest model msgs) in
  let countIn := match lastUsage (delivered first) with
                 | Some u => orNumber (OpenAI.prompt_tokens u) 0
                 | None => 0
                 end in
  let countOut := match lastUsage (delivered first) with
                  | Some u => orNumber (OpenAI.completion_tokens u) 0
                  | None => 0
                  end in
  apiKeyConfigured options ->
  memberMaxTokens (info model) = Some maxTokens ->
  failure first = Some error ->
  Handler.isServiceUnavailable error = true ->
  failure retried = None ->
  exists before summary,
    yielded run = before ++ [(ResponseSummary, summary)]
    /\ summaryField summary "content"
       = Some (Json.JStr (joinText (map Handler.extractContent (delivered first))
                         +:+ joinText (map Handler.retryContent (delivered retried))))
    /\ summaryField summary "tokensIn" = Some (Json.JNum countIn)
    /\ summaryField summary "tokensOut" = Some (Json.JNum countOut)
    /\ summaryField summary "tokensTotal" = Some (Json.JNum (countIn + countOut)).
Proof.
  intros model run msgs request first retried countIn countOut
    Hkey Hmax Hfail H503 Hretry.
  destruct (retry_progress options env systemPrompt messages maxTokens error
              Hkey Hmax Hfail H503 Hretry) as (before & p & Hy & Htext & Hin & Hout).
  exists before, (snd (summaryChunk env model p)).
  rewrite !RoundTripFacts.summaryField_summaryChunk.
  cbv zeta in Htext, Hin, Hout. fold model msgs request first retried in Htext, Hin, Hout.
  simpl Json.getOwn. rewrite Htext, Hin, Hout.
  repeat split; try reflexivity. exact Hy.
Qed.

(** The loop state summarised by a call that returns holds the
    provider's text deltas and nothing else; what the tool calls of the
    first stream render is among the fragments before the summary. *)
Lemma returned_text options env systemPrompt messages :
  let model := getModel targonModels targonDefaultModelId options in
  let run := Handler.createMessage targonModels targonDefaultModelId options env
               systemPrompt messages in
  completion run = Returned ->
  exists maxTokens before p,
    memberMaxTokens (info model) = Some maxTokens
    /\ let msgs := formattedMessages (Handler.makePromptConcise systemPrompt) messages in
       let first := client env 0%nat (Handler.firstRequest model maxTokens msgs messages) in
       let retried := client env 1%nat (Handler.simpleRequest model msgs) in
       yielded run = before ++ [summaryChunk env model p]
       /\ responseText p
          = joinText (map Handler.extractContent (delivered first))
            +:+ match failure first with
                | None => ""
                | Some _ => joinText (map Handler.retryContent (delivered retried))
                end
       /\ forall chunk y,
            In chunk (delivered first) ->
            In y (Handler.renderToolCalls (strPositive env) (Handler.toolCallsOf chunk)) ->
            In y before.
Proof.
  intros model run Hret.
  destruct (createMessage_returns options env systemPrompt messages Hret)
    as [maxTokens [Hmax Hcases]]. cbv zeta in Hcases. fold run model in Hcases.
  assert (Htools : forall events p chunk y,
             In chunk events ->
             In y (Handler.renderToolCalls (strPositive env) (Handler.toolCallsOf chunk)) ->
             In y (snd (Handler.consume (Handler.processChunk (strPositive env)) p events))).
  { intros events p chunk y Hc Hy. rewrite HandlerFacts.consume_first_yields.
    apply in_flat_map. exists chunk. split; [assumption|].
    apply in_or_app. now right. }
  exists maxTokens.
  destruct Hcases as [[Hfail Hrun] | [error [Hfail [H503 [Hretry Hrun]]]]].
  + eexists _, _. split; [exact Hmax|]. cbv zeta. rewrite Hrun, Hfail. simpl yielded.
    split; [reflexivity|]. split.
    * rewrite HandlerFacts.consume_first_text. simpl.
      now rewrite JsStringFacts.append_empty_r.
    * intros chunk y. apply Htools.
  + eexists (_ ++ _), _. split; [exact Hmax|]. cbv zeta. rewrite Hrun, Hfail.
    simpl yielded. rewrite <- app_assoc. split; [reflexivity|]. split.
    * simpl. now rewrite HandlerFacts.consume_first_text.
    * intros chunk y Hc Hy. apply in_or_app. left. now apply (Htools _ _ chunk).
Qed.

(** C10.  The text rendered for a tool call is yielded but never added
    to the response text: in a call that returns, the summary decodes to
    a content that is the concatenation of the provider's text deltas (of
    the first stream, then of the retry's if there was one), while every
    fragment rendered from a tool call of the first stream is among the
    fragments yielded before the summary.  For one event carrying the
    text "Hi" and a tool call asking "Pick one", the fragments are "Hi",
    the tagged block and the summary, whose content decodes to "Hi". *)
Theorem summary_content_excludes_tool_calls options env systemPrompt messages :
  let model := getModel targonModels targonDefaultModelId options in
  let run := Handler.createMessage targonModels targonDefaultModelId options env
               systemPrompt messages in
  (completion run = Returned ->
   exists maxTokens before summary,
     memberMaxTokens (info model) = Some maxTokens
     /\ let msgs := formattedMessages (Handler.makePromptConcise systemPrompt) messages in
        let first := client env 0%nat (Handler.firstRequest model maxTokens msgs messages) in
        let retried := client env 1%nat (Handler.simpleRequest model msgs) in
        yielded run = before ++ [(ResponseSummary, summary)]
        /\ summaryField summary "content"
           = Some (Json.JStr
                     (joinText (map Handler.extractContent (delivered first))
                      +:+ match failure first with
                          | None => ""
                          | Some _ =>
                              joinText (map Handler.retryContent (delivered retried))
                          end))
        /\ forall chunk y,
             In chunk (delivered first) ->
             In y (Handler.renderToolCalls (strPositive env) (Handler.toolCallsOf chunk)) ->
             In y before)
  /\ (let stream :=
        OpenAI.Streaming
          [ Examples.toolCallChunk (Some "Hi") (Json.dquotes "{'question': 'Pick one'}") ]
          None in
      let example := Handler.createMessage Examples.models Examples.defaultId
                       Examples.options (Examples.env (fun _ _ => stream)) "Answer."
                       Examples.userHi in
      let summary :=
        textChunk
          (Json.dquotes
             ("{'id':'3f2b8c1e-7a54-4d0b-9c6e-2a1f0e5d4c3b',"
              +:+ "'model':'deepseek-ai/DeepSeek-V3',"
              +:+ "'created':1700000000,'content':'Hi',"
              +:+ "'tokensIn':0,'tokensOut':0,'tokensTotal':0,'timeTotal':377}")) in
      yielded example
      = [ (ContentDelta, textChunk "Hi");
          (ToolCallText,
           textChunk ("<ask_followup_question>" +:+ nl +:+ "<question>Pick one</question>"
                      +:+ nl +:+ "</ask_followup_question>"));
          (ResponseSummary, summary) ]
      /\ summaryField summary "content" = Some (Json.JStr "Hi")).
Proof.
  intros model run. split.
  - intros Hret.
    destruct (returned_text options env systemPrompt messages Hret)
      as (maxTokens & before & p & Hmax & Hy & Htext & Htools).
    exists maxTokens, before, (snd (summaryChunk env model p)).
    split; [exact Hmax|]. cbv zeta in Hy, Htext, Htools |- *.
    rewrite RoundTripFacts.summaryField_summaryChunk. simpl Json.getOwn.
    fold model in Htext. rewrite Htext.
    split; [exact Hy|]. split; [reflexivity | exact Htools].
  - cbv zeta. split; vm_compute; reflexivity.
Qed.


End CreateMessage.

Lemma api_key_required_witness :
  ~ apiKeyConfigured {| targonApiKey := Some ""; apiModelId := None |}
  /\ apiKeyConfigured Examples.options
  /\ Handler.createMessage Examples.models Examples.defaultId
       {| targonApiKey := Some ""; apiModelId := None |}
       (Examples.env (fun _ _ => OpenAI.Streaming [] None)) "Answer." Examples.userHi
     = {| yielded := []; submitted := []; completion := Thrown "Targon API key not found" |}
  /\ completion (Handler.createMessage Examples.models Examples.defaultId Examples.options
                   (Examples.env (fun _ _ => OpenAI.Streaming [] None)) "Answer."
                   Examples.userHi)
     <> Thrown "Targon API key not found".
Proof.
  assert (H0 : ~ apiKeyConfigured {| targonApiKey := Some ""; apiModelId := None |}).
  { intros [k [H Hne]]. inversion H. now subst. }
  assert (H1 : apiKeyConfigured Examples.options).
  { eexists. split; [reflexivity | discriminate]. }
  split; [exact H0|]. split; [exact H1|]. split.
  - exact (proj1 (proj1 (api_key_required Examples.models Examples.defaultId
                           {| targonApiKey := Some ""; apiModelId := None |}
                           (Examples.env (fun _ _ => OpenAI.Streaming [] None))
                           "Answer." Examples.userHi) H0)).
  - exact (proj1 (proj2 (api_key_required Examples.models Examples.defaultId
                           Examples.options
                           (Examples.env (fun _ _ => OpenAI.Streaming [] None))
                           "Answer." Examples.userHi) H1)).
Defined.

Lemma request_envelope_witness :
  apiKeyConfigured Examples.options
  /\ is_Some (Examples.models !! Examples.defaultId)
  /\ exists request later,
      submitted (Handler.createMessage Examples.models Examples.defaultId Examples.options
                   (Examples.env (fun _ _ => OpenAI.Streaming [] None)) "Answer."
                   Examples.userHi) = request :: later
      /\ OpenAI.messages request
         = [ {| OpenAI.role := "system";
                OpenAI.content := Handler.makePromptConcise "Answer." |};
             {| OpenAI.role := "user"; OpenAI.content := "Hi" |} ]
      /\ OpenAI.stream request = true
      /\ OpenAI.temperature request = 7 # 10
      /\ OpenAI.max_tokens request = 8192.
Proof.
  assert (H1 : apiKeyConfigured Examples.options).
  { eexists. split; [reflexivity | discriminate]. }
  assert (H2 : is_Some (Examples.models !! Examples.defaultId)).
  { eexists. reflexivity. }
  split; [exact H1|]. split; [exact H2|].
  destruct (request_envelope Examples.models Examples.defaultId Examples.options
              (Examples.env (fun _ _ => OpenAI.Streaming [] None)) "Answer."
              Examples.userHi H1 H2)
    as (request & later & request' & Hs & _ & _ & _ & Hm & _ & Hst & _ & Ht & _ & Hmax & _).
  exists request, later. split; [exact Hs|]. split; [exact Hm|]. split; [exact Hst|].
  split; [exact Ht | exact Hmax].
Defined.

(** C5 as first stated fails: a maximum of 0 listed for the resolved
    model is not what the request carries; both handlers send 4096. *)
Lemma zero_maximum_is_replaced :
  let models : gmap string ModelInfo :=
    {[ Examples.defaultId := {| maxTokens := Some 0; details := [] |} ]} in
  let env := Examples.env (fun _ _ => OpenAI.Streaming [] None) in
  models !! id (getModel models Examples.defaultId Examples.options)
  = Some {| maxTokens := Some 0; details := [] |}
  /\ map OpenAI.max_tokens
         (submitted (Handler.createMessage models Examples.defaultId Examples.options env
                       "Answer." Examples.userHi)) = [ 4096 ]
  /\ map OpenAI.max_tokens
         (submitted (PlainHandler.createMessage models Examples.defaultId Examples.options
                       env "Answer." Examples.userHi)) = [ 4096 ].
Proof. repeat split; reflexivity. Qed.

Lemma summary_once_and_last_witness :
  let env := Examples.env (fun _ _ => OpenAI.Streaming [ Examples.contentChunk "ok" ] None) in
  let run := Handler.createMessage Examples.models Examples.defaultId Examples.options env
               "Answer." Examples.userHi in
  completion run = Returned
  /\ usageFree env
  /\ exists before summary countIn countOut,
      yielded run = before ++ [(ResponseSummary, summary)]
      /\ summaries run = 1%nat
      /\ summaryField summary "tokensTotal" = Some (Json.JNum (countIn + countOut))
      /\ countIn = 0 /\ countOut = 0.
Proof.
  intros env run.
  assert (Hfree : usageFree env).
  { intros n request. repeat constructor. }
  split; [reflexivity|]. split; [exact Hfree|].
  destruct (proj1 (summary_once_and_last Examples.models Examples.defaultId Examples.options
                     env "Answer." Examples.userHi) eq_refl)
    as (before & summary & countIn & countOut & Hy & Hs & _ & _ & Ht & Hzero).
  exists before, summary, countIn, countOut.
  split; [exact Hy|]. split; [exact Hs|]. split; [exact Ht|]. exact (Hzero Hfree).
Defined.

Lemma retry_once_on_503_witness :
  let unavailable := Examples.error (Some 503) "Service Unavailable" in
  let env := Examples.env
               (Examples.scripted (OpenAI.Rejected unavailable)
                  (OpenAI.Streaming [ Examples.contentChunk "ok" ] None)) in
  let run := Handler.createMessage Examples.models Examples.defaultId Examples.options env
               "Answer." Examples.userHi in
  OpenAI.status unavailable = Some 503
  /\ length (submitted run) = 2%nat
  /\ completion run = Returned
  /\ map fst (yielded run) = [ ContentDelta; ResponseSummary ]
  /\ map OpenAI.temperature (submitted run) = [ 7 # 10; 0%Q ].
Proof.
  intros unavailable env run.
  assert (Hkey : apiKeyConfigured Examples.options).
  { eexists. split; [reflexivity | discriminate]. }
  destruct (retry_once_on_503 Examples.models Examples.defaultId Examples.options env
              "Answer." Examples.userHi (Some 8192) unavailable Hkey eq_refl eq_refl
              (or_introl eq_refl)) as [Hsub Hretry].
  destruct Hretry as [Hret [p [Hy _]]].
  split; [reflexivity|]. split; [exact (f_equal (@length _) Hsub)|].
  split; [exact Hret|].
  split; [exact (f_equal (map fst) Hy) | exact (f_equal (map OpenAI.temperature) Hsub)].
Defined.

(** C3 as first stated fails: an error with status 401 whose message
    does not mention "401" (nor "authentication") is thrown on without
    the authentication hint, the hint being chosen from the message
    text. *)
Lemma status_401_without_hint :
  let unauthorized := Examples.error (Some 401) "Unauthorized" in
  let run := Handler.createMessage Examples.models Examples.defaultId Examples.options
               (Examples.env (fun _ _ => OpenAI.Rejected unauthorized))
               "Answer." Examples.userHi in
  OpenAI.status unauthorized = Some 401
  /\ completion run = Thrown "Targon API error: 401 Unauthorized"
  /\ JsString.includes "Targon API error: 401 Unauthorized" Handler.authenticationHint
     = false.
Proof. repeat split; reflexivity. Qed.

Lemma failure_throws_described_error_witness :
  let unauthorized := Examples.error (Some 401) "401 Incorrect API key provided" in
  let env := Examples.env (fun _ _ => OpenAI.Rejected unauthorized) in
  let run := Handler.createMessage Examples.models Examples.defaultId Examples.options env
               "Answer." Examples.userHi in
  let plain := PlainHandler.createMessage Examples.models Examples.defaultId
                 Examples.options env "Answer." Examples.userHi in
  yielded run = []
  /\ completion run
     = Thrown ("Targon API error: 401 401 Incorrect API key provided"
               +:+ Handler.authenticationHint)
  /\ yielded plain = []
  /\ completion plain = Thrown "Targon API error: 401 Incorrect API key provided".
Proof.
  intros unauthorized env run plain.
  assert (Hkey : apiKeyConfigured Examples.options).
  { eexists. split; [reflexivity | discriminate]. }
  destruct (failure_throws_described_error Examples.models Examples.defaultId
              Examples.options env
              "Answer." Examples.userHi (Some 8192) Hkey eq_refl)
    as (_ & _ & _ & _ & H401 & Hplain).
  specialize (H401 unauthorized eq_refl eq_refl (or_introl eq_refl) eq_refl).
  assert (Hall : Forall hasChoices (@nil OpenAI.Chunk)) by constructor.
  specialize (Hplain unauthorized eq_refl Hall).
  split; [exact (f_equal yielded H401)|]. split; [exact (f_equal completion H401)|].
  split; [exact (f_equal yielded Hplain) | exact (f_equal completion Hplain)].
Defined.

Lemma retry_summary_keeps_first_attempt_witness :
  let unavailable := Examples.error (Some 503) "Service Unavailable" in
  let env := Examples.env
               (Examples.scripted
                  (OpenAI.Streaming [ Examples.contentChunk "par"; Examples.usageChunk 5 2 ]
                     (Some unavailable))
                  (OpenAI.Streaming [ Examples.contentChunk "tial"; Examples.usageChunk 9 9 ]
                     None)) in
  let run := Handler.createMessage Examples.models Examples.defaultId Examples.options env
               "Answer." Examples.userHi in
  exists before summary,
    yielded run = before ++ [(ResponseSummary, summary)]
    /\ summaryField summary "content" = Some (Json.JStr "partial")
    /\ summaryField summary "tokensIn" = Some (Json.JNum 5)
    /\ summaryField summary "tokensOut" = Some (Json.JNum 2)
    /\ summaryField summary "tokensTotal" = Some (Json.JNum 7).
Proof.
  intros unavailable env run.
  assert (Hkey : apiKeyConfigured Examples.options).
  { eexists. split; [reflexivity | discriminate]. }
  destruct (retry_summary_keeps_first_attempt Examples.models Examples.defaultId
              Examples.options env "Answer." Examples.userHi (Some 8192) unavailable
              Hkey eq_refl eq_refl eq_refl eq_refl)
    as (before & summary & Hy & Hc & Hin & Hout & Htotal).
  exists before, summary.
  split; [exact Hy|]. split; [exact Hc|]. split; [exact Hin|].
  split; [exact Hout | exact Htotal].
Defined.

Lemma summary_content_excludes_tool_calls_witness :
  let env := Examples.env
               (fun _ _ =>
                  OpenAI.Streaming
                    [ Examples.toolCallChunk (Some "Hi")
                        (Json.dquotes "{'question': 'Pick one'}") ]
                    None) in
  let run := Handler.createMessage Examples.models Examples.defaultId Examples.options env
               "Answer." Examples.userHi in
  completion run = Returned
  /\ exists before summary,
      yielded run = before ++ [(ResponseSummary, summary)]
      /\ summaryField summary "content" = Some (Json.JStr "Hi").
Proof.
  intros env run. split; [reflexivity|].
  destruct (proj1 (summary_content_excludes_tool_calls Examples.models Examples.defaultId
                     Examples.options env "Answer." Examples.userHi) eq_refl)
    as (maxTokens & before & summary & Hmax & Hy & Hc & _).
  exists before, summary. split; [exact Hy|].
  inversion Hmax; subst maxTokens. exact Hc.
Defined.



(* ================================================================== *)
(** * Further properties of the code *)
(* ================================================================== *)

(** ** [createMessage]: every path *)

Section CreateMessagePaths.

Variable targonModels : gmap string ModelInfo.
Variable targonDefaultModelId : string.

(** With an API key but no [info] to read [maxTokens] from, the
    [TypeError] is caught and described; nothing was submitted. *)
Lemma createMessage_no_maxTokens options env systemPrompt messages :
  apiKeyConfigured options ->
  memberMaxTokens (info (getModel targonModels targonDefaultModelId options)) = None ->
  Handler.createMessage targonModels targonDefaultModelId options env systemPrompt messages
  = {| yielded := [];
       submitted := [];
       completion := Thrown (Handler.describeError maxTokensTypeError) |}.
Proof.
  intros Hkey Hmax. apply optTruthy_configured in Hkey.
  unfold Handler.createMessage, Handler.converse. now rewrite Hkey, Hmax.
Qed.

(** The runs [createMessage] can have, by the course of the client's
    calls. *)
Lemma createMessage_paths options env systemPrompt messages :
  let model := getModel targonModels targonDefaultModelId options in
  let run := Handler.createMessage targonModels targonDefaultModelId options env
               systemPrompt messages in
  let msgs := formattedMessages (Handler.makePromptConcise systemPrompt) messages in
  let simple := Handler.simpleRequest model msgs in
  run = {| yielded := []; submitted := []; completion := Thrown "Targon API key not found" |}
  \/ run = {| yielded := []; submitted := [];
              completion := Thrown (Handler.describeError maxTokensTypeError) |}
  \/ exists maxTokens,
       memberMaxTokens (info model) = Some maxTokens
       /\ let request := Handler.firstRequest model maxTokens msgs messages in
          let first := client env 0%nat request in
          let retried := client env 1%nat simple in
          let looped := Handler.consume (Handler.processChunk (strPositive env))
                          initialProgress (delivered first) in
          let retryFragments :=
            flat_map (fun chunk => contentFragment (Handler.retryContent chunk))
                     (delivered retried) in
          let retryProgress :=
            {| responseText :=
                 responseText (fst looped)
                 +:+ joinText (map Handler.retryContent (delivered retried));
               seenIn := seenIn (fst looped);
               seenOut := seenOut (fst looped) |} in
          (failure first = None
           /\ run = {| yielded := snd looped ++ [summaryChunk env model (fst looped)];
                       submitted := [request];
                       completion := Returned |})
          \/ (exists error,
                failure first = Some error
                /\ Handler.isServiceUnavailable error = false
                /\ run = {| yielded := snd looped;
                            submitted := [request];
                            completion := Thrown (Handler.describeError error) |})
          \/ (exists error,
                failure first = Some error
                /\ Handler.isServiceUnavailable error = true
                /\ failure retried = None
                /\ run = {| yielded :=
                              snd looped ++ retryFragments
                              ++ [summaryChunk env model retryProgress];
                            submitted := [request; simple];
                            completion := Returned |})
          \/ (exists error retryError,
                failure first = Some error
                /\ Handler.isServiceUnavailable error = true
                /\ failure retried = Some retryError
                /\ run = {| yielded := snd looped ++ retryFragments;
                            submitted := [request; simple];
                            completion := Thrown (Handler.describeError retryError) |}).
Proof.
  intros model run msgs simple.
  destruct (Handler.optTruthy (targonApiKey options)) eqn:Hkey.
  2:{ left. apply optTruthy_unconfigured in Hkey.
      now apply createMessage_unconfigured. }
  apply optTruthy_configured in Hkey. right.
  destruct (memberMaxTokens (info model)) as [maxTokens|] eqn:Hmax.
  2:{ left. now apply createMessage_no_maxTokens. }
  right. exists maxTokens. split; [reflexivity|]. cbv zeta. subst run.
  rewrite (createMessage_course _ _ options env systemPrompt messages maxTokens Hkey Hmax).
  cbv zeta. fold model msgs.
  destruct (failure (client env 0%nat _)) as [error|] eqn:Hfail.
  - right. destruct (Handler.isServiceUnavailable error) eqn:E.
    + right. rewrite (ErrorFacts.recover_unavailable _ _ _ _ _ _ _ E). cbv zeta.
      simpl length. fold simple.
      destruct (failure (client env 1%nat simple)) as [retryError|] eqn:Hretry.
      * right. exists error, retryError. repeat split; try reflexivity; assumption.
      * left. exists error. repeat split; try reflexivity; assumption.
    + left. exists error. rewrite (ErrorFacts.recover_other _ _ _ _ _ _ _ E).
      repeat split; try reflexivity; assumption.
  - left. split; reflexivity.
Qed.


(** What holds of every content delta, of every rendered tool call and of
    every summary holds of every fragment of every run. *)
Lemma run_fragments_forall (P : Site * ApiStreamChunk -> Prop) :
  (forall content, JsString.truthy content = true -> P (ContentDelta, textChunk content)) ->
  (forall sp call y, In y (Handler.renderToolCall sp call) -> P y) ->
  (forall env model p, P (summaryChunk env model p)) ->
  forall options env systemPrompt messages,
    Forall P (yielded (Handler.createMessage targonModels targonDefaultModelId options env
                         systemPrompt messages)).
Proof.
  intros Hcontent Hcall Hsummary options env systemPrompt messages.
  assert (Hfrag : forall content, Forall P (contentFragment content)).
  { intros content. unfold contentFragment.
    destruct (JsString.truthy content) eqn:E; repeat constructor. now apply Hcontent. }
  assert (Hcalls : forall sp calls, Forall P (Handler.renderToolCalls sp calls)).
  { intros sp [calls|]; [|constructor]. simpl. apply List.Forall_forall. intros y Hy.
    apply in_flat_map in Hy as [call [_ Hy]]. now apply (Hcall sp call). }
  assert (Hfirst : forall sp events p,
             Forall P (snd (Handler.consume (Handler.processChunk sp) p events))).
  { intros sp events p. rewrite HandlerFacts.consume_first_yields.
    induction events as [|chunk events IH]; simpl; [constructor|].
    apply Forall_app. split; [|exact IH]. apply Forall_app. now split. }
  assert (Hretry : forall events,
             Forall P (flat_map (fun chunk => contentFragment (Handler.retryContent chunk))
                                events)).
  { intros events. induction events as [|chunk events IH]; simpl; [constructor|].
    apply Forall_app. now split. }
  destruct (createMessage_paths options env systemPrompt messages)
    as [-> | [-> | (maxTokens & _ & Hcases)]]; [constructor | constructor |].
  cbv zeta in Hcases.
  destruct Hcases as [[_ ->] | [(error & _ & _ & ->) | [(error & _ & _ & _ & ->)
                     | (error & retryError & _ & _ & _ & ->)]]]; simpl yielded.
  - apply Forall_app. split; [apply Hfirst | repeat constructor; apply Hsummary].
  - apply Hfirst.
  - apply Forall_app. split; [apply Hfirst|]. apply Forall_app.
    split; [apply Hretry | repeat constructor; apply Hsummary].
  - apply Forall_app. split; [apply Hfirst | apply Hretry].
Qed.

(** X1 (requests).  A call submits at most two requests.  With none, it
    has thrown.  A second request exists only when the first call failed
    with a 503; it repeats the model and the messages of the first, with
    no tools, temperature 0 and max_tokens 1024, and is never followed by
    a third, whatever its outcome. *)
Theorem at_most_two_requests options env systemPrompt messages :
  let run := Handler.createMessage targonModels targonDefaultModelId options env
               systemPrompt messages in
  match submitted run with
  | [] => exists message, completion run = Thrown message
  | [request] =>
      match failure (client env 0%nat request) with
      | Some error =>
          Handler.isServiceUnavailable error = false
          /\ completion run = Thrown (Handler.describeError error)
      | None => completion run = Returned
      end
  | [request; retry] =>
      retry = {| OpenAI.model := OpenAI.model request;
                 OpenAI.messages := OpenAI.messages request;
                 OpenAI.stream := true;
                 OpenAI.temperature := 0;
                 OpenAI.max_tokens := 1024;
                 OpenAI.tools := None |}
      /\ exists error,
          failure (client env 0%nat request) = Some error
          /\ (OpenAI.status error = Some 503
              \/ JsString.includes (OpenAI.message error) "503" = true)
  | _ => False
  end.
Proof.
  intros run.
  destruct (createMessage_paths options env systemPrompt messages)
    as [H | [H | (maxTokens & _ & Hcases)]]; fold run in H || idtac.
  - rewrite H. simpl. eauto.
  - rewrite H. simpl. eauto.
  - cbv zeta in Hcases. fold run in Hcases.
    destruct Hcases as [[Hfail H] | [(error & Hfail & E & H)
                       | [(error & Hfail & E & Hretry & H)
                       | (error & retryError & Hfail & E & Hretry & H)]]];
      rewrite H; simpl submitted; cbv iota.
    + rewrite Hfail. reflexivity.
    + rewrite Hfail. split; [exact E | reflexivity].
    + split; [reflexivity|]. exists error. split; [exact Hfail|].
      now apply ErrorFacts.isServiceUnavailable_iff.
    + split; [reflexivity|]. exists error. split; [exact Hfail|].
      now apply ErrorFacts.isServiceUnavailable_iff.
Qed.

(** X2 (fragments).  Whatever the outcome, every fragment yielded has
    type "text", and every fragment other than the summary has a text
    that is not empty: an event without text yields no content
    fragment. *)
Theorem fragments_are_nonempty_text options env systemPrompt messages :
  Forall (fun y => type (snd y) = "text"
                   /\ (isSummary y = true \/ text (snd y) <> ""))
         (yielded (Handler.createMessage targonModels targonDefaultModelId options env
                     systemPrompt messages)).
Proof.
  apply run_fragments_forall.
  - intros content Hc. split; [reflexivity|]. right. simpl.
    intros ->. discriminate.
  - intros sp call y Hy. unfold Handler.renderToolCall in Hy.
    destruct (OpenAI.function call) as [f|]; [|destruct Hy].
    destruct (OpenAI.fname f) as [name|]; [|destruct Hy].
    destruct (String.eqb name "ask_followup_question"); [|destruct Hy].
    destruct (Handler.renderArguments sp (OpenAI.arguments f)) as [t| |] eqn:E;
      [|destruct Hy|destruct Hy].
    destruct Hy as [<-|[]]. split; [reflexivity|]. right. simpl.
    unfold Handler.renderArguments in E.
    repeat match type of E with
           | match ?x with _ => _ end = _ => destruct x; try discriminate E
           | (if ?x then _ else _) = _ => destruct x; try discriminate E
           end.
    inversion E. discriminate.
  - intros env' model p. split; [reflexivity | now left].
Qed.


(** The fragment of a tool call, when there is one, is the tagged block
    around the question's text, with an options block or without. *)
Lemma renderToolCall_block (sp : string -> bool) (call : OpenAI.ToolCall)
  (y : Site * ApiStreamChunk) :
  In y (Handler.renderToolCall sp call) ->
  exists questionText optionsText,
    y = (ToolCallText, textChunk (followupBlock questionText optionsText))
    /\ (optionsText = ""
        \/ exists options,
             optionsText = nl +:+ "<options>" +:+ nl +:+ Json.stringify options
                           +:+ nl +:+ "</options>").
Proof.
  unfold Handler.renderToolCall. intros Hy.
  destruct (OpenAI.function call) as [f|]; [|destruct Hy].
  destruct (OpenAI.fname f) as [name|]; [|destruct Hy].
  destruct (String.eqb name "ask_followup_question"); [|destruct Hy].
  destruct (Handler.renderArguments sp (OpenAI.arguments f)) as [t| |] eqn:E;
    [|destruct Hy|destruct Hy].
  destruct Hy as [<-|[]]. unfold Handler.renderArguments in E.
  destruct (if Handler.optTruthy (OpenAI.arguments f) then _ else _) as [args|];
    [|discriminate].
  destruct (Handler.readNamed args "question") as [question|]; [|discriminate].
  destruct (negb (Handler.valueTruthy question)); [discriminate|].
  destruct (Handler.readNamed args "options") as [options|]; [|discriminate].
  destruct options as [v|]; simpl Handler.valueTruthy in E.
  - destruct (if Json.truthy v then _ else _) as [withOptions|]; [|discriminate].
    destruct (mbind Json.toStringJs question) as [questionText|]; [|discriminate].
    inversion E. eexists questionText, _. split; [reflexivity|].
    destruct withOptions; [right; now exists v | now left].
  - destruct (mbind Json.toStringJs question) as [questionText|]; [|discriminate].
    inversion E. eexists questionText, _. split; [reflexivity|]. now left.
Qed.

(** X3 (tool-call blocks).  Every fragment that renders a tool call is
    the opening tag, the question element, possibly an options element
    holding serialised JSON, and the closing tag. *)
Theorem tool_call_fragments_are_blocks options env systemPrompt messages :
  Forall (fun y =>
            match fst y with
            | ToolCallText =>
                exists questionText optionsText,
                  text (snd y) = followupBlock questionText optionsText
                  /\ (optionsText = ""
                      \/ exists options,
                           optionsText = nl +:+ "<options>" +:+ nl
                                         +:+ Json.stringify options
                                         +:+ nl +:+ "</options>")
            | ContentDelta | ResponseSummary => True
            end)
         (yielded (Handler.createMessage targonModels targonDefaultModelId options env
                     systemPrompt messages)).
Proof.
  apply run_fragments_forall.
  - intros content _. exact I.
  - intros sp call y Hy.
    destruct (renderToolCall_block sp call y Hy) as (q & o & -> & Ho).
    simpl. now exists q, o.
  - intros env' model p. exact I.
Qed.

(** Texts of content fragments. *)
Lemma joinText_app (a b : list string) : joinText (a ++ b) = joinText a +:+ joinText b.
Proof.
  induction a as [|x a IH]; simpl; [reflexivity|].
  now rewrite IH, JsStringFacts.append_assoc.
Qed.

Lemma contentTexts_app (a b : list (Site * ApiStreamChunk)) :
  contentTexts (a ++ b) = contentTexts a ++ contentTexts b.
Proof. unfold contentTexts. now rewrite List.filter_app, map_app. Qed.

Lemma contentTexts_contentFragment (content : string) :
  joinText (contentTexts (contentFragment content)) = content.
Proof.
  unfold contentFragment. destruct content as [|c content]; simpl; [reflexivity|].
  now rewrite JsStringFacts.append_empty_r.
Qed.

Lemma contentTexts_renderToolCalls (sp : string -> bool) calls :
  contentTexts (Handler.renderToolCalls sp calls) = [].
Proof.
  destruct calls as [calls|]; [|reflexivity]. simpl.
  induction calls as [|call calls IH]; simpl; [reflexivity|].
  rewrite contentTexts_app, IH, app_nil_r. unfold Handler.renderToolCall.
  destruct (OpenAI.function call) as [f|]; [|reflexivity].
  destruct (OpenAI.fname f) as [name|]; [|reflexivity].
  destruct (String.eqb name "ask_followup_question"); [|reflexivity].
  now destruct (Handler.renderArguments sp (OpenAI.arguments f)).
Qed.

Lemma contentTexts_first_loop (sp : string -> bool) (events : list OpenAI.Chunk)
  (p : Progress) :
  joinText (contentTexts (snd (Handler.consume (Handler.processChunk sp) p events)))
  = joinText (map Handler.extractContent events).
Proof.
  rewrite HandlerFacts.consume_first_yields.
  induction events as [|chunk events IH]; simpl; [reflexivity|].
  rewrite !contentTexts_app, !joinText_app, IH, contentTexts_contentFragment,
    contentTexts_renderToolCalls. simpl joinText.
  now rewrite JsStringFacts.append_empty_r.
Qed.

Lemma contentTexts_retry_loop (events : list OpenAI.Chunk) :
  joinText (contentTexts (flat_map (fun chunk => contentFragment (Handler.retryContent chunk))
                                   events))
  = joinText (map Handler.retryContent events).
Proof.
  induction events as [|chunk events IH]; simpl; [reflexivity|].
  now rewrite contentTexts_app, joinText_app, IH, contentTexts_contentFragment.
Qed.

(** X4 (content).  In a call that returns, the content of the summary is
    the concatenation, in order, of the texts of the content fragments
    that were yielded, on the direct path and on the retry path alike:
    what was streamed as content is what the summary reports, no more
    and no less. *)
Theorem summary_content_is_streamed_content options env systemPrompt messages :
  let run := Handler.createMessage targonModels targonDefaultModelId options env
               systemPrompt messages in
  completion run = Returned ->
  exists before summary,
    yielded run = before ++ [(ResponseSummary, summary)]
    /\ summaryField summary "content"
       = Some (Json.JStr (joinText (contentTexts (yielded run)))).
Proof.
  intros run Hret.
  destruct (createMessage_paths options env systemPrompt messages)
    as [H | [H | (maxTokens & _ & Hcases)]]; fold run in H || idtac;
    [rewrite H in Hret; discriminate | rewrite H in Hret; discriminate |].
  cbv zeta in Hcases. fold run in Hcases.
  destruct Hcases as [[Hfail H] | [(error & Hfail & E & H)
                     | [(error & Hfail & E & Hretry & H)
                     | (error & retryError & Hfail & E & Hretry & H)]]];
    rewrite H in Hret |- *; simpl in Hret; try discriminate Hret; simpl yielded.
  - eexists _, (snd (summaryChunk _ _ _)). split; [reflexivity|].
    rewrite RoundTripFacts.summaryField_summaryChunk. simpl Json.getOwn.
    rewrite contentTexts_app, joinText_app, contentTexts_first_loop,
      HandlerFacts.consume_first_text.
    simpl. now rewrite JsStringFacts.append_empty_r.
  - eexists _, (snd (summaryChunk _ _ _)). split; [now rewrite app_assoc|].
    rewrite RoundTripFacts.summaryField_summaryChunk. simpl Json.getOwn.
    rewrite !contentTexts_app, !joinText_app, contentTexts_first_loop,
      contentTexts_retry_loop, HandlerFacts.consume_first_text.
    simpl. now rewrite JsStringFacts.append_empty_r.
Qed.


(** The test that attaches the tool, in words. *)
Lemma mentionsTool_iff (messages : list Anthropic.MessageParam) :
  existsb Handler.mentionsTool messages = true <-> mentionsFollowupTool messages.
Proof.
  unfold mentionsFollowupTool. rewrite existsb_exists. split.
  - intros (m & Hin & Hm). unfold Handler.mentionsTool in Hm.
    destruct (Anthropic.content m) as [s|blocks] eqn:E; [|discriminate].
    apply andb_true_iff in Hm as [_ Hm].
    apply JsStringFacts.includes_iff in Hm as (pre & post & ->).
    now exists m, pre, post.
  - intros (m & pre & post & Hin & E). exists m. split; [exact Hin|].
    unfold Handler.mentionsTool.
    rewrite E, JsStringFacts.includes_append, andb_true_r.
    destruct pre; reflexivity.
Qed.

(** X5 (tools).  The first request carries the [ask_followup_question]
    tool, and only that tool, exactly when some input message is a plain
    string containing the tool's name; a message whose content is a list
    of blocks never counts, nor does the system prompt.  A request that
    follows the first carries no tools. *)
Theorem tools_follow_the_messages options env systemPrompt messages request later :
  submitted (Handler.createMessage targonModels targonDefaultModelId options env
               systemPrompt messages) = request :: later ->
  (mentionsFollowupTool messages
   <-> OpenAI.tools request = Some [Handler.askFollowupQuestionTool])
  /\ (~ mentionsFollowupTool messages <-> OpenAI.tools request = None)
  /\ Forall (fun retry => OpenAI.tools retry = None) later.
Proof.
  intros Hsub. rewrite <- mentionsTool_iff.
  assert (Hreq : exists maxTokens msgs model,
             request = Handler.firstRequest model maxTokens msgs messages
             /\ (later = [] \/ later = [Handler.simpleRequest model msgs])).
  { destruct (createMessage_paths options env systemPrompt messages)
      as [H | [H | (maxTokens & _ & Hcases)]];
      [rewrite H in Hsub; discriminate | rewrite H in Hsub; discriminate |].
    cbv zeta in Hcases.
    destruct Hcases as [[_ H] | [(error & _ & _ & H) | [(error & _ & _ & _ & H)
                       | (error & retryError & _ & _ & _ & H)]]];
      rewrite H in Hsub; simpl in Hsub; inversion Hsub; eauto 6. }
  destruct Hreq as (maxTokens & msgs & model & -> & Hlater). simpl OpenAI.tools.
  split; [|split].
  - destruct (existsb Handler.mentionsTool messages); split; congruence.
  - destruct (existsb Handler.mentionsTool messages); split; congruence.
  - destruct Hlater as [-> | ->]; repeat constructor.
Qed.

(** The usage object that counts is the last one delivered. *)
Lemma lastUsage_last (pre post : list OpenAI.Chunk) (chunk : OpenAI.Chunk)
  (u : OpenAI.Usage) :
  Handler.usageOf chunk = Some u ->
  Forall (fun c => Handler.usageOf c = None) post ->
  lastUsage (pre ++ chunk :: post) = Some u.
Proof.
  intros Hu Hpost. induction pre as [|c pre IH]; simpl.
  - now rewrite (HandlerFacts.lastUsage_none _ Hpost).
  - now rewrite IH.
Qed.

(** X6 (usage).  When the events of the first stream carry several usage
    objects, the summary of a call that returns reports the counts of
    the last of them, a missing (or zero) count as 0, and their sum;
    earlier usage objects are overwritten, and on the retry path the
    second stream's are not read. *)
Theorem last_usage_wins options env systemPrompt messages request later
  (pre post : list OpenAI.Chunk) (chunk : OpenAI.Chunk) (u : OpenAI.Usage) :
  let run := Handler.createMessage targonModels targonDefaultModelId options env
               systemPrompt messages in
  let countIn := orNumber (OpenAI.prompt_tokens u) 0 in
  let countOut := orNumber (OpenAI.completion_tokens u) 0 in
  submitted run = request :: later ->
  completion run = Returned ->
  delivered (client env 0%nat request) = pre ++ chunk :: post ->
  Handler.usageOf chunk = Some u ->
  Forall (fun c => Handler.usageOf c = None) post ->
  exists before summary,
    yielded run = before ++ [(ResponseSummary, summary)]
    /\ summaryField summary "tokensIn" = Some (Json.JNum countIn)
    /\ summaryField summary "tokensOut" = Some (Json.JNum countOut)
    /\ summaryField summary "tokensTotal" = Some (Json.JNum (countIn + countOut)).
Proof.
  intros run countIn countOut Hsub Hret Hev Hu Hpost.
  destruct (createMessage_paths options env systemPrompt messages)
    as [H | [H | (maxTokens & _ & Hcases)]]; fold run in H || idtac;
    [rewrite H in Hsub; discriminate | rewrite H in Hsub; discriminate |].
  cbv zeta in Hcases. fold run in Hcases.
  match type of Hcases with
  | context [Handler.consume ?body initialProgress (delivered (client env 0%nat ?r))] =>
      assert (Hr : request = r);
      [| pose proof (HandlerFacts.consume_first_usage (strPositive env)
                       (delivered (client env 0%nat r)) initialProgress) as [Hin Hout];
         cbv zeta in Hin, Hout; rewrite <- Hr in Hin, Hout, Hcases;
         rewrite Hev in Hin, Hout;
         rewrite (lastUsage_last pre post chunk u Hu Hpost) in Hin, Hout;
         rewrite <- Hev in Hin, Hout ]
  end.
  { destruct Hcases as [[_ H] | [(error & _ & _ & H) | [(error & _ & _ & _ & H)
                       | (error & retryError & _ & _ & _ & H)]]];
      rewrite H in Hsub; simpl in Hsub; now inversion Hsub. }
  destruct Hcases as [[_ H] | [(error & _ & _ & H) | [(error & _ & _ & _ & H)
                     | (error & retryError & _ & _ & _ & H)]]];
    rewrite H in Hret |- *; simpl in Hret; try discriminate Hret; simpl yielded.
  - eexists _, (snd (summaryChunk _ _ _)). split; [reflexivity|].
    rewrite !RoundTripFacts.summaryField_summaryChunk. simpl Json.getOwn.
    rewrite Hin, Hout. repeat split; reflexivity.
  - eexists _, (snd (summaryChunk _ _ _)). split; [now rewrite app_assoc|].
    rewrite !RoundTripFacts.summaryField_summaryChunk. simpl Json.getOwn.
    cbn [seenIn seenOut]. rewrite Hin, Hout. repeat split; reflexivity.
Qed.

(** X7 (hints).  The text thrown for a failed call is the headline alone
    (prefix, status when there is one, the error's own text) exactly
    when the error's text mentions none of 401, 403, 404, 429, 500, 502,
    503 nor the word "authentication"; the status number itself selects
    no hint. *)
Theorem no_hint_without_known_code (error : OpenAI.ApiError) :
  Handler.describeError error = Handler.errorHeadline error
  <-> mentionsNoKnownCode (OpenAI.message error).
Proof.
  rewrite <- remedyHint_empty_iff. unfold Handler.describeError. split.
  - apply JsStringFacts.append_same_l.
  - intros ->. apply JsStringFacts.append_empty_r.
Qed.

(** X8 (thrown texts).  Whatever either handler throws is the
    configuration error or a text that starts with "Targon API error: ";
    this includes the [TypeError] of a model entry without [info]. *)
Theorem thrown_messages_are_prefixed options env systemPrompt messages :
  let prefixed := fun c : Completion =>
    match c with
    | Returned => True
    | Thrown message =>
        message = "Targon API key not found"
        \/ exists rest, message = "Targon API error: " +:+ rest
    end in
  prefixed (completion (Handler.createMessage targonModels targonDefaultModelId options env
                          systemPrompt messages))
  /\ prefixed (completion (PlainHandler.createMessage targonModels targonDefaultModelId
                             options env systemPrompt messages)).
Proof.
  intros prefixed. split.
  - destruct (createMessage_paths options env systemPrompt messages)
      as [H | [H | (maxTokens & _ & Hcases)]].
    + rewrite H. simpl. now left.
    + rewrite H. simpl. right. apply ErrorFacts.describeError_prefix.
    + cbv zeta in Hcases.
      destruct Hcases as [[_ H] | [(error & _ & _ & H) | [(error & _ & _ & _ & H)
                         | (error & retryError & _ & _ & _ & H)]]];
        rewrite H; simpl; try exact I; right; apply ErrorFacts.describeError_prefix.
  - unfold PlainHandler.createMessage.
    destruct (Handler.optTruthy (targonApiKey options)); simpl negb; cbv iota zeta;
      [|simpl; now left].
    destruct (memberMaxTokens _) as [maxTokens|]; simpl; [|right; eauto].
    destruct (client env 0%nat _) as [e|events ending]; simpl; [right; eauto|].
    destruct (PlainHandler.consume _ events) as [[p ys] [thrown|]]; simpl; [right; eauto|].
    destruct ending; simpl; [right; eauto | exact I].
Qed.

(** The suffix itself asks for brevity. *)
Lemma makePromptConcise_test (systemPrompt : string) :
  JsString.includes (JsString.toLowerCase (Handler.makePromptConcise systemPrompt)) "concise"
  || JsString.includes (JsString.toLowerCase (Handler.makePromptConcise systemPrompt)) "brief"
  || JsString.includes (JsString.toLowerCase (Handler.makePromptConcise systemPrompt)) "short"
  = true.
Proof.
  unfold Handler.makePromptConcise.
  destruct (JsString.includes (JsString.toLowerCase systemPrompt) "concise"
            || JsString.includes (JsString.toLowerCase systemPrompt) "brief"
            || JsString.includes (JsString.toLowerCase systemPrompt) "short") eqn:E;
    [exact E|].
  assert (Hs : JsString.includes (JsString.toLowerCase Handler.conciseSuffix) "concise"
               = true) by (vm_compute; reflexivity).
  apply JsStringFacts.includes_iff in Hs as (pre & post & Hs).
  assert (H : JsString.includes
                (JsString.toLowerCase (systemPrompt +:+ Handler.conciseSuffix)) "concise"
              = true).
  { rewrite JsStringFacts.toLowerCase_append, Hs. apply JsStringFacts.includes_iff.
    exists (JsString.toLowerCase systemPrompt +:+ pre), post.
    now rewrite !JsStringFacts.append_assoc. }
  now rewrite H.
Qed.

(** X9 (brevity).  What [makePromptConcise] returns always asks for
    brevity and starts with the prompt it was given; applying it twice
    is applying it once. *)
Theorem makePromptConcise_idempotent (systemPrompt : string) :
  asksForBrevity (Handler.makePromptConcise systemPrompt)
  /\ (exists rest, Handler.makePromptConcise systemPrompt = systemPrompt +:+ rest)
  /\ Handler.makePromptConcise (Handler.makePromptConcise systemPrompt)
     = Handler.makePromptConcise systemPrompt.
Proof.
  pose proof (makePromptConcise_test systemPrompt) as Htest.
  split; [|split].
  - now apply PromptFacts.brevity_test.
  - clear Htest. unfold Handler.makePromptConcise.
    match goal with |- context [if ?test then _ else _] => destruct test end.
    + exists "". now rewrite JsStringFacts.append_empty_r.
    + now exists Handler.conciseSuffix.
  - unfold Handler.makePromptConcise at 1. now rewrite Htest.
Qed.

(** X10 (model).  With the default id listed in the table and a
    configured id that is not a name inherited from [Object.prototype],
    [getModel] returns an id together with that id's own entry of the
    table: the configured id when it is listed, the default id
    otherwise. *)
Theorem getModel_sound (options : ApiHandlerOptions) :
  is_Some (targonModels !! targonDefaultModelId) ->
  noInheritedName options ->
  exists entry,
    let model := getModel targonModels targonDefaultModelId options in
    info model = Own entry
    /\ targonModels !! id model = Some entry
    /\ (id model = match apiModelId options with
                   | Some modelId =>
                       if bool_decide (is_Some (targonModels !! modelId))
                          && JsString.truthy modelId
                       then modelId else targonDefaultModelId
                   | None => targonDefaultModelId
                   end).
Proof.
  intros [entry Hd] Hname. unfold noInheritedName in Hname. unfold getModel, hasProperty.
  assert (Hdef : exists e,
             info (defaultModel targonModels targonDefaultModelId) = Own e
             /\ targonModels !! id (defaultModel targonModels targonDefaultModelId) = Some e
             /\ id (defaultModel targonModels targonDefaultModelId) = targonDefaultModelId).
  { exists entry. unfold defaultModel, getProperty. simpl. now rewrite Hd. }
  destruct (apiModelId options) as [modelId|]; [|exact Hdef].
  rewrite Hname, orb_false_r.
  destruct (targonModels !! modelId) as [e|] eqn:Hm.
  - rewrite bool_decide_eq_true_2 by eauto. simpl andb at 2. rewrite andb_true_r.
    destruct (JsString.truthy modelId); [|exact Hdef].
    exists e. unfold getProperty. simpl. now rewrite Hm.
  - rewrite bool_decide_eq_false_2 by (intros [x Hx]; discriminate).
    rewrite andb_false_r. exact Hdef.
Qed.

(** X11 (retry loop).  The retry's loop reads less than the first loop:
    whenever it finds a text in an event, the first loop would have
    found the same text there; what the first loop takes from
    [message.content], from a top-level [content] or from an event that
    is itself a string, the retry's loop passes over. *)
Theorem retry_reads_delta_only (chunk : OpenAI.Chunk) :
  Handler.retryContent chunk <> "" ->
  Handler.retryContent chunk = Handler.extractContent chunk
  /\ exists delta message others content usage,
       chunk = OpenAI.ChunkObject (Some (OpenAI.ChoiceObject (Some delta) message :: others))
                 content usage
       /\ OpenAI.delta_content delta = Some (Handler.retryContent chunk).
Proof.
  intros H. unfold Handler.retryContent, Handler.extractContent in *.
  destruct chunk as [[[|[delta message|s] others]|] content usage|s];
    try (now destruct H).
  destruct delta as [delta|]; [|now destruct H]. simpl in *.
  destruct (OpenAI.delta_content delta) as [c|] eqn:E; simpl in *; [|now destruct H].
  destruct (JsString.truthy c) eqn:Ec; [|now destruct H].
  split; [reflexivity|]. now exists delta, message, others, content, usage.
Qed.


(** *** The plain handler *)

(** X12 (plain handler, normal course).  In the handler of
    [src/api/providers/targon.ts], when the stream ends normally and
    every event has a [choices] array, the fragments are the non-empty
    delta contents in order, then one summary whose content is their
    concatenation and whose token counts are those of the last usage
    object (0 without any); exactly one request was submitted. *)
Theorem plain_stream_summary options env systemPrompt messages maxTokens events :
  let model := getModel targonModels targonDefaultModelId options in
  let plain := PlainHandler.createMessage targonModels targonDefaultModelId options env
                 systemPrompt messages in
  let request := PlainHandler.request model maxTokens
                   (formattedMessages systemPrompt messages) in
  let countIn := match lastUsage events with
                 | Some u => orNumber (OpenAI.prompt_tokens u) 0
                 | None => 0
                 end in
  let countOut := match lastUsage events with
                  | Some u => orNumber (OpenAI.completion_tokens u) 0
                  | None => 0
                  end in
  apiKeyConfigured options ->
  memberMaxTokens (info model) = Some maxTokens ->
  client env 0%nat request = OpenAI.Streaming events None ->
  Forall hasChoices events ->
  exists summary,
    plain = {| yielded := flat_map (fun chunk => contentFragment (plainContent chunk)) events
                          ++ [(ResponseSummary, summary)];
               submitted := [request];
               completion := Returned |}
    /\ summaryField summary "content"
       = Some (Json.JStr (joinText (map plainContent events)))
    /\ summaryField summary "tokensIn" = Some (Json.JNum countIn)
    /\ summaryField summary "tokensOut" = Some (Json.JNum countOut)
    /\ summaryField summary "tokensTotal" = Some (Json.JNum (countIn + countOut)).
Proof.
  intros model plain request countIn countOut Hkey Hmax Hclient Hall.
  apply optTruthy_configured in Hkey. subst plain.
  unfold PlainHandler.createMessage. rewrite Hkey. simpl negb. cbv iota zeta.
  fold model. rewrite Hmax, openAiMessages_id. fold request. rewrite Hclient.
  rewrite (plain_consume_clean events initialProgress Hall).
  eexists (snd (summaryChunk _ _ _)). split; [reflexivity|].
  rewrite !RoundTripFacts.summaryField_summaryChunk. simpl Json.getOwn.
  repeat split; reflexivity.
Qed.

(** X13 (plain handler, event without choices).  The plain handler reads
    [chunk.choices[0]] unguarded: the first event that has no [choices]
    ends the call with the wrapped [TypeError]; the fragments of the
    events before it have been yielded, no summary is, and the events
    after it are not read. *)
Theorem plain_malformed_event_aborts options env systemPrompt messages maxTokens
  (pre post : list OpenAI.Chunk) (chunk : OpenAI.Chunk) :
  let model := getModel targonModels targonDefaultModelId options in
  let plain := PlainHandler.createMessage targonModels targonDefaultModelId options env
                 systemPrompt messages in
  let request := PlainHandler.request model maxTokens
                   (formattedMessages systemPrompt messages) in
  apiKeyConfigured options ->
  memberMaxTokens (info model) = Some maxTokens ->
  delivered (client env 0%nat request) = pre ++ chunk :: post ->
  Forall hasChoices pre ->
  ~ hasChoices chunk ->
  plain = {| yielded := flat_map (fun c => contentFragment (plainContent c)) pre;
             submitted := [request];
             completion :=
               Thrown "Targon API error: Cannot read properties of undefined (reading '0')" |}.
Proof.
  intros model plain request Hkey Hmax Hev Hall Hbad.
  apply optTruthy_configured in Hkey. subst plain.
  unfold PlainHandler.createMessage. rewrite Hkey. simpl negb. cbv iota zeta.
  fold model. rewrite Hmax, openAiMessages_id. fold request.
  destruct (client env 0%nat request) as [e|events ending]; simpl in Hev.
  - now destruct pre.
  - subst events.
    destruct (plain_consume_abort pre post chunk initialProgress Hall Hbad) as [p' ->].
    reflexivity.
Qed.

(** X14 (plain handler, no retry).  The plain handler submits at most one
    request.  Whatever goes wrong after it, a 503 included, is thrown
    at once with the prefix before the error's text and nothing else:
    no status, no hint, no second request. *)
Theorem plain_never_retries options env systemPrompt messages :
  let plain := PlainHandler.createMessage targonModels targonDefaultModelId options env
                 systemPrompt messages in
  match submitted plain with
  | [] => exists message, completion plain = Thrown message
  | [request] =>
      OpenAI.tools request = None
      /\ match failure (client env 0%nat request) with
         | Some error =>
             completion plain = Thrown ("Targon API error: " +:+ OpenAI.message error)
             \/ completion plain = PlainHandler.wrapError PlainHandler.choicesTypeError
         | None =>
             completion plain = Returned
             \/ completion plain = PlainHandler.wrapError PlainHandler.choicesTypeError
         end
  | _ => False
  end.
Proof.
  intros plain. subst plain. unfold PlainHandler.createMessage.
  destruct (Handler.optTruthy (targonApiKey options)); simpl negb; cbv iota zeta;
    [|simpl; eauto].
  destruct (memberMaxTokens _) as [maxTokens|]; simpl; [|unfold PlainHandler.wrapError; eauto].
  destruct (client env 0%nat _) as [e|events ending] eqn:Hc; simpl.
  - rewrite Hc. simpl. split; [reflexivity|]. now left.
  - destruct (PlainHandler.consume _ events) as [[p ys] [thrown|]] eqn:E; simpl.
    + rewrite Hc. split; [reflexivity|].
      rewrite (plain_consume_thrown events _ _ _ _ E).
      destruct (failure _); now right.
    + destruct ending as [error|]; simpl; rewrite Hc; simpl;
        (split; [reflexivity | now left]).
Qed.


(** *** [TargonFormatRequest] *)

Lemma formatRequestMessage_id (message : OpenAI.ChatCompletionMessageParam) :
  formatRequestMessage message = message.
Proof.
  unfold formatRequestMessage. destruct message as [role content]. simpl.
  destruct (String.eqb_spec role "system") as [->|_]; [reflexivity|].
  now destruct (_ || _).
Qed.

Lemma orNumber_nonzero (n : option Z) (d : Z) : d <> 0 -> orNumber n d <> 0.
Proof.
  intros Hd. unfold orNumber. destruct n as [x|]; [|exact Hd].
  destruct (Z.eqb_spec x 0); assumption.
Qed.

(** X15 (request formatting).  [TargonFormatRequest] passes the messages
    on as they are, in order (each of its three branches keeps role and
    content); the request it returns streams, carries no tools, names
    the default model when none is given, and never has a zero
    [max_tokens] or a zero [temperature], a zero option being replaced
    like an absent one. *)
Theorem TargonFormatRequest_keeps_messages
  (apiRequest : list OpenAI.ChatCompletionMessageParam) (model : option string)
  (options : FormatOptions) :
  let request := TargonFormatRequest targonModels targonDefaultModelId apiRequest model
                   options in
  OpenAI.messages request = apiRequest
  /\ OpenAI.stream request = true
  /\ OpenAI.tools request = None
  /\ OpenAI.model request = match model with
                            | Some m => m
                            | None => targonDefaultModelId
                            end
  /\ OpenAI.max_tokens request <> 0
  /\ Qnum (OpenAI.temperature request) <> 0.
Proof.
  intros request. subst request. unfold TargonFormatRequest. simpl.
  repeat split.
  - induction apiRequest as [|m l IH]; simpl; [reflexivity|].
    now rewrite formatRequestMessage_id, IH.
  - apply orNumber_nonzero. now apply orNumber_nonzero.
  - unfold orRational. destruct (opt_temperature options) as [q|]; [|discriminate].
    destruct (Z.eqb_spec (Qnum q) 0); [discriminate | assumption].
Qed.

Lemma optionalMaxTokens_member (m : Member) (maxTokens : option Z) :
  memberMaxTokens m = Some maxTokens ->
  orNumber (optionalMaxTokens m) 4096 = orNumber maxTokens 4096.
Proof. destruct m; simpl; intros H; inversion H; reflexivity. Qed.

(** X16 (agreement).  The requests the handlers build inline are the one
    [TargonFormatRequest] builds from the same messages, the resolved
    model id and no options: the plain handler's request is that
    request, and the first request of the other handler is that request
    for the rewritten system prompt, with the tools added when there
    are any. *)
Theorem handlers_build_the_formatted_request options env systemPrompt messages :
  let modelId := id (getModel targonModels targonDefaultModelId options) in
  let formatted := fun systemContent =>
    TargonFormatRequest targonModels targonDefaultModelId
      (formattedMessages systemContent messages) (Some modelId) noOptions in
  Forall (fun request => request = formatted systemPrompt)
         (submitted (PlainHandler.createMessage targonModels targonDefaultModelId options
                       env systemPrompt messages))
  /\ match submitted (Handler.createMessage targonModels targonDefaultModelId options env
                        systemPrompt messages) with
     | [] => True
     | request :: _ =>
         {| OpenAI.model := OpenAI.model request;
            OpenAI.messages := OpenAI.messages request;
            OpenAI.stream := OpenAI.stream request;
            OpenAI.temperature := OpenAI.temperature request;
            OpenAI.max_tokens := OpenAI.max_tokens request;
            OpenAI.tools := None |}
         = formatted (Handler.makePromptConcise systemPrompt)
     end.
Proof.
  intros modelId formatted.
  assert (Hformat : forall systemContent maxTokens,
             memberMaxTokens (info (getModel targonModels targonDefaultModelId options))
             = Some maxTokens ->
             formatted systemContent
             = PlainHandler.request (getModel targonModels targonDefaultModelId options)
                 maxTokens (formattedMessages systemContent messages)).
  { intros systemContent maxTokens Hmax. subst formatted modelId.
    unfold TargonFormatRequest, PlainHandler.request. cbn [opt_temperature opt_max_tokens
      noOptions orRational orNumber].
    rewrite <- getModel_info, (optionalMaxTokens_member _ _ Hmax). f_equal.
    induction (formattedMessages systemContent messages) as [|m l IH]; simpl;
      [reflexivity|].
    now rewrite formatRequestMessage_id, IH. }
  split.
  - unfold PlainHandler.createMessage.
    destruct (Handler.optTruthy (targonApiKey options)); simpl negb; cbv iota zeta;
      [|constructor].
    destruct (memberMaxTokens _) as [maxTokens|] eqn:Hmax; [|constructor].
    rewrite openAiMessages_id, (Hformat systemPrompt maxTokens eq_refl).
    destruct (client env 0%nat _) as [e|events ending]; [repeat constructor|].
    destruct (PlainHandler.consume _ events) as [[p ys] [thrown|]];
      [repeat constructor|].
    destruct ending; repeat constructor.
  - destruct (createMessage_paths options env systemPrompt messages)
      as [H | [H | (maxTokens & Hmax & Hcases)]]; [now rewrite H | now rewrite H |].
    cbv zeta in Hcases. rewrite (Hformat _ maxTokens Hmax).
    destruct Hcases as [[_ H] | [(error & _ & _ & H) | [(error & _ & _ & _ & H)
                       | (error & retryError & _ & _ & _ & H)]]];
      rewrite H; reflexivity.
Qed.

(** *** Tool-call fragments, counted *)

Lemma toolCallTexts_app (a b : list (Site * ApiStreamChunk)) :
  toolCallTexts (a ++ b) = toolCallTexts a ++ toolCallTexts b.
Proof. apply List.filter_app. Qed.

Lemma toolCallTexts_contentFragment (content : string) :
  toolCallTexts (contentFragment content) = [].
Proof. unfold contentFragment. now destruct (JsString.truthy content). Qed.

Lemma toolCallTexts_renderToolCall (sp : string -> bool) (call : OpenAI.ToolCall) :
  (length (toolCallTexts (Handler.renderToolCall sp call))
   <= length (List.filter isFollowupCall [call]))%nat.
Proof.
  unfold Handler.renderToolCall, isFollowupCall. simpl.
  destruct (OpenAI.function call) as [f|]; [|simpl; lia].
  destruct (OpenAI.fname f) as [name|]; [|simpl; lia].
  destruct (String.eqb name "ask_followup_question"); [|simpl; lia].
  destruct (Handler.renderArguments sp (OpenAI.arguments f)); simpl; lia.
Qed.

Lemma toolCallTexts_renderToolCalls (sp : string -> bool)
  (calls : option (list OpenAI.ToolCall)) :
  (length (toolCallTexts (Handler.renderToolCalls sp calls))
   <= length (match calls with
              | Some calls => List.filter isFollowupCall calls
              | None => []
              end))%nat.
Proof.
  destruct calls as [calls|]; [|simpl; lia]. simpl.
  induction calls as [|call calls IH]; simpl; [lia|].
  rewrite toolCallTexts_app, length_app.
  pose proof (toolCallTexts_renderToolCall sp call) as H. simpl in H.
  destruct (isFollowupCall call); simpl in *; lia.
Qed.

Lemma toolCallTexts_first_loop (sp : string -> bool) (events : list OpenAI.Chunk)
  (p : Progress) :
  (length (toolCallTexts (snd (Handler.consume (Handler.processChunk sp) p events)))
   <= length (followupCalls events))%nat.
Proof.
  rewrite HandlerFacts.consume_first_yields. unfold followupCalls.
  induction events as [|chunk events IH]; simpl; [lia|].
  rewrite !toolCallTexts_app, !length_app, toolCallTexts_contentFragment.
  pose proof (toolCallTexts_renderToolCalls sp (Handler.toolCallsOf chunk)).
  simpl length at 1. lia.
Qed.

Lemma toolCallTexts_retry_loop (events : list OpenAI.Chunk) :
  toolCallTexts (flat_map (fun chunk => contentFragment (Handler.retryContent chunk))
                          events) = [].
Proof.
  induction events as [|chunk events IH]; simpl; [reflexivity|].
  now rewrite toolCallTexts_app, toolCallTexts_contentFragment, IH.
Qed.

(** X17 (tool calls, counted).  The fragments that render tool calls are
    never more than the [ask_followup_question] tool calls that the
    first stream delivered in the [delta] of the first choice of its
    events: a tool call with another name, or without a name, renders
    nothing, each call renders at most once, and the tool calls of the
    retry's stream are not looked at. *)
Theorem tool_call_fragments_bounded options env systemPrompt messages :
  let run := Handler.createMessage targonModels targonDefaultModelId options env
               systemPrompt messages in
  (length (toolCallTexts (yielded run))
   <= match submitted run with
      | [] => 0
      | request :: _ => length (followupCalls (delivered (client env 0%nat request)))
      end)%nat.
Proof.
  intros run.
  destruct (createMessage_paths options env systemPrompt messages)
    as [H | [H | (maxTokens & _ & Hcases)]]; fold run in H || idtac;
    [rewrite H; simpl; lia | rewrite H; simpl; lia |].
  cbv zeta in Hcases. fold run in Hcases.
  destruct Hcases as [[_ H] | [(error & _ & _ & H) | [(error & _ & _ & _ & H)
                     | (error & retryError & _ & _ & _ & H)]]];
    rewrite H; simpl yielded; simpl submitted; cbv iota;
    rewrite ?toolCallTexts_app, ?length_app, ?toolCallTexts_retry_loop;
    match goal with
    | |- context [Handler.consume (Handler.processChunk ?sp) ?p ?events] =>
        pose proof (toolCallTexts_first_loop sp events p)
    end; simpl length; lia.
Qed.

(** X18 (summary, identity).  The summary of a call that returns reports
    the request it belongs to: the model named in the submitted request,
    the request id, the start time in whole seconds, and the time from
    start to end. *)
Theorem summary_reports_the_request options env systemPrompt messages :
  let run := Handler.createMessage targonModels targonDefaultModelId options env
               systemPrompt messages in
  completion run = Returned ->
  exists request later before summary,
    submitted run = request :: later
    /\ yielded run = before ++ [(ResponseSummary, summary)]
    /\ summaryField summary "model" = Some (Json.JStr (OpenAI.model request))
    /\ Forall (fun retry => OpenAI.model retry = OpenAI.model request) later
    /\ summaryField summary "id" = Some (Json.JStr (requestId env))
    /\ summaryField summary "created" = Some (Json.JNum (startTime env / 1000))
    /\ summaryField summary "timeTotal"
       = Some (Json.JNum (endTime env - startTime env)).
Proof.
  intros run Hret.
  destruct (createMessage_paths options env systemPrompt messages)
    as [H | [H | (maxTokens & _ & Hcases)]]; fold run in H || idtac;
    [rewrite H in Hret; discriminate | rewrite H in Hret; discriminate |].
  cbv zeta in Hcases. fold run in Hcases.
  destruct Hcases as [[_ H] | [(error & _ & _ & H) | [(error & _ & _ & _ & H)
                     | (error & retryError & _ & _ & _ & H)]]];
    rewrite H in Hret |- *; simpl in Hret; try discriminate Hret;
    simpl yielded; simpl submitted.
  - eexists _, _, _, (snd (summaryChunk _ _ _)). split; [reflexivity|].
    split; [reflexivity|].
    rewrite !RoundTripFacts.summaryField_summaryChunk. simpl Json.getOwn.
    repeat split; try reflexivity. constructor.
  - eexists _, _, _, (snd (summaryChunk _ _ _)). split; [reflexivity|].
    split; [now rewrite app_assoc|].
    rewrite !RoundTripFacts.summaryField_summaryChunk. simpl Json.getOwn.
    repeat split; try reflexivity. repeat constructor.
Qed.

End CreateMessagePaths.

(** ** [TargonFormatResponse] *)

Module ResponseFacts.
Import Json JsonFacts JsStringFacts RoundTripFacts.
#[local] Arguments String.append _ _ : simpl nomatch.

(** One member of the serialised response, read back. *)
Ltac read_member :=
  first
    [ erewrite parseMembers_more;
      [|first [apply parseValue_quote | apply parseValue_ofNumber; reflexivity]]
    | erewrite parseMembers_end;
      [|first [apply parseValue_quote | apply parseValue_ofNumber; reflexivity]] ].

Lemma parse_response (response : Response.ApiResponse) :
  parse (TargonFormatResponse response) = Some (responseObject response).
Proof.
  destruct response as [rid rmodel rcreated rcontent [[[a|] [b|] [c|] [d|]]|]];
    unfold TargonFormatResponse, responseObject, metric, objectLiteral;
    cbn [omap list_omap fst snd option_map Response.metrics Response.id Response.model
         Response.created Response.content Response.tokensIn Response.tokensOut
         Response.tokensTotal Response.timeTotal stringify];
    rewrite !append_assoc; unfold parse, decode;
    match goal with |- context [parseFuel ?t] => set (text := t) end;
    (assert (Hfuel : exists f, parseFuel text = (10 + f)%nat)
      by (exists (parseFuel text - 10)%nat; unfold parseFuel; subst text;
          rewrite !append_length; simpl; lia));
    destruct Hfuel as [f ->]; subst text;
    change (10 + f)%nat with (S (S (S (S (S (S (S (S (S (S f))))))))));
    rewrite parseValue_braces; repeat read_member; reflexivity.
Qed.

End ResponseFacts.

(** X19 (response round trip).  Decoding what [TargonFormatResponse]
    returns gives back the object it serialised, for every response:
    identifier, model, creation time and content always, and each
    metric exactly when the response has it, an absent metric (or an
    absent [metrics]) leaving no member behind, not even a null one;
    there is no other member. *)
Theorem TargonFormatResponse_round_trip (response : Response.ApiResponse) :
  exists fields,
    Json.parse (TargonFormatResponse response) = Some (Json.JObj fields)
    /\ Json.getOwn fields "id" = Some (Json.JStr (Response.id response))
    /\ Json.getOwn fields "model" = Some (Json.JStr (Response.model response))
    /\ Json.getOwn fields "created" = Some (Json.JNum (Response.created response))
    /\ Json.getOwn fields "content" = Some (Json.JStr (Response.content response))
    /\ Json.getOwn fields "tokensIn"
       = option_map Json.JNum (Response.metrics response ≫= Response.tokensIn)
    /\ Json.getOwn fields "tokensOut"
       = option_map Json.JNum (Response.metrics response ≫= Response.tokensOut)
    /\ Json.getOwn fields "tokensTotal"
       = option_map Json.JNum (Response.metrics response ≫= Response.tokensTotal)
    /\ Json.getOwn fields "timeTotal"
       = option_map Json.JNum (Response.metrics response ≫= Response.timeTotal)
    /\ (length fields <= 8)%nat.
Proof.
  rewrite ResponseFacts.parse_response. unfold responseObject, Json.objectLiteral, metric.
  eexists. split; [reflexivity|].
  destruct (Response.metrics response) as [[[a|] [b|] [c|] [d|]]|];
    repeat split; simpl; try reflexivity; lia.
Qed.

(** ** Instances *)

Lemma tools_follow_the_messages_witness :
  let messages :=
    [ {| Anthropic.role := "user";
         Anthropic.content := Anthropic.Text "Use ask_followup_question if unsure" |} ] in
  let run := Handler.createMessage Examples.models Examples.defaultId Examples.options
               (Examples.env (fun _ _ => OpenAI.Streaming [] None)) "Answer." messages in
  exists request,
    submitted run = [request]
    /\ mentionsFollowupTool messages
    /\ OpenAI.tools request = Some [Handler.askFollowupQuestionTool].
Proof.
  intros messages run.
  assert (Hm : mentionsFollowupTool messages).
  { eexists _, "Use ", " if unsure". split; [left; reflexivity | reflexivity]. }
  eexists. split; [reflexivity|]. split; [exact Hm|].
  exact (proj1 (proj1 (tools_follow_the_messages Examples.models Examples.defaultId
                         Examples.options
                         (Examples.env (fun _ _ => OpenAI.Streaming [] None))
                         "Answer." messages _ [] eq_refl)) Hm).
Defined.

Lemma last_usage_wins_witness :
  let events := [ Examples.usageChunk 1 2; Examples.contentChunk "ok";
                  Examples.usageChunk 10 5; Examples.contentChunk "!" ] in
  let run := Handler.createMessage Examples.models Examples.defaultId Examples.options
               (Examples.env (fun _ _ => OpenAI.Streaming events None)) "Answer."
               Examples.userHi in
  completion run = Returned
  /\ exists before summary,
      yielded run = before ++ [(ResponseSummary, summary)]
      /\ summaryField summary "tokensIn" = Some (Json.JNum 10)
      /\ summaryField summary "tokensOut" = Some (Json.JNum 5)
      /\ summaryField summary "tokensTotal" = Some (Json.JNum 15).
Proof.
  intros events run. split; [reflexivity|].
  assert (Hpost : Forall (fun c => Handler.usageOf c = None) [ Examples.contentChunk "!" ]).
  { repeat constructor. }
  destruct (last_usage_wins Examples.models Examples.defaultId Examples.options
              (Examples.env (fun _ _ => OpenAI.Streaming events None)) "Answer."
              Examples.userHi _ []
              [ Examples.usageChunk 1 2; Examples.contentChunk "ok" ]
              [ Examples.contentChunk "!" ] (Examples.usageChunk 10 5)
              {| OpenAI.prompt_tokens := Some 10; OpenAI.completion_tokens := Some 5 |}
              eq_refl eq_refl eq_refl eq_refl Hpost)
    as (before & summary & Hy & Hin & Hout & Htotal).
  exists before, summary. split; [exact Hy|]. split; [exact Hin|].
  split; [exact Hout | exact Htotal].
Defined.

Lemma summary_content_is_streamed_content_witness :
  let events := [ Examples.contentChunk "Hel"; Examples.usageChunk 3 2;
                  Examples.contentChunk "lo" ] in
  let run := Handler.createMessage Examples.models Examples.defaultId Examples.options
               (Examples.env (fun _ _ => OpenAI.Streaming events None)) "Answer."
               Examples.userHi in
  completion run = Returned
  /\ exists before summary,
      yielded run = before ++ [(ResponseSummary, summary)]
      /\ summaryField summary "content" = Some (Json.JStr "Hello").
Proof.
  intros events run. split; [reflexivity|].
  destruct (summary_content_is_streamed_content Examples.models Examples.defaultId
              Examples.options
              (Examples.env (fun _ _ => OpenAI.Streaming events None)) "Answer."
              Examples.userHi eq_refl)
    as (before & summary & Hy & Hc).
  exists before, summary. split; [exact Hy | exact Hc].
Defined.

Lemma getModel_sound_witness :
  is_Some (Examples.models !! Examples.defaultId)
  /\ noInheritedName Examples.options
  /\ exists entry,
      info (getModel Examples.models Examples.defaultId Examples.options) = Own entry
      /\ Examples.models !! id (getModel Examples.models Examples.defaultId Examples.options)
         = Some entry.
Proof.
  assert (H1 : is_Some (Examples.models !! Examples.defaultId)).
  { eexists. reflexivity. }
  assert (H2 : noInheritedName Examples.options) by reflexivity.
  split; [exact H1|]. split; [exact H2|].
  destruct (getModel_sound Examples.models Examples.defaultId Examples.options H1 H2)
    as (entry & Hinfo & Hlisted & _).
  exists entry. split; [exact Hinfo | exact Hlisted].
Defined.

Lemma retry_reads_delta_only_witness :
  Handler.retryContent (Examples.contentChunk "ok") <> ""
  /\ Handler.retryContent (Examples.contentChunk "ok")
     = Handler.extractContent (Examples.contentChunk "ok").
Proof.
  assert (H : Handler.retryContent (Examples.contentChunk "ok") <> "") by discriminate.
  split; [exact H|]. exact (proj1 (retry_reads_delta_only (Examples.contentChunk "ok") H)).
Defined.

Lemma plain_stream_summary_witness :
  let events := [ Examples.contentChunk "Hel"; Examples.contentChunk "lo";
                  Examples.usageChunk 3 2 ] in
  let plain := PlainHandler.createMessage Examples.models Examples.defaultId
                 Examples.options
                 (Examples.env (fun _ _ => OpenAI.Streaming events None)) "Answer."
                 Examples.userHi in
  apiKeyConfigured Examples.options
  /\ Forall hasChoices events
  /\ exists summary,
      yielded plain = [ (ContentDelta, textChunk "Hel"); (ContentDelta, textChunk "lo");
                        (ResponseSummary, summary) ]
      /\ completion plain = Returned
      /\ summaryField summary "content" = Some (Json.JStr "Hello")
      /\ summaryField summary "tokensTotal" = Some (Json.JNum 5).
Proof.
  intros events plain.
  assert (Hkey : apiKeyConfigured Examples.options).
  { eexists. split; [reflexivity | discriminate]. }
  assert (Hall : Forall hasChoices events).
  { repeat constructor. }
  split; [exact Hkey|]. split; [exact Hall|].
  destruct (plain_stream_summary Examples.models Examples.defaultId Examples.options
              (Examples.env (fun _ _ => OpenAI.Streaming events None)) "Answer."
              Examples.userHi (Some 8192) events Hkey eq_refl eq_refl Hall)
    as (summary & Hrun & Hc & _ & _ & Ht).
  exists summary. split; [exact (f_equal yielded Hrun)|].
  split; [exact (f_equal completion Hrun)|]. split; [exact Hc | exact Ht].
Defined.

Lemma plain_malformed_event_aborts_witness :
  let keepAlive := OpenAI.ChunkObject None (Some "lo") None in
  let events := [ Examples.contentChunk "Hel"; keepAlive; Examples.contentChunk "!" ] in
  let plain := PlainHandler.createMessage Examples.models Examples.defaultId
                 Examples.options
                 (Examples.env (fun _ _ => OpenAI.Streaming events None)) "Answer."
                 Examples.userHi in
  ~ hasChoices keepAlive
  /\ yielded plain = [ (ContentDelta, textChunk "Hel") ]
  /\ completion plain
     = Thrown "Targon API error: Cannot read properties of undefined (reading '0')".
Proof.
  intros keepAlive events plain.
  assert (Hkey : apiKeyConfigured Examples.options).
  { eexists. split; [reflexivity | discriminate]. }
  assert (Hall : Forall hasChoices [ Examples.contentChunk "Hel" ]).
  { repeat constructor. }
  assert (Hbad : ~ hasChoices keepAlive) by (intros []).
  split; [exact Hbad|].
  pose proof (plain_malformed_event_aborts Examples.models Examples.defaultId
                Examples.options
                (Examples.env (fun _ _ => OpenAI.Streaming events None)) "Answer."
                Examples.userHi (Some 8192) [ Examples.contentChunk "Hel" ]
                [ Examples.contentChunk "!" ] keepAlive Hkey eq_refl eq_refl Hall Hbad)
    as Hrun.
  split; [exact (f_equal yielded Hrun) | exact (f_equal completion Hrun)].
Defined.

Lemma summary_reports_the_request_witness :
  let run := Handler.createMessage Examples.models Examples.defaultId Examples.options
               (Examples.env (fun _ _ => OpenAI.Streaming [ Examples.contentChunk "ok" ] None))
               "Answer." Examples.userHi in
  completion run = Returned
  /\ exists before summary,
      yielded run = before ++ [(ResponseSummary, summary)]
      /\ summaryField summary "model" = Some (Json.JStr "deepseek-ai/DeepSeek-V3")
      /\ summaryField summary "created" = Some (Json.JNum 1700000000)
      /\ summaryField summary "timeTotal" = Some (Json.JNum 377).
Proof.
  intros run. split; [reflexivity|].
  destruct (summary_reports_the_request Examples.models Examples.defaultId
              Examples.options
              (Examples.env (fun _ _ => OpenAI.Streaming [ Examples.contentChunk "ok" ] None))
              "Answer." Examples.userHi eq_refl)
    as (request & later & before & summary & Hsub & Hy & Hm & _ & _ & Hc & Ht).
  exists before, summary. split; [exact Hy|].
  inversion Hsub as [[Hrequest Hlater]]. rewrite <- Hrequest in Hm.
  split; [exact Hm|]. split; [exact Hc | exact Ht].
Defined.
